(** * TeleBot: reminder scheduler, wizard sessions and Indonesian time phrases

    A shallow embedding of [bot.js]: the deferred scheduler
    ([scheduleNoteJob] and its fire callback, the start-up loop), the
    per-chat session registry ([setState], [clearState], the expiry
    callback), the temporal resolver ([extractHourPreferToday],
    [parseIndoPrefer]), the reminder branches of the message handler,
    and, with a state of their own, the report wizards, the inline
    buttons and the commands around them.

    Conventions.
    - A [moment] in the configured zone is the number of milliseconds of
      wall-clock time since the zone's epoch, a [Z]; the zone has a fixed
      offset (the default, Asia/Makassar, has no daylight saving), so
      [add(1, "day")] is [+ 86400000] and [isBefore]/[isAfter] are [<]/[>].
    - A text is a [string] whose characters are the bytes of its UTF-8
      form; case folding and the classes [\s], [\d], [\w] are the ASCII
      ones (the source patterns are ASCII; Unicode-only blanks are not
      treated as [\s]).
    - Every synchronous run of a function reads the clock as one instant
      [now]; [scheduleNoteJob_clocks] keeps the reading of the guard and
      the later one of the scheduling library apart. *)

From Stdlib Require Import ZArith Ascii String List Bool Lia.
From stdpp Require Import gmap list.

Local Open Scope string_scope.
Local Open Scope Z_scope.

(** ** Wall-clock time: the moment.js getters and setters that are used *)

Module Moment.

Definition SECOND : Z := 1000.
Definition MINUTE : Z := 60000.
Definition HOUR : Z := 3600000.
Definition DAY : Z := 86400000.

Definition day (t : Z) : Z := t / DAY.
Definition hourOf (t : Z) : Z := (t mod DAY) / HOUR.
Definition minuteOf (t : Z) : Z := (t mod HOUR) / MINUTE.
Definition secondOf (t : Z) : Z := (t mod MINUTE) / SECOND.
Definition msOf (t : Z) : Z := t mod SECOND.

(** [MakeDate(Day, MakeTime(h, m, s, ms))]: out-of-range fields bubble
    up, as [Date.prototype.setUTCHours] and friends do. *)
Definition make (d h m s ms : Z) : Z :=
  d * DAY + h * HOUR + m * MINUTE + s * SECOND + ms.

Definition hour (h : Z) (t : Z) : Z :=
  make (day t) h (minuteOf t) (secondOf t) (msOf t).
Definition minute (m : Z) (t : Z) : Z :=
  make (day t) (hourOf t) m (secondOf t) (msOf t).
Definition second (s : Z) (t : Z) : Z :=
  make (day t) (hourOf t) (minuteOf t) s (msOf t).
Definition millisecond (ms : Z) (t : Z) : Z :=
  make (day t) (hourOf t) (minuteOf t) (secondOf t) ms.

Definition add_day (n : Z) (t : Z) : Z := t + n * DAY.

Definition startOfDay (t : Z) : Z := day t * DAY.

Definition isAfter (a b : Z) : bool := b <? a.
Definition isBefore (a b : Z) : bool := a <? b.

(** [at_hm now h m] is [now.hour(h).minute(m).second(0).millisecond(0)]. *)
Definition at_hm (now h m : Z) : Z :=
  millisecond 0 (second 0 (minute m (hour h now))).

End Moment.

(** ** Texts: the string primitives and regular expressions of the source *)

Module Text.

Definition code (c : ascii) : N := N_of_ascii c.

Definition is_space (c : ascii) : bool :=
  (code c =? 32)%N || ((9 <=? code c)%N && (code c <=? 13)%N).
Definition is_digit (c : ascii) : bool :=
  (48 <=? code c)%N && (code c <=? 57)%N.
Definition is_upper (c : ascii) : bool :=
  (65 <=? code c)%N && (code c <=? 90)%N.
Definition is_lower (c : ascii) : bool :=
  (97 <=? code c)%N && (code c <=? 122)%N.
(** [\w] *)
Definition is_word (c : ascii) : bool :=
  is_digit c || is_upper c || is_lower c || (code c =? 95)%N.

Definition lower (c : ascii) : ascii :=
  if is_upper c then ascii_of_N (code c + 32) else c.

Fixpoint toLowerCase (s : string) : string :=
  match s with
  | EmptyString => EmptyString
  | String c r => String (lower c) (toLowerCase r)
  end.

Fixpoint trimStart (s : string) : string :=
  match s with
  | String c r => if is_space c then trimStart r else s
  | EmptyString => EmptyString
  end.

Fixpoint trimEnd (s : string) : string :=
  match s with
  | EmptyString => EmptyString
  | String c r =>
      match trimEnd r with
      | EmptyString => if is_space c then EmptyString else String c EmptyString
      | r' => String c r'
      end
  end.

Definition trim (s : string) : string := trimEnd (trimStart s).

Definition is_empty (s : string) : bool :=
  match s with EmptyString => true | _ => false end.

(** [Number(s)] on a string of decimal digits ([Number("")] is [0]). *)
Fixpoint digits_value (acc : Z) (s : string) : Z :=
  match s with
  | EmptyString => acc
  | String c r => digits_value (acc * 10 + (Z.of_N (code c) - 48)) r
  end.
Definition Number (s : string) : Z := digits_value 0 s.

Fixpoint all_digits (s : string) : bool :=
  match s with
  | EmptyString => true
  | String c r => is_digit c && all_digits r
  end.

(** [Number(s)] where anything but decimal digits gives [NaN] ([None]);
    only outputs of [format("HH:mm")] reach this in the handler. *)
Definition Number_opt (s : string) : option Z :=
  if all_digits s then Some (Number s) else None.

(** A literal of a pattern with flag [i], tried at the head of [s]: the
    matched text and what follows it.  The literal is written in lower
    case. *)
Fixpoint lit_i (p s : string) : option (string * string) :=
  match p with
  | EmptyString => Some (EmptyString, s)
  | String a p' =>
      match s with
      | EmptyString => None
      | String b s' =>
          if Ascii.eqb a (lower b)
          then match lit_i p' s' with
               | Some (m, r) => Some (String b m, r)
               | None => None
               end
          else None
      end
  end.

(** An alternation of literals [(a|b|...)], first alternative first. *)
Fixpoint alt_i (alts : list string) (s : string) : option (string * string) :=
  match alts with
  | [] => None
  | p :: ps =>
      match lit_i p s with
      | Some r => Some r
      | None => alt_i ps s
      end
  end.

(** [\s*], greedy. *)
Definition skip_ws (s : string) : string := trimStart s.

(** [(\d{1,2})], greedy. *)
Definition digits12 (s : string) : option (string * string) :=
  match s with
  | String a (String b r) =>
      if is_digit a
      then if is_digit b
           then Some (String a (String b EmptyString), r)
           else Some (String a EmptyString, String b r)
      else None
  | String a EmptyString =>
      if is_digit a then Some (String a EmptyString, EmptyString) else None
  | EmptyString => None
  end.

(** [([:.](\d{2}))?]: group 4 and the rest. *)
Definition opt_minute (s : string) : option string * string :=
  match s with
  | String p (String a (String b r)) =>
      if ((code p =? 58)%N || (code p =? 46)%N) && is_digit a && is_digit b
      then (Some (String a (String b EmptyString)), r)
      else (None, s)
  | _ => (None, s)
  end.

(** Groups 2, 4 and 5 of
    [/(pukul|jam)\s*(\d{1,2})([:.](\d{2}))?\s*(pagi|siang|sore|malam|am|pm)?/i]. *)
Record hour_groups := HourGroups {
  m2 : string;
  m4 : option string;
  m5 : option string
}.

Definition meridiem_tokens : list string :=
  ["pagi"; "siang"; "sore"; "malam"; "am"; "pm"].

(** The pattern tried at the head of [s].  Everything after group 2 is
    optional, so the greedy choices below are the ones the backtracking
    matcher settles on. *)
Definition hour_re_here (s : string) : option hour_groups :=
  match alt_i ["pukul"; "jam"] s with
  | None => None
  | Some (_, r1) =>
      match digits12 (skip_ws r1) with
      | None => None
      | Some (h, r2) =>
          let '(mi, r3) := opt_minute r2 in
          Some {| m2 := h; m4 := mi;
                  m5 := fst <$> alt_i meridiem_tokens (skip_ws r3) |}
      end
  end.

(** [text.match(re)]: the leftmost position where the pattern matches. *)
Fixpoint hour_re (s : string) : option hour_groups :=
  match hour_re_here s with
  | Some g => Some g
  | None =>
      match s with
      | EmptyString => None
      | String _ r => hour_re r
      end
  end.

(** [/\bP\b/i.test(s)] for a literal [P] that starts and ends with a word
    character: [prev] tells whether the character before [s] is a word
    character. *)
Definition word_here (p : string) (prev : bool) (s : string) : bool :=
  negb prev &&
  match lit_i p s with
  | Some (_, String c _) => negb (is_word c)
  | Some (_, EmptyString) => true
  | None => false
  end.

Fixpoint word_from (p : string) (prev : bool) (s : string) : bool :=
  word_here p prev s ||
  match s with
  | EmptyString => false
  | String c r => word_from p (is_word c) r
  end.

Definition word_test (p s : string) : bool := word_from p false s.

(** [/a|b|.../i.test(s)]: some alternative occurs somewhere in [s]. *)
Fixpoint alt_test (alts : list string) (s : string) : bool :=
  match alt_i alts s with
  | Some _ => true
  | None =>
      match s with
      | EmptyString => false
      | String _ r => alt_test alts r
      end
  end.

(** Two decimal digits, as [format("HH")] and [format("mm")] print a
    field. *)
Definition digit_char (n : Z) : ascii := ascii_of_N (Z.to_N (48 + n)).
Definition pad2 (n : Z) : string :=
  String (digit_char (n / 10)) (String (digit_char (n mod 10)) EmptyString).

(** [s.split(":")] *)
Fixpoint split_colon (s : string) : list string :=
  match s with
  | EmptyString => [EmptyString]
  | String c r =>
      if (code c =? 58)%N
      then EmptyString :: split_colon r
      else match split_colon r with
           | w :: ws => String c w :: ws
           | [] => [String c EmptyString]
           end
  end.

(** A literal of a pattern without flag [i]. *)
Fixpoint lit (p s : string) : option string :=
  match p with
  | EmptyString => Some s
  | String a p' =>
      match s with
      | EmptyString => None
      | String b s' => if Ascii.eqb a b then lit p' s' else None
      end
  end.

(** [s.replace(/re/g, ...)]: [m prev s] tries the pattern at the head of
    [s] ([prev]: the character before is a word character) and gives the
    replacement and the number of characters matched, at least one. *)
Fixpoint replace_g (m : bool -> string -> option (string * nat))
    (skip : nat) (prev : bool) (s : string) : string :=
  match s with
  | EmptyString => EmptyString
  | String c r =>
      match skip with
      | S k => replace_g m k (is_word c) r
      | O =>
          match m prev s with
          | Some (rep, n) => rep ++ replace_g m (Nat.pred n) (is_word c) r
          | None => String c (replace_g m 0%nat (is_word c) r)
          end
      end
  end.

Definition replaceAll (m : bool -> string -> option (string * nat))
    (s : string) : string :=
  replace_g m 0%nat false s.

(** [/\bP\b/] replaced by [rep]. *)
Definition m_word (p rep : string) (prev : bool) (s : string)
    : option (string * nat) :=
  if negb prev then
    match lit p s with
    | Some (String c _) =>
        if is_word c then None else Some (rep, String.length p)
    | Some EmptyString => Some (rep, String.length p)
    | None => None
    end
  else None.

(** [/\bK\s*(\d{1,2})([:.](\d{2}))?/] replaced by ["at $1:$3"]; an
    unmatched [$3] is the empty string. *)
Definition m_clock (k : string) (prev : bool) (s : string)
    : option (string * nat) :=
  if negb prev then
    match lit k s with
    | None => None
    | Some r1 =>
        match digits12 (skip_ws r1) with
        | None => None
        | Some (h, r2) =>
            let '(mi, r3) := opt_minute r2 in
            Some ("at " ++ h ++ ":" ++ default EmptyString mi,
                  (String.length s - String.length r3)%nat)
        end
    end
  else None.

(** [/\s+/] replaced by one blank. *)
Definition m_blanks (_ : bool) (s : string) : option (string * nat) :=
  match s with
  | String c _ =>
      if is_space c
      then Some (" ", (String.length s - String.length (skip_ws s))%nat)
      else None
  | EmptyString => None
  end.

(** A plain literal, replaced by [rep]. *)
Definition m_lit (p rep : string) (_ : bool) (s : string)
    : option (string * nat) :=
  match lit p s with
  | Some _ => Some (rep, String.length p)
  | None => None
  end.

End Text.

(** ** 4.1 The temporal resolver *)

(** The meridiem block of [extractHourPreferToday]. *)
Definition to24h (meridiem : string) (hour : Z) : Z :=
  if negb (Text.is_empty meridiem) then
    if String.eqb meridiem "pagi" && (hour =? 12) then 0
    else if (String.eqb meridiem "siang" || String.eqb meridiem "sore"
             || String.eqb meridiem "malam") && (hour <? 12)
    then hour + 12
    else if String.eqb meridiem "pm" && (hour <? 12) then hour + 12
    else if String.eqb meridiem "am" && (hour =? 12) then 0
    else hour
  else hour.

Definition extractHourPreferToday (text : string) (now : Z) : option Z :=
  match Text.hour_re text with
  | None => None
  | Some m =>
      let hour := Text.Number (Text.m2 m) in
      let minute :=
        match Text.m4 m with Some d => Text.Number d | None => 0 end in
      let meridiem := Text.toLowerCase (default EmptyString (Text.m5 m)) in
      let hour := to24h meridiem hour in
      let candidate := Moment.at_hm now hour minute in
      Some candidate
  end.

Definition containsHariIni (text : string) : bool :=
  Text.word_test "hari ini" text || Text.word_test "today" text.

(** Normalisation of Indonesian words for the generic parser. *)
Definition normalizeIndo (text : string) : string :=
  let t := Text.toLowerCase text in
  let t := Text.replaceAll (Text.m_word "besok" "tomorrow") t in
  let t := Text.replaceAll (Text.m_word "lusa" "day after tomorrow") t in
  let t := Text.replaceAll (Text.m_word "nanti malam" "tonight") t in
  let t := Text.replaceAll (Text.m_word "pagi" "morning") t in
  let t := Text.replaceAll (Text.m_word "siang" "noon") t in
  let t := Text.replaceAll (Text.m_word "sore" "afternoon") t in
  let t := Text.replaceAll (Text.m_word "malam" "evening") t in
  let t := Text.replaceAll (Text.m_word "minggu depan" "next week") t in
  let t := Text.replaceAll (Text.m_word "hari ini" "today") t in
  let t := Text.replaceAll (Text.m_word "sebentar" "later") t in
  let t := Text.replaceAll (Text.m_word "nanti" "later") t in
  let t := Text.replaceAll (Text.m_clock "pukul") t in
  let t := Text.replaceAll (Text.m_clock "jam") t in
  let t := Text.replaceAll Text.m_blanks t in
  let t := Text.replaceAll (Text.m_lit ":undefined" EmptyString) t in
  Text.trim t.

(** What [parseIndoPrefer] returns: a moment, the object
    [{ error: "time_passed_today", candidate }], or [null]. *)
Inductive parsed :=
  | PMoment (t : Z)
  | PTimePassedToday (candidate : Z)
  | PNull.

Section Resolver.

(** [chrono.parseDate(text, ref, { forwardDate })] of the chrono-node
    package: the parsed instant, or [None] for [null] and for an
    exception (the callers here turn both into [null]). *)
Variable chrono_parseDate : string -> Z -> bool -> option Z.

Definition parseIndoPrefer (text : string) (now : Z) : parsed :=
  let manual := extractHourPreferToday text now in
  let containsHariIni := containsHariIni text in
  match manual with
  | Some manual =>
      if Moment.isAfter manual now then PMoment manual
      else if containsHariIni then PTimePassedToday manual
      else PMoment (Moment.add_day 1 manual)
  | None =>
      let normalized := normalizeIndo text in
      match chrono_parseDate normalized now true with
      | Some m =>
          if Moment.isBefore m now
             && negb (Text.alt_test ["tomorrow"; "besok"; "lusa"] text)
          then PMoment (Moment.add_day 1 m)
          else PMoment m
      | None =>
          match chrono_parseDate text now true with
          | Some m => PMoment m
          | None => PNull
          end
      end
  end.

End Resolver.

(** ** The persistent store: table [notes] *)

(** The text of column [reminder_at], by what [moment.tz] makes of it:
    an instant, or an invalid moment. *)
Inductive stamp :=
  | Iso (t : Z)
  | Unparsable.

(** A row of [notes] without its primary key ([created_at] is only
    used to order listings). *)
Record row := Row {
  chat_id : Z;
  note_text : string;
  reminder_at : option stamp;
  reminded : Z;
  status : string
}.

(** A row as the statements return it. *)
Record note := Note {
  note_id : Z;
  cols : row
}.

(** The table keyed by [id INTEGER PRIMARY KEY AUTOINCREMENT], with the
    counter SQLite keeps in [sqlite_sequence]. *)
Record database := Database {
  notes : gmap Z row;
  notes_seq : Z
}.

Definition max_rowid (m : gmap Z row) : Z :=
  foldr Z.max 0 (fst <$> map_to_list m).

(** [insertNoteStmt.run(chatId, text, reminder_at)]: the new
    [lastInsertRowid] and the table. *)
Definition insertNoteStmt (chatId : Z) (text : string)
    (at_ : option stamp) (d : database) : Z * database :=
  let rowid := 1 + Z.max (notes_seq d) (max_rowid (notes d)) in
  (rowid,
   {| notes := <[rowid := {| chat_id := chatId; note_text := text;
                             reminder_at := at_; reminded := 0;
                             status := "pending" |}]> (notes d);
      notes_seq := rowid |}).

Definition getNoteByIdStmt (i chatId : Z) (d : database) : option note :=
  match notes d !! i with
  | Some r => if chat_id r =? chatId then Some (Note i r) else None
  | None => None
  end.

Definition update_where (i chatId : Z) (f : row -> row) (d : database)
    : database :=
  {| notes := alter (fun r => if chat_id r =? chatId then f r else r) i
                (notes d);
     notes_seq := notes_seq d |}.

Definition updateNoteTextStmt (text : string) (i chatId : Z)
    : database -> database :=
  update_where i chatId (fun r =>
    {| chat_id := chat_id r; note_text := text;
       reminder_at := reminder_at r; reminded := reminded r;
       status := status r |}).

Definition updateNoteReminderStmt (at_ : option stamp) (i chatId : Z)
    : database -> database :=
  update_where i chatId (fun r =>
    {| chat_id := chat_id r; note_text := note_text r;
       reminder_at := at_; reminded := 0; status := status r |}).

(** ["UPDATE notes SET reminded = 1 WHERE id = ?"] *)
Definition markReminded (i : Z) (d : database) : database :=
  {| notes := alter (fun r =>
       {| chat_id := chat_id r; note_text := note_text r;
          reminder_at := reminder_at r; reminded := 1;
          status := status r |}) i (notes d);
     notes_seq := notes_seq d |}.

Definition deleteNoteByIdStmt (i chatId : Z) (d : database) : database :=
  match getNoteByIdStmt i chatId d with
  | Some _ => {| notes := delete i (notes d); notes_seq := notes_seq d |}
  | None => d
  end.

(** ["SELECT * FROM notes WHERE reminder_at IS NOT NULL AND reminded = 0"] *)
Definition due_row (n : note) : bool :=
  match reminder_at (cols n) with
  | Some _ => reminded (cols n) =? 0
  | None => false
  end.

Definition existing (d : database) : list note :=
  filter (fun n => due_row n = true)
         ((fun kv => Note (fst kv) (snd kv)) <$> map_to_list (notes d)).

(** ** 4.2 The deferred scheduler *)

(** A one-shot job of node-schedule: the [note] its callback closes
    over and the date of its invocation. *)
Record job := Job {
  job_note : note;
  job_when : Z
}.

(** [scheduledJobs] maps a reminder id to a job object, named by a
    handle, or to [null]; [pending] holds the invocations the library
    still has to fire; [running] holds the callbacks that have started
    and wait at [await bot.sendMessage]. *)
Record scheduler := Scheduler {
  scheduledJobs : gmap Z (option nat);
  pending : gmap nat job;
  running : gmap nat job;
  next_job : nat
}.

Definition no_jobs : scheduler :=
  {| scheduledJobs := ∅; pending := ∅; running := ∅; next_job := 0 |}.

(** [schedule.scheduleJob(date, callback)]: the library refuses a date
    that is before its clock and returns [null]. *)
Definition scheduleJob (n : note) (when now : Z) (s : scheduler)
    : option nat * scheduler :=
  if when <? now then (None, s)
  else (Some (next_job s),
        {| scheduledJobs := scheduledJobs s;
           pending := <[next_job s := Job n when]> (pending s);
           running := running s;
           next_job := S (next_job s) |}).

(** [job.cancel()] *)
Definition cancel (h : nat) (s : scheduler) : scheduler :=
  {| scheduledJobs := scheduledJobs s;
     pending := delete h (pending s);
     running := running s;
     next_job := next_job s |}.

Definition jobs_delete (i : Z) (s : scheduler) : scheduler :=
  {| scheduledJobs := delete i (scheduledJobs s);
     pending := pending s;
     running := running s;
     next_job := next_job s |}.

Definition jobs_set (i : Z) (j : option nat) (s : scheduler) : scheduler :=
  {| scheduledJobs := <[i := j]> (scheduledJobs s);
     pending := pending s;
     running := running s;
     next_job := next_job s |}.

(** The block [if (scheduledJobs.has(id)) { try { get(id).cancel() }
    catch {} ; delete(id) }]; on a [null] entry [cancel] throws and the
    [catch] swallows it. *)
Definition cancel_existing (i : Z) (s : scheduler) : scheduler :=
  match scheduledJobs s !! i with
  | Some entry =>
      jobs_delete i
        (match entry with Some h => cancel h s | None => s end)
  | None => s
  end.

(** [scheduleNoteJob(note)] on a run in which the clock does not move
    between the guard and the library: [now] is what both
    [moment.tz(TIMEZONE)] of the guard and the library's own clock read.
    [scheduleNoteJob_clocks] below keeps the two readings apart. *)
Definition scheduleNoteJob (n : option note) (now : Z) (s : scheduler)
    : scheduler :=
  match n with
  | None => s
  | Some n =>
      match reminder_at (cols n) with
      | None => s
      | Some Unparsable => s
      | Some (Iso when) =>
          if Moment.isBefore when now then s
          else
            let s := cancel_existing (note_id n) s in
            let '(j, s) := scheduleJob n when now s in
            jobs_set (note_id n) j s
      end
  end.

(** [scheduleNoteJob(note)] with its two readings of the clock: the
    guard compares the time with [now], and [schedule.scheduleJob],
    called later in the same run, compares it with [lib], its own
    reading.  When the clock has passed the time in between, the library
    returns [null] and [null] is what the registry gets. *)
Definition scheduleNoteJob_clocks (n : option note) (now lib : Z)
    (s : scheduler) : scheduler :=
  match n with
  | None => s
  | Some n =>
      match reminder_at (cols n) with
      | None => s
      | Some Unparsable => s
      | Some (Iso when) =>
          if Moment.isBefore when now then s
          else
            let s := cancel_existing (note_id n) s in
            let '(j, s) := scheduleJob n when lib s in
            jobs_set (note_id n) j s
      end
  end.

(** The start-up loop [for (const n of existing) scheduleNoteJob(n)]. *)
Definition recover (d : database) (now : Z) : scheduler :=
  foldl (fun s n => scheduleNoteJob (Some n) now s) no_jobs (existing d).

(** ** 4.3 The session manager *)

Inductive mode :=
  | edit_note_text
  | edit_note_time
  | create_reminder
  | confirm_next_for_reminder
  | await_time_for_note
  | create_report
  | edit_report.

(** The state object of a chat; a field the object does not have is
    [None].  The working record of the report wizards is added by
    [state_obj]. *)
Record session := Session {
  st_mode : mode;
  st_step : option Z;
  st_id : option Z;
  st_text : option string;
  st_candidate : option string
}.

(** [userState], [stateTimeouts], and the timeouts [setTimeout] has
    armed: handle to owner and deadline. *)
Record sessions := Sessions {
  userState : gmap Z session;
  stateTimeouts : gmap Z nat;
  timers : gmap nat (Z * Z);
  next_timer : nat
}.

Definition no_sessions : sessions :=
  {| userState := ∅; stateTimeouts := ∅; timers := ∅; next_timer := 0 |}.

Definition SESSION_TIMEOUT : Z := 2 * 60 * 1000.

Definition clearTimeout (h : nat) (ss : sessions) : sessions :=
  {| userState := userState ss;
     stateTimeouts := stateTimeouts ss;
     timers := delete h (timers ss);
     next_timer := next_timer ss |}.

Definition setState (chatId : Z) (stateObj : session) (now : Z)
    (ss : sessions) : sessions :=
  let ss := {| userState := <[chatId := stateObj]> (userState ss);
              stateTimeouts := stateTimeouts ss;
              timers := timers ss;
              next_timer := next_timer ss |} in
  let ss := match stateTimeouts ss !! chatId with
           | Some h => clearTimeout h ss
           | None => ss
           end in
  let t := next_timer ss in
  {| userState := userState ss;
     stateTimeouts := <[chatId := t]> (stateTimeouts ss);
     timers := <[t := (chatId, now + SESSION_TIMEOUT)]> (timers ss);
     next_timer := S t |}.

Definition clearState (chatId : Z) (ss : sessions) : sessions :=
  let ss := {| userState := delete chatId (userState ss);
              stateTimeouts := stateTimeouts ss;
              timers := timers ss;
              next_timer := next_timer ss |} in
  match stateTimeouts ss !! chatId with
  | Some h =>
      let ss := clearTimeout h ss in
      {| userState := userState ss;
         stateTimeouts := delete chatId (stateTimeouts ss);
         timers := timers ss;
         next_timer := next_timer ss |}
  | None => ss
  end.

(** The registry part of the expiry callback. *)
Definition expire_session (chatId : Z) (ss : sessions) : sessions :=
  {| userState := delete chatId (userState ss);
     stateTimeouts := delete chatId (stateTimeouts ss);
     timers := timers ss;
     next_timer := next_timer ss |}.

(** ** The running process *)

(** The outbound messages of the embedded branches, by template. *)
Inductive outmsg :=
  | MsgReminder (text : string)
  | MsgSessionExpired
  | MsgMainMenu
  | MsgTextUpdated (i : Z)
  | MsgTodayPassedEdit
  | MsgUnrecognized
  | MsgTimeUpdated (i : Z) (t : Z)
  | MsgAskWhen
  | MsgAskTomorrow (hhmm : string)
  | MsgSaved (i : Z) (t : Z)
  | MsgScheduledTomorrow (t : Z) (i : Z)
  | MsgSendNewTime
  | MsgTimeSet (i : Z) (t : Z)
  | MsgAskText
  | MsgCancelled
  | MsgAboutWhat
  | MsgTodayPassedAsk
  | MsgSavedTemp (i : Z)
  | MsgNotUnderstood.

Inductive exn :=
  | SendFailed
  | DbFailed.

Record world := World {
  db : database;
  sched : scheduler;
  sess : sessions;
  outbox : list (Z * outmsg);
  console_errors : list exn
}.

Definition boot (d : database) (now : Z) : world :=
  {| db := d; sched := recover d now; sess := no_sessions;
     outbox := []; console_errors := [] |}.

Definition on_db (f : database -> database) (w : world) : world :=
  {| db := f (db w); sched := sched w; sess := sess w;
     outbox := outbox w; console_errors := console_errors w |}.

Definition on_sched (f : scheduler -> scheduler) (w : world) : world :=
  {| db := db w; sched := f (sched w); sess := sess w;
     outbox := outbox w; console_errors := console_errors w |}.

Definition on_sess (f : sessions -> sessions) (w : world) : world :=
  {| db := db w; sched := sched w; sess := f (sess w);
     outbox := outbox w; console_errors := console_errors w |}.

(** [bot.sendMessage(chatId, ...)], not awaited. *)
Definition sendMessage (chatId : Z) (m : outmsg) (w : world) : world :=
  {| db := db w; sched := sched w; sess := sess w;
     outbox := outbox w ++ [(chatId, m)];
     console_errors := console_errors w |}.

Definition showMainMenu (chatId : Z) : world -> world :=
  sendMessage chatId MsgMainMenu.

(** *** Code that may throw: a state and exception monad *)

Inductive result (A : Type) :=
  | Returned (a : A)
  | Thrown (e : exn).
Arguments Returned {A} a.
Arguments Thrown {A} e.

Definition M (A : Type) : Type := world -> result A * world.

Definition ret {A} (a : A) : M A := fun w => (Returned a, w).
Definition throw {A} (e : exn) : M A := fun w => (Thrown e, w).
Definition bind {A B} (m : M A) (k : A -> M B) : M B :=
  fun w =>
    match m w with
    | (Returned a, w') => k a w'
    | (Thrown e, w') => (Thrown e, w')
    end.
Definition try_catch {A} (body : M A) (handler : exn -> M A) : M A :=
  fun w =>
    match body w with
    | (Returned a, w') => (Returned a, w')
    | (Thrown e, w') => handler e w'
    end.
Definition modify (f : world -> world) : M unit :=
  fun w => (Returned tt, f w).

Definition andThen {A B} (m1 : M A) (m2 : M B) : M B :=
  bind m1 (fun _ => m2).

(** [await bot.sendMessage(...)] once the promise has settled:
    delivered, or rejected. *)
Definition await_sendMessage (delivered : bool) (chatId : Z) (m : outmsg)
    : M unit :=
  if delivered then modify (sendMessage chatId m) else throw SendFailed.

(** [db.prepare("UPDATE notes SET reminded = 1 WHERE id = ?").run(id)];
    the statement may throw. *)
Definition run_markReminded (db_ok : bool) (i : Z) : M unit :=
  if db_ok then modify (on_db (markReminded i)) else throw DbFailed.

Definition console_error (e : exn) : M unit :=
  modify (fun w =>
    {| db := db w; sched := sched w; sess := sess w; outbox := outbox w;
       console_errors := console_errors w ++ [e] |}).

(** The callback given to [schedule.scheduleJob], from the point where
    [await bot.sendMessage] resumes. *)
Definition fire_callback (n : note) (delivered db_ok : bool) : M unit :=
  andThen
    (try_catch
       (andThen
          (await_sendMessage delivered (chat_id (cols n))
             (MsgReminder (note_text (cols n))))
          (run_markReminded db_ok (note_id n)))
       (fun e => console_error e))
    (modify (on_sched (jobs_delete (note_id n)))).

(** The library fires a pending invocation whose date has come: it takes
    the invocation off its list and starts the callback, which runs up
    to its [await]. *)
Definition fire_begin (h : nat) (now : Z) (s : scheduler) : scheduler :=
  match pending s !! h with
  | Some j =>
      if job_when j <=? now
      then {| scheduledJobs := scheduledJobs s;
              pending := delete h (pending s);
              running := <[h := j]> (running s);
              next_job := next_job s |}
      else s
  | None => s
  end.

(** The promise settles and the callback runs to its end. *)
Definition fire_end (h : nat) (delivered db_ok : bool) : M unit :=
  fun w =>
    match running (sched w) !! h with
    | Some j =>
        fire_callback (job_note j) delivered db_ok
          (on_sched (fun s =>
             {| scheduledJobs := scheduledJobs s;
                pending := pending s;
                running := delete h (running s);
                next_job := next_job s |}) w)
    | None => (Returned tt, w)
    end.

(** The expiry callback of [setState]. *)
Definition expiry_callback (chatId : Z) (w : world) : world :=
  showMainMenu chatId
    (sendMessage chatId MsgSessionExpired
       (on_sess (expire_session chatId) w)).

(** A timeout whose deadline has come fires once. *)
Definition expire (h : nat) (now : Z) (w : world) : world :=
  match timers (sess w) !! h with
  | Some (chatId, deadline) =>
      if deadline <=? now
      then expiry_callback chatId (on_sess (clearTimeout h) w)
      else w
  | None => w
  end.

(** The note branch of [/delete <id>]. *)
Definition delete_note (i chatId : Z) (w : world) : world :=
  match getNoteByIdStmt i chatId (db w) with
  | Some _ =>
      on_sched (cancel_existing i) (on_db (deleteNoteByIdStmt i chatId) w)
  | None => w
  end.

(** ** 4.4 The message handler: reminder flows *)

(** [m.format("HH:mm")] *)
Definition format_HHmm (t : Z) : string :=
  Text.pad2 (Moment.hourOf t) ++ ":" ++ Text.pad2 (Moment.minuteOf t).

(** [/^y(es|a)?$/i.test(text) || text.toLowerCase() === "ya"] *)
Definition affirmative (text : string) : bool :=
  match Text.lit_i "y" text with
  | Some (_, r) =>
      match Text.lit_i "es" r with
      | Some (_, EmptyString) => true
      | _ =>
          match Text.lit_i "a" r with
          | Some (_, EmptyString) => true
          | _ => Text.is_empty r
          end
      end
  | None => false
  end
  || String.eqb (Text.toLowerCase text) "ya".

(** [/^(ingatkan|ingat|tolong ingatkan|remind)/i.test(text)] *)
Definition asks_reminder (text : string) : bool :=
  match Text.alt_i ["ingatkan"; "ingat"; "tolong ingatkan"; "remind"] text with
  | Some _ => true
  | None => false
  end.

(** [text.replace(/^(ingatkan|ingat|tolong ingatkan)( saya| aku)?/i, "")] *)
Definition strip_request (text : string) : string :=
  match Text.alt_i ["ingatkan"; "ingat"; "tolong ingatkan"] text with
  | Some (_, r) =>
      match Text.alt_i [" saya"; " aku"] r with
      | Some (_, r') => r'
      | None => r
      end
  | None => text
  end.

(** The labels of the reply keyboard, lower-cased. *)
Definition label_catat_pengingat : string := "🕰️ catat pengingat".
Definition label_kembali : string := "🏠 kembali ke menu utama".
Definition other_labels : list string :=
  [ "🕓 cek waktu bot"; "📜 lihat pengingat"; "🧾 laporan kerja harian";
    "📥 lihat laporan"; "📅 lihat laporan (range)"; "🗑️ hapus pengingat";
    "✏️ edit pengingat"; "✏️ edit laporan"; "🗑️ hapus laporan" ].

(** What one run of the handler does: the new state of the process, or
    [Outside] for a branch that is not embedded (the report wizards, the
    listings of the keyboard, a state object without the field its
    branch reads). *)
Inductive outcome :=
  | Done (w : world)
  | Outside.

Definition insert_note (chatId : Z) (text : string) (at_ : option stamp)
    (w : world) : Z * world :=
  let '(rowid, d) := insertNoteStmt chatId text at_ (db w) in
  (rowid, on_db (fun _ => d) w).

Definition schedule_by_id (i chatId now : Z) (w : world) : world :=
  on_sched (scheduleNoteJob (getNoteByIdStmt i chatId (db w)) now) w.

Section Handler.

Variable chrono_parseDate : string -> Z -> bool -> option Z.

Definition handle_edit_note_text (chatId : Z) (text : string)
    (st : session) (w : world) : outcome :=
  match st_id st with
  | Some i =>
      let w := on_db (updateNoteTextStmt text i chatId) w in
      let w := on_sess (clearState chatId) w in
      let w := sendMessage chatId (MsgTextUpdated i) w in
      Done (showMainMenu chatId w)
  | None => Outside
  end.

Definition handle_edit_note_time (chatId : Z) (text : string) (now : Z)
    (st : session) (w : world) : outcome :=
  match parseIndoPrefer chrono_parseDate text now with
  | PTimePassedToday _ => Done (sendMessage chatId MsgTodayPassedEdit w)
  | PNull => Done (sendMessage chatId MsgUnrecognized w)
  | PMoment t =>
      match st_id st with
      | Some i =>
          let w := on_db (updateNoteReminderStmt (Some (Iso t)) i chatId) w in
          let w := schedule_by_id i chatId now w in
          let w := on_sess (clearState chatId) w in
          let w := sendMessage chatId (MsgTimeUpdated i t) w in
          Done (showMainMenu chatId w)
      | None => Outside
      end
  end.

(** [None]: the step is neither 1 nor 2 and control falls through. *)
Definition handle_create_reminder (chatId : Z) (text : string) (now : Z)
    (st : session) (w : world) : option outcome :=
  match st_step st with
  | Some 1 =>
      let st := {| st_mode := st_mode st; st_step := Some 2;
                   st_id := st_id st; st_text := Some text;
                   st_candidate := st_candidate st |} in
      let w := on_sess (setState chatId st now) w in
      Some (Done (sendMessage chatId MsgAskWhen w))
  | Some 2 =>
      match parseIndoPrefer chrono_parseDate text now with
      | PTimePassedToday candidate =>
          let w := on_sess (setState chatId
                     {| st_mode := confirm_next_for_reminder;
                        st_step := None; st_id := None;
                        st_text := st_text st;
                        st_candidate := Some (format_HHmm candidate) |}
                     now) w in
          Some (Done (sendMessage chatId
                        (MsgAskTomorrow (format_HHmm candidate)) w))
      | PNull => Some (Done (sendMessage chatId MsgUnrecognized w))
      | PMoment t =>
          match st_text st with
          | Some note_text =>
              let '(i, w) := insert_note chatId note_text (Some (Iso t)) w in
              let w := schedule_by_id i chatId now w in
              let w := on_sess (clearState chatId) w in
              let w := sendMessage chatId (MsgSaved i t) w in
              Some (Done (showMainMenu chatId w))
          | None => Some Outside
          end
      end
  | _ => None
  end.

Definition handle_confirm_next (chatId : Z) (text : string) (now : Z)
    (st : session) (w : world) : outcome :=
  if affirmative text then
    match st_candidate st, st_text st with
    | Some hhmm, Some note_text =>
        match Text.Number_opt <$> Text.split_colon hhmm with
        | Some hh :: Some mm :: _ =>
            let dt := Moment.at_hm (Moment.add_day 1 now) hh mm in
            let '(i, w) := insert_note chatId note_text (Some (Iso dt)) w in
            let w := schedule_by_id i chatId now w in
            let w := on_sess (clearState chatId) w in
            let w := sendMessage chatId (MsgScheduledTomorrow dt i) w in
            Done (showMainMenu chatId w)
        | _ => Outside
        end
    | _, _ => Outside
    end
  else
    let w := on_sess (setState chatId
               {| st_mode := create_reminder; st_step := Some 2;
                  st_id := None; st_text := st_text st;
                  st_candidate := None |} now) w in
    Done (sendMessage chatId MsgSendNewTime w).

Definition handle_await_time (chatId : Z) (text : string) (now : Z)
    (st : session) (w : world) : outcome :=
  match parseIndoPrefer chrono_parseDate text now with
  | PMoment t =>
      match st_id st with
      | Some i =>
          let w := on_db (updateNoteReminderStmt (Some (Iso t)) i chatId) w in
          let w := schedule_by_id i chatId now w in
          let w := sendMessage chatId (MsgTimeSet i t) w in
          let w := on_sess (clearState chatId) w in
          Done (showMainMenu chatId w)
      | None => Outside
      end
  | _ => Done (sendMessage chatId MsgUnrecognized w)
  end.

(** The report wizards return at steps 1 to 6 and fall through at any
    other step. *)
Definition handle_report (st : session) : option outcome :=
  match st_step st with
  | Some n => if (1 <=? n) && (n <=? 6) then Some Outside else None
  | None => None
  end.

(** The block [if (userState.has(chatId)) { ... }]. *)
Definition in_session (chatId : Z) (text : string) (now : Z)
    (st : session) (w : world) : option outcome :=
  match st_mode st with
  | edit_note_text => Some (handle_edit_note_text chatId text st w)
  | edit_note_time => Some (handle_edit_note_time chatId text now st w)
  | create_reminder => handle_create_reminder chatId text now st w
  | confirm_next_for_reminder =>
      Some (handle_confirm_next chatId text now st w)
  | await_time_for_note => Some (handle_await_time chatId text now st w)
  | create_report => handle_report st
  | edit_report => handle_report st
  end.

(** The natural request [ingatkan ...]. *)
Definition natural_request (chatId : Z) (text : string) (now : Z)
    (w : world) : outcome :=
  let noteText := Text.trim (strip_request text) in
  if Text.is_empty noteText then Done (sendMessage chatId MsgAboutWhat w)
  else
    match parseIndoPrefer chrono_parseDate text now with
    | PTimePassedToday candidate =>
        let '(i, w) := insert_note chatId noteText None w in
        let w := on_sess (setState chatId
                   {| st_mode := confirm_next_for_reminder;
                      st_step := None; st_id := Some i;
                      st_text := Some noteText;
                      st_candidate := Some (format_HHmm candidate) |}
                   now) w in
        Done (sendMessage chatId MsgTodayPassedAsk w)
    | PNull =>
        let '(i, w) := insert_note chatId noteText None w in
        let w := on_sess (setState chatId
                   {| st_mode := await_time_for_note; st_step := None;
                      st_id := Some i; st_text := None;
                      st_candidate := None |} now) w in
        Done (sendMessage chatId (MsgSavedTemp i) w)
    | PMoment t =>
        let '(i, w) := insert_note chatId noteText (Some (Iso t)) w in
        let w := schedule_by_id i chatId now w in
        let w := sendMessage chatId (MsgSaved i t) w in
        Done (showMainMenu chatId w)
    end.

(** The part of the handler after the session block. *)
Definition keyboard (chatId : Z) (text : string) (now : Z) (w : world)
    : outcome :=
  let lower := Text.toLowerCase text in
  if String.eqb lower label_catat_pengingat then
    let w := on_sess (setState chatId
               {| st_mode := create_reminder; st_step := Some 1;
                  st_id := None; st_text := None;
                  st_candidate := None |} now) w in
    Done (sendMessage chatId MsgAskText w)
  else if existsb (String.eqb lower) other_labels then Outside
  else if String.eqb lower label_kembali then
    let w := on_sess (clearState chatId) w in
    let w := on_sess (fun ss =>
               {| userState := delete chatId (userState ss);
                  stateTimeouts := stateTimeouts ss;
                  timers := timers ss;
                  next_timer := next_timer ss |}) w in
    let w := sendMessage chatId MsgCancelled w in
    Done (showMainMenu chatId w)
  else if asks_reminder text then natural_request chatId text now w
  else Done (sendMessage chatId MsgNotUnderstood w).

(** [bot.on("message", ...)] for a message with text [msg_text]. *)
Definition onMessage (chatId : Z) (msg_text : string) (now : Z)
    (w : world) : outcome :=
  if Text.is_empty msg_text then Done w
  else
    let text := Text.trim msg_text in
    match userState (sess w) !! chatId with
    | Some st =>
        match in_session chatId text now st w with
        | Some o => o
        | None => keyboard chatId text now w
        end
    | None => keyboard chatId text now w
    end.

End Handler.

(** ** Runs of the scheduler and of the session manager *)

(** What can happen to the scheduler: a call of [scheduleNoteJob], the
    note branch of [/delete], the library firing a job (the callback
    starts and waits for the gateway), and the gateway's answer (the
    callback resumes and ends).  Other handlers may run between the last
    two. *)
Inductive sched_event :=
  | Arm (n : option note) (now : Z)
  | Delete (i chatId : Z)
  | Fire (h : nat) (now : Z)
  | Settle (h : nat) (delivered db_ok : bool).

Definition sched_step (w : world) (e : sched_event) : world :=
  match e with
  | Arm n now => on_sched (scheduleNoteJob n now) w
  | Delete i chatId => delete_note i chatId w
  | Fire h now => on_sched (fire_begin h now) w
  | Settle h delivered db_ok => snd (fire_end h delivered db_ok w)
  end.

Definition sched_run (es : list sched_event) (w : world) : world :=
  foldl sched_step w es.

(** Handle [h] is an armed timer of reminder [i]. *)
Definition armed (s : scheduler) (i : Z) (h : nat) : Prop :=
  exists j, pending s !! h = Some j /\ note_id (job_note j) = i.

(** Every armed timer is the one the registry holds for its reminder,
    and the registry names no timer of another reminder. *)
Definition tracked (s : scheduler) : Prop :=
  (forall h j, pending s !! h = Some j ->
     (h < next_job s)%nat /\
     scheduledJobs s !! note_id (job_note j) = Some (Some h)) /\
  (forall i h, scheduledJobs s !! i = Some (Some h) ->
     (h < next_job s)%nat /\
     forall j, pending s !! h = Some j -> note_id (job_note j) = i).

Inductive session_event :=
  | SetState (chatId : Z) (stateObj : session) (now : Z)
  | ClearState (chatId : Z)
  | Expire (h : nat) (now : Z).

Definition session_step (w : world) (e : session_event) : world :=
  match e with
  | SetState chatId stateObj now => on_sess (setState chatId stateObj now) w
  | ClearState chatId => on_sess (clearState chatId) w
  | Expire h now => expire h now w
  end.

Definition session_run (es : list session_event) (w : world) : world :=
  foldl session_step w es.

(** Handle [h] is a live expiry timer of owner [chatId] with deadline
    [deadline]. *)
Definition expiring (ss : sessions) (chatId : Z) (h : nat) (deadline : Z)
    : Prop :=
  timers ss !! h = Some (chatId, deadline).

(** Every live expiry timer is the one [stateTimeouts] holds for its
    owner. *)
Definition timed (ss : sessions) : Prop :=
  forall h chatId deadline,
    expiring ss chatId h deadline -> stateTimeouts ss !! chatId = Some h.

(** ** Runs of the whole process *)

(** [/edit_time <id>] *)
Definition cmd_edit_time (i chatId now : Z) (w : world) : world :=
  match getNoteByIdStmt i chatId (db w) with
  | Some _ =>
      on_sess (setState chatId
        {| st_mode := edit_note_time; st_step := None; st_id := Some i;
           st_text := None; st_candidate := None |} now) w
  | None => w
  end.

(** What the process reacts to, one handler at a time. *)
Inductive event :=
  | Timer (e : sched_event)
  | EditTime (i chatId now : Z)
  | Message (chatId : Z) (text : string) (now : Z).

(** A message that ends in a branch which is not embedded leaves the
    state as it is here; the runs below have none. *)
Definition step (chrono : string -> Z -> bool -> option Z)
    (w : world) (e : event) : world :=
  match e with
  | Timer e => sched_step w e
  | EditTime i chatId now => cmd_edit_time i chatId now w
  | Message chatId text now =>
      match onMessage chrono chatId text now w with
      | Done w' => w'
      | Outside => w
      end
  end.

Definition run (chrono : string -> Z -> bool -> option Z)
    (es : list event) (w : world) : world :=
  foldl (step chrono) w es.

(** Runs in which every fire callback ends before anything else
    happens. *)
Inductive quiet_event :=
  | QArm (n : option note) (now : Z)
  | QDelete (i chatId : Z)
  | QFire (h : nat) (now : Z) (delivered db_ok : bool).

Definition unquiet (e : quiet_event) : list sched_event :=
  match e with
  | QArm n now => [Arm n now]
  | QDelete i chatId => [Delete i chatId]
  | QFire h now delivered db_ok => [Fire h now; Settle h delivered db_ok]
  end.

(** ** Invariants used in the proofs *)

(** What the loop has built after the notes [l], none of which has the
    id of another. *)
Definition recovered (now : Z) (l : list note) (s : scheduler) : Prop :=
  (forall h j, pending s !! h = Some j ->
     (h < next_job s)%nat /\
     scheduledJobs s !! note_id (job_note j) = Some (Some h) /\
     job_note j ∈ l /\
     reminder_at (cols (job_note j)) = Some (Iso (job_when j)) /\
     now <= job_when j) /\
  (forall i e, scheduledJobs s !! i = Some e ->
     exists n, n ∈ l /\ note_id n = i) /\
  (forall n t, n ∈ l -> reminder_at (cols n) = Some (Iso t) -> now <= t ->
     exists h, scheduledJobs s !! note_id n = Some (Some h) /\
               pending s !! h = Some (Job n t)).

(** Timers follow [stateTimeouts], and handles in use are below the
    next one. *)
Definition sessions_ok (ss : sessions) : Prop :=
  timed ss /\
  (forall h x, timers ss !! h = Some x -> (h < next_timer ss)%nat) /\
  (forall c h, stateTimeouts ss !! c = Some h ->
     (h < next_timer ss)%nat /\
     forall c' dl, timers ss !! h = Some (c', dl) -> c' = c).

(** ** Sample data *)

(** A wall-clock instant: day [d] at [h:m]. *)
Definition clock (d h m : Z) : Z := Moment.make d h m 0 0.

Definition sample_note (i t : Z) : note :=
  Note i {| chat_id := 7; note_text := "beli tinta";
            reminder_at := Some (Iso t); reminded := 0;
            status := "pending" |}.

Definition no_chrono : string -> Z -> bool -> option Z :=
  fun _ _ _ => None.

Definition empty_store : database := {| notes := ∅; notes_seq := 0 |}.

(** A store with reminder 1 of chat 7, due on day 20000 at 08:00. *)
Definition one_note : database :=
  {| notes := {[ 1 := cols (sample_note 1 (clock 20000 8 0)) ]};
     notes_seq := 1 |}.

Definition two_notes : database :=
  {| notes := {[ 1 := cols (sample_note 1 2000);
                 2 := cols (sample_note 2 500) ]};
     notes_seq := 2 |}.

(** Reminder 1 fires at 08:00; while its callback waits for the
    gateway, the user, who had asked to edit its time, sends the new
    time; the callback then resumes and ends; the user edits the time
    once more. *)
Definition late_delete_run : list event :=
  [ EditTime 1 7 (clock 20000 7 59);
    Timer (Fire 0 (clock 20000 8 0));
    Message 7 "jam 9 pagi" (clock 20000 8 0 + 1);
    Timer (Settle 0 true true);
    EditTime 1 7 (clock 20000 8 1);
    Message 7 "jam 10 pagi" (clock 20000 8 2) ].

(** The user starts the reminder wizard just before midnight, names a
    time of today that has passed, and confirms just after midnight,
    within the two minutes of the session. *)
Definition ask_before_midnight : list event :=
  [ Message 7 "🕰️ Catat Pengingat" (clock 20000 23 58);
    Message 7 "beli tinta" (clock 20000 23 59);
    Message 7 "jam 9 pagi hari ini" (clock 20000 23 59 + 30000) ].

Definition confirm_after_midnight : list event :=
  ask_before_midnight ++ [ Message 7 "ya" (clock 20001 0 0 + 30000) ].

(** The same wizard in mid-morning. *)
Definition ask_at_ten : list event :=
  [ Message 7 "🕰️ Catat Pengingat" (clock 20000 10 0);
    Message 7 "beli tinta" (clock 20000 10 0 + 5000);
    Message 7 "jam 9 pagi hari ini" (clock 20000 10 0 + 9000) ].

Definition asked_at_ten : world :=
  run no_chrono ask_at_ten (boot empty_store (clock 20000 7 0)).

(** Reminder 1 of chat 7 is being edited with [/edit_time 1]. *)
Definition editing_time : world :=
  run no_chrono [ EditTime 1 7 (clock 20000 10 0) ]
      (boot one_note (clock 20000 7 0)).

(** The world after a natural request sent at 10:00 that names 09:00 of
    the same day. *)
Definition requested : world :=
  match onMessage no_chrono 7 "ingatkan saya beli tinta jam 9 pagi hari ini"
          (clock 20000 10 0) (boot empty_store (clock 20000 7 0)) with
  | Done w => w
  | Outside => boot empty_store (clock 20000 7 0)
  end.

(** ** More of the command surface *)

Definition updateNoteStatusStmt (st : string) (i chatId : Z)
    : database -> database :=
  update_where i chatId (fun r =>
    {| chat_id := chat_id r; note_text := note_text r;
       reminder_at := reminder_at r; reminded := reminded r;
       status := st |}).

(** What [/done <id>] answers. *)
Inductive done_reply :=
  | DoneNotFound
  | DoneAlready
  | DoneMarked.

(** [/done <id>]; the answer it sends is given beside the new state. *)
Definition cmd_done (i chatId : Z) (w : world) : world * done_reply :=
  match getNoteByIdStmt i chatId (db w) with
  | None => (w, DoneNotFound)
  | Some n =>
      if String.eqb (status (cols n)) "done" then (w, DoneAlready)
      else (on_db (updateNoteStatusStmt "done" i chatId) w, DoneMarked)
  end.

(** [/edit <id>] *)
Definition cmd_edit (i chatId now : Z) (w : world) : world :=
  match getNoteByIdStmt i chatId (db w) with
  | Some _ =>
      on_sess (setState chatId
        {| st_mode := edit_note_text; st_step := None; st_id := Some i;
           st_text := None; st_candidate := None |} now) w
  | None => w
  end.

(** The [SIGINT] handler, before [process.exit()]: every job the
    registry holds is cancelled (a [null] entry throws inside the [try]).
    The order of the loop does not matter. *)
Definition shutdown (s : scheduler) : scheduler :=
  foldr (fun e s => match e with Some h => cancel h s | None => s end)
        s (snd <$> map_to_list (scheduledJobs s)).

(** ** Time presets of the report wizards *)

Definition computePresetDatetime (tag : string) (now : Z) : option Z :=
  if String.eqb tag "now" then Some now
  else if String.eqb tag "today_08" then Some (Moment.at_hm now 8 0)
  else if String.eqb tag "today_13" then Some (Moment.at_hm now 13 0)
  else if String.eqb tag "tomorrow_08"
  then Some (Moment.at_hm (Moment.add_day 1 now) 8 0)
  else None.

(** The inline keyboard of [timePresetKeyboard]: rows of buttons, each a
    caption and its [callback_data]. *)
Definition timePresetKeyboard (prefixField : string)
    : list (list (string * string)) :=
  [ [ ("Sekarang", "preset|" ++ prefixField ++ "|now");
      ("Hari Ini 08:00", "preset|" ++ prefixField ++ "|today_08") ];
    [ ("Hari Ini 13:00", "preset|" ++ prefixField ++ "|today_13");
      ("Besok 08:00", "preset|" ++ prefixField ++ "|tomorrow_08") ];
    [ ("Custom (ketik manual)", "preset|" ++ prefixField ++ "|custom") ] ].

(** [s.split(sep)] for a separator of one character. *)
Fixpoint split_on (sep : ascii) (s : string) : list string :=
  match s with
  | EmptyString => [EmptyString]
  | String c r =>
      if Ascii.eqb c sep
      then EmptyString :: split_on sep r
      else match split_on sep r with
           | w :: ws => String c w :: ws
           | [] => [String c EmptyString]
           end
  end.

(** [data.startsWith("preset|")] *)
Definition is_preset (data : string) : bool :=
  match Text.lit "preset|" data with
  | Some _ => true
  | None => false
  end.

(** [parts[1]] and [parts[2]] of [data.split("|")]; a part that is not
    there is [None]. *)
Definition preset_parts (data : string) : option string * option string :=
  let parts := split_on "|" data in
  (parts !! 1%nat, parts !! 2%nat).

(** ** The report wizards and the inline buttons *)

(** The working record [st.data]; [None] is a field that is not set
    ([undefined] in a new report, [null] when read from a row). *)
Record report_data := ReportData {
  d_title : option string;
  d_completion : option string;
  d_report_time : option Z;
  d_receive_time : option Z;
  d_done_time : option Z;
  d_notes : option string
}.

Definition no_data : report_data :=
  {| d_title := None; d_completion := None; d_report_time := None;
     d_receive_time := None; d_done_time := None; d_notes := None |}.

(** A row of [reports] without its primary key; the three times are the
    instants whose ISO text the column holds. *)
Record report := Report {
  rp_chat_id : Z;
  rp_title : string;
  rp_completion : option string;
  rp_report_time : option Z;
  rp_receive_time : option Z;
  rp_done_time : option Z;
  rp_notes : option string
}.

Record report_db := ReportDb {
  reports : gmap Z report;
  reports_seq : Z
}.

Definition max_report_id (m : gmap Z report) : Z :=
  foldr Z.max 0 (fst <$> map_to_list m).

Definition insertReportStmt (r : report) (d : report_db) : Z * report_db :=
  let rowid := 1 + Z.max (reports_seq d) (max_report_id (reports d)) in
  (rowid, {| reports := <[rowid := r]> (reports d); reports_seq := rowid |}).

Definition getReportByIdStmt (i chatId : Z) (d : report_db) : option report :=
  match reports d !! i with
  | Some r => if rp_chat_id r =? chatId then Some r else None
  | None => None
  end.

Definition deleteReportByIdStmt (i chatId : Z) (d : report_db) : report_db :=
  match getReportByIdStmt i chatId d with
  | Some _ => {| reports := delete i (reports d);
                 reports_seq := reports_seq d |}
  | None => d
  end.

(** [updateReportStmt.run(title, ..., id, chatId)] *)
Definition updateReportStmt (title : string) (d : report_data)
    (i chatId : Z) (db_ : report_db) : report_db :=
  {| reports := alter (fun r =>
       if rp_chat_id r =? chatId
       then {| rp_chat_id := rp_chat_id r; rp_title := title;
               rp_completion := d_completion d;
               rp_report_time := d_report_time d;
               rp_receive_time := d_receive_time d;
               rp_done_time := d_done_time d;
               rp_notes := d_notes d |}
       else r) i (reports db_);
     reports_seq := reports_seq db_ |}.

(** A state object of [userState] with the fields the report wizards
    and the buttons use beside those of the reminder flows. *)
Record state_obj := StateObj {
  so_base : session;
  so_data : option report_data;
  so_awaiting_custom : option string
}.

(** [userState], [stateTimeouts] and the armed timeouts, for these state
    objects; [r_setState] and [r_clearState] are [setState] and
    [clearState]. *)
Record rsessions := RSessions {
  rState : gmap Z state_obj;
  rTimeouts : gmap Z nat;
  rtimers : gmap nat (Z * Z);
  rnext : nat
}.

Definition r_setState (chatId : Z) (stateObj : state_obj) (now : Z)
    (ss : rsessions) : rsessions :=
  let timers1 := match rTimeouts ss !! chatId with
                 | Some h => delete h (rtimers ss)
                 | None => rtimers ss
                 end in
  let t := rnext ss in
  {| rState := <[chatId := stateObj]> (rState ss);
     rTimeouts := <[chatId := t]> (rTimeouts ss);
     rtimers := <[t := (chatId, now + SESSION_TIMEOUT)]> timers1;
     rnext := S t |}.

Definition r_clearState (chatId : Z) (ss : rsessions) : rsessions :=
  match rTimeouts ss !! chatId with
  | Some h =>
      {| rState := delete chatId (rState ss);
         rTimeouts := delete chatId (rTimeouts ss);
         rtimers := delete h (rtimers ss);
         rnext := rnext ss |}
  | None =>
      {| rState := delete chatId (rState ss);
         rTimeouts := rTimeouts ss;
         rtimers := rtimers ss;
         rnext := rnext ss |}
  end.

(** The messages of these branches, by template; [RAskTime f] and
    [RPresetSet _ _ (Some f)] come with the keyboard
    [timePresetKeyboard f], and [RBadTime] is any of the notices that
    a typed time was not recognised. *)
Inductive rmsg :=
  | RAskTitle
  | RAskCompletion
  | RAskTime (field : string)
  | RBadTime
  | RAskNotes
  | RPreview (d : report_data)
  | REditStart (i : Z)
  | REditAskCompletion
  | REditAskNotes
  | RUpdated (i : Z)
  | RNotFound (i : Z)
  | RCustomPrompt (field : string)
  | RPresetSet (field : string) (t : Z) (next : option string)
  | RSaved (i : Z)
  | RSaveCancelled
  | RCancelled
  | RMainMenu
  | RNoteDeleted (i : Z)
  | RReportDeleted (i : Z)
  | RIdNotFound (i : Z).

(** The store of reports, the sessions, the messages sent and the
    answers given to button presses ([answerCallbackQuery], with its
    text if any). *)
Record rworld := RWorld {
  rdb : report_db;
  rsess : rsessions;
  rout : list (Z * rmsg);
  answers : list (option string)
}.

Definition r_send (chatId : Z) (m : rmsg) (w : rworld) : rworld :=
  {| rdb := rdb w; rsess := rsess w; rout := rout w ++ [(chatId, m)];
     answers := answers w |}.

Definition r_answer (text : option string) (w : rworld) : rworld :=
  {| rdb := rdb w; rsess := rsess w; rout := rout w;
     answers := answers w ++ [text] |}.

Definition r_set (chatId : Z) (st : state_obj) (now : Z) (w : rworld)
    : rworld :=
  {| rdb := rdb w; rsess := r_setState chatId st now (rsess w);
     rout := rout w; answers := answers w |}.

Definition r_clear (chatId : Z) (w : rworld) : rworld :=
  {| rdb := rdb w; rsess := r_clearState chatId (rsess w);
     rout := rout w; answers := answers w |}.

(** The state object with [st.step] and [st.data] changed in place. *)
Definition with_step (st : state_obj) (step : Z) (d : report_data)
    : state_obj :=
  {| so_base := {| st_mode := st_mode (so_base st); st_step := Some step;
                   st_id := st_id (so_base st);
                   st_text := st_text (so_base st);
                   st_candidate := st_candidate (so_base st) |};
     so_data := Some d;
     so_awaiting_custom := so_awaiting_custom st |}.

Definition set_title (x : string) (d : report_data) : report_data :=
  {| d_title := Some x; d_completion := d_completion d;
     d_report_time := d_report_time d; d_receive_time := d_receive_time d;
     d_done_time := d_done_time d; d_notes := d_notes d |}.
Definition set_completion (x : string) (d : report_data) : report_data :=
  {| d_title := d_title d; d_completion := Some x;
     d_report_time := d_report_time d; d_receive_time := d_receive_time d;
     d_done_time := d_done_time d; d_notes := d_notes d |}.
Definition set_report_time (t : Z) (d : report_data) : report_data :=
  {| d_title := d_title d; d_completion := d_completion d;
     d_report_time := Some t; d_receive_time := d_receive_time d;
     d_done_time := d_done_time d; d_notes := d_notes d |}.
Definition set_receive_time (t : Z) (d : report_data) : report_data :=
  {| d_title := d_title d; d_completion := d_completion d;
     d_report_time := d_report_time d; d_receive_time := Some t;
     d_done_time := d_done_time d; d_notes := d_notes d |}.
Definition set_done_time (t : Z) (d : report_data) : report_data :=
  {| d_title := d_title d; d_completion := d_completion d;
     d_report_time := d_report_time d; d_receive_time := d_receive_time d;
     d_done_time := Some t; d_notes := d_notes d |}.
Definition set_notes (x : string) (d : report_data) : report_data :=
  {| d_title := d_title d; d_completion := d_completion d;
     d_report_time := d_report_time d; d_receive_time := d_receive_time d;
     d_done_time := d_done_time d; d_notes := Some x |}.

(** What one run of a handler of this part does; [Elsewhere] stands for
    the branches of the reminder flows, embedded above, for the listings
    of the keyboard, and for a statement given an [undefined] value. *)
Inductive routcome :=
  | RDone (w : rworld)
  | Elsewhere.

Section Reports.

(** [moment.tz(s, "YYYY-MM-DD HH:mm", true, TIMEZONE)] of moment: the
    instant, or [None] for an invalid moment. *)
Variable moment_strict : string -> option Z.

(** [chrono.parseDate], as for the resolver; here an exception is not
    caught by the source and is not modelled. *)
Variable chrono_parseDate : string -> Z -> bool -> option Z.

Definition parseCustomTimestamp (input : string) (now : Z) : option Z :=
  let s := Text.trim input in
  match moment_strict s with
  | Some strict => Some strict
  | None => chrono_parseDate s now false
  end.

(** The branch [create_report] of the message handler; [None] when the
    step is none of 1 to 6 and control falls through. *)
Definition handle_create_report (chatId : Z) (text : string) (now : Z)
    (st : state_obj) (d : report_data) (w : rworld) : option rworld :=
  match st_step (so_base st) with
  | Some 1 =>
      Some (r_send chatId RAskCompletion
              (r_set chatId (with_step st 2 (set_title text d)) now w))
  | Some 2 =>
      Some (r_send chatId (RAskTime "report_time")
              (r_set chatId (with_step st 3 (set_completion text d)) now w))
  | Some 3 =>
      match parseCustomTimestamp text now with
      | None => Some (r_send chatId RBadTime w)
      | Some t =>
          Some (r_send chatId (RAskTime "receive_time")
                  (r_set chatId (with_step st 4 (set_report_time t d)) now w))
      end
  | Some 4 =>
      match parseCustomTimestamp text now with
      | None => Some (r_send chatId RBadTime w)
      | Some t =>
          Some (r_send chatId (RAskTime "done_time")
                  (r_set chatId (with_step st 5 (set_receive_time t d)) now w))
      end
  | Some 5 =>
      match parseCustomTimestamp text now with
      | None => Some (r_send chatId RBadTime w)
      | Some t =>
          Some (r_send chatId RAskNotes
                  (r_set chatId (with_step st 6 (set_done_time t d)) now w))
      end
  | Some 6 =>
      let d := set_notes (if Text.is_empty text then "-" else text) d in
      Some (r_set chatId (with_step st 7 d) now
              (r_send chatId (RPreview d) w))
  | _ => None
  end.

(** [text.toLowerCase() !== "skip" && text !== "-"] *)
Definition gives_value (text : string) : bool :=
  negb (String.eqb (Text.toLowerCase text) "skip")
  && negb (String.eqb text "-").

(** A time step of [edit_report]: the new time, the old one when the
    user keeps it, or [None] when the text is not a time. *)
Definition edited_time (text : string) (now : Z) (old : option Z)
    : option (option Z) :=
  if gives_value text
  then match parseCustomTimestamp text now with
       | Some t => Some (Some t)
       | None => None
       end
  else Some old.

Definition put_report_time (t : option Z) (d : report_data) : report_data :=
  {| d_title := d_title d; d_completion := d_completion d;
     d_report_time := t; d_receive_time := d_receive_time d;
     d_done_time := d_done_time d; d_notes := d_notes d |}.
Definition put_receive_time (t : option Z) (d : report_data) : report_data :=
  {| d_title := d_title d; d_completion := d_completion d;
     d_report_time := d_report_time d; d_receive_time := t;
     d_done_time := d_done_time d; d_notes := d_notes d |}.
Definition put_done_time (t : option Z) (d : report_data) : report_data :=
  {| d_title := d_title d; d_completion := d_completion d;
     d_report_time := d_report_time d; d_receive_time := d_receive_time d;
     d_done_time := t; d_notes := d_notes d |}.

(** The branch [edit_report]. *)
Definition handle_edit_report (chatId : Z) (text : string) (now : Z)
    (st : state_obj) (d : report_data) (w : rworld) : option routcome :=
  let keep := String.eqb text "-" in
  match st_step (so_base st) with
  | Some 1 =>
      let d := if keep then d else set_title text d in
      Some (RDone (r_send chatId REditAskCompletion
                     (r_set chatId (with_step st 2 d) now w)))
  | Some 2 =>
      let d := if keep then d else set_completion text d in
      Some (RDone (r_send chatId (RAskTime "edit_report_time")
                     (r_set chatId (with_step st 3 d) now w)))
  | Some 3 =>
      match edited_time text now (d_report_time d) with
      | None => Some (RDone (r_send chatId RBadTime w))
      | Some t =>
          Some (RDone (r_send chatId (RAskTime "edit_receive_time")
                  (r_set chatId (with_step st 4 (put_report_time t d)) now w)))
      end
  | Some 4 =>
      match edited_time text now (d_receive_time d) with
      | None => Some (RDone (r_send chatId RBadTime w))
      | Some t =>
          Some (RDone (r_send chatId (RAskTime "edit_done_time")
                  (r_set chatId (with_step st 5 (put_receive_time t d)) now w)))
      end
  | Some 5 =>
      match edited_time text now (d_done_time d) with
      | None => Some (RDone (r_send chatId RBadTime w))
      | Some t =>
          Some (RDone (r_send chatId REditAskNotes
                  (r_set chatId (with_step st 6 (put_done_time t d)) now w)))
      end
  | Some 6 =>
      let d := if keep then d else set_notes text d in
      match d_title d, st_id (so_base st) with
      | Some title, Some i =>
          let w := {| rdb := updateReportStmt title d i chatId (rdb w);
                      rsess := rsess w; rout := rout w;
                      answers := answers w |} in
          Some (RDone (r_send chatId RMainMenu
                         (r_send chatId (RUpdated i) (r_clear chatId w))))
      | _, _ => Some Elsewhere
      end
  | _ => None
  end.

Definition label_laporan : string := "🧾 laporan kerja harian".

(** The part of the message handler after the session block, for the
    two labels that matter here. *)
Definition r_keyboard (chatId : Z) (text : string) (now : Z) (w : rworld)
    : routcome :=
  let lower := Text.toLowerCase text in
  if String.eqb lower label_laporan then
    RDone (r_send chatId RAskTitle
             (r_set chatId
                {| so_base := {| st_mode := create_report; st_step := Some 1;
                                 st_id := None; st_text := None;
                                 st_candidate := None |};
                   so_data := Some no_data;
                   so_awaiting_custom := None |} now w))
  else if String.eqb lower label_kembali then
    RDone (r_send chatId RMainMenu (r_send chatId RCancelled
             (r_clear chatId w)))
  else Elsewhere.

(** [bot.on("message", ...)], for the report wizards. *)
Definition r_onMessage (chatId : Z) (msg_text : string) (now : Z)
    (w : rworld) : routcome :=
  if Text.is_empty msg_text then RDone w
  else
    let text := Text.trim msg_text in
    match rState (rsess w) !! chatId with
    | Some st =>
        match st_mode (so_base st), so_data st with
        | create_report, Some d =>
            match handle_create_report chatId text now st d w with
            | Some w' => RDone w'
            | None => r_keyboard chatId text now w
            end
        | edit_report, Some d =>
            match handle_edit_report chatId text now st d w with
            | Some o => o
            | None => r_keyboard chatId text now w
            end
        | _, _ => Elsewhere
        end
    | None => r_keyboard chatId text now w
    end.

(** [/edit_report <id>] *)
Definition cmd_edit_report (i chatId now : Z) (w : rworld) : rworld :=
  match getReportByIdStmt i chatId (rdb w) with
  | None => r_send chatId (RNotFound i) w
  | Some rep =>
      r_send chatId (REditStart i)
        (r_set chatId
           {| so_base := {| st_mode := edit_report; st_step := Some 1;
                            st_id := Some i; st_text := None;
                            st_candidate := None |};
              so_data := Some {| d_title := Some (rp_title rep);
                                 d_completion := rp_completion rep;
                                 d_report_time := rp_report_time rep;
                                 d_receive_time := rp_receive_time rep;
                                 d_done_time := rp_done_time rep;
                                 d_notes := rp_notes rep |};
              so_awaiting_custom := None |} now w)
  end.

(** The preset branch of the button handler once a preset time [dt] is
    there: the field written, the next step and the message, by mode
    and field tag; [None] when the pair is not one of the six. *)
Definition preset_target (m : mode) (field : string) (dt : Z)
    : option ((report_data -> report_data) * Z * rmsg) :=
  match m with
  | create_report =>
      if String.eqb field "report_time"
      then Some (set_report_time dt, 4,
                 RPresetSet field dt (Some "receive_time"))
      else if String.eqb field "receive_time"
      then Some (set_receive_time dt, 5,
                 RPresetSet field dt (Some "done_time"))
      else if String.eqb field "done_time"
      then Some (set_done_time dt, 6, RPresetSet field dt None)
      else None
  | edit_report =>
      if String.eqb field "edit_report_time"
      then Some (set_report_time dt, 4,
                 RPresetSet field dt (Some "edit_receive_time"))
      else if String.eqb field "edit_receive_time"
      then Some (set_receive_time dt, 5,
                 RPresetSet field dt (Some "edit_done_time"))
      else if String.eqb field "edit_done_time"
      then Some (set_done_time dt, 6, RPresetSet field dt None)
      else None
  | _ => None
  end.

(** [bot.on("callback_query", ...)] for the data [data] of a button of
    chat [chatId].  Sends are taken to succeed; a report session always
    has its [data], and a state without it is left out. *)
Definition onCallback (chatId : Z) (data : string) (now : Z) (w : rworld)
    : routcome :=
  if is_preset data then
    let '(field, tag) := preset_parts data in
    match rState (rsess w) !! chatId with
    | None => RDone (r_answer (Some "Tidak ada sesi aktif.") w)
    | Some st =>
        if match tag with Some t => String.eqb t "custom" | None => false end
        then
          match field with
          | Some f =>
              let st := {| so_base := so_base st; so_data := so_data st;
                           so_awaiting_custom := Some f |} in
              RDone (r_answer None
                       (r_send chatId (RCustomPrompt f)
                          (r_set chatId st now w)))
          | None => Elsewhere
          end
        else
          match match tag with
                | Some t => computePresetDatetime t now
                | None => None
                end with
          | None => RDone (r_answer (Some "Preset tidak valid.") w)
          | Some dt =>
              match match field with
                    | Some f => preset_target (st_mode (so_base st)) f dt
                    | None => None
                    end with
              | Some (set, step, m) =>
                  match so_data st with
                  | Some d =>
                      RDone (r_answer None
                               (r_send chatId m
                                  (r_set chatId (with_step st step (set d))
                                     now w)))
                  | None => Elsewhere
                  end
              | None => RDone (r_answer (Some "Preset diterima.") w)
              end
          end
    end
  else if String.eqb data "report_confirm_save" then
    match rState (rsess w) !! chatId with
    | Some st =>
        match st_mode (so_base st), st_step (so_base st) with
        | create_report, Some 7 =>
            match so_data st with
            | Some d =>
                match d_title d, d_completion d, d_report_time d,
                      d_receive_time d, d_done_time d, d_notes d with
                | Some title, Some _, Some _, Some _, Some _, Some _ =>
                    let '(i, db') :=
                      insertReportStmt
                        {| rp_chat_id := chatId; rp_title := title;
                           rp_completion := d_completion d;
                           rp_report_time := d_report_time d;
                           rp_receive_time := d_receive_time d;
                           rp_done_time := d_done_time d;
                           rp_notes := d_notes d |} (rdb w) in
                    let w := {| rdb := db'; rsess := rsess w; rout := rout w;
                                answers := answers w |} in
                    RDone (r_answer (Some "Disimpan")
                             (r_send chatId RMainMenu
                                (r_clear chatId (r_send chatId (RSaved i) w))))
                | _, _, _, _, _, _ => Elsewhere
                end
            | None => Elsewhere
            end
        | _, _ =>
            RDone (r_answer (Some "Tidak ada laporan untuk disimpan.") w)
        end
    | None => RDone (r_answer (Some "Tidak ada laporan untuk disimpan.") w)
    end
  else if String.eqb data "report_confirm_cancel" then
    RDone (r_answer (Some "Dibatalkan")
             (r_send chatId RMainMenu
                (r_send chatId RSaveCancelled (r_clear chatId w))))
  else RDone (r_answer None w).

(** One handler at a time, for the runs below. *)
Inductive revent :=
  | RMessage (chatId : Z) (text : string) (now : Z)
  | RButton (chatId : Z) (data : string) (now : Z)
  | REditReport (i chatId now : Z).

Definition r_handle (w : rworld) (e : revent) : routcome :=
  match e with
  | RMessage chatId text now => r_onMessage chatId text now w
  | RButton chatId data now => onCallback chatId data now w
  | REditReport i chatId now => RDone (cmd_edit_report i chatId now w)
  end.

Definition r_step (w : rworld) (e : revent) : rworld :=
  match r_handle w e with
  | RDone w' => w'
  | Elsewhere => w
  end.

Definition r_run (es : list revent) (w : rworld) : rworld :=
  foldl r_step w es.

End Reports.

(** [/delete <id>]: the reminder of that id if the chat has one,
    otherwise the report of that id; the message sent is given beside
    the new state. *)
Definition cmd_delete (i chatId : Z) (w : world) (rd : report_db)
    : world * report_db * rmsg :=
  match getNoteByIdStmt i chatId (db w) with
  | Some _ => (delete_note i chatId w, rd, RNoteDeleted i)
  | None =>
      match getReportByIdStmt i chatId rd with
      | Some _ => (w, deleteReportByIdStmt i chatId rd, RReportDeleted i)
      | None => (w, rd, RIdNotFound i)
      end
  end.

Definition empty_rworld : rworld :=
  {| rdb := {| reports := ∅; reports_seq := 0 |};
     rsess := {| rState := ∅; rTimeouts := ∅; rtimers := ∅; rnext := 0 |};
     rout := []; answers := [] |}.

(** The session of chat [c] is a wizard of mode [m] at step [k] with
    working record [d]. *)
Definition at_step (w : rworld) (c : Z) (m : mode) (k : Z)
    (d : report_data) : Prop :=
  exists st, rState (rsess w) !! c = Some st /\
             st_mode (so_base st) = m /\
             st_step (so_base st) = Some k /\
             so_data st = Some d.

(** The session of chat [c] is the edit wizard of report [i] at step [k]
    with working record [d]. *)
Definition editing (w : rworld) (c i k : Z) (d : report_data) : Prop :=
  exists st, rState (rsess w) !! c = Some st /\
             st_mode (so_base st) = edit_report /\
             st_id (so_base st) = Some i /\
             st_step (so_base st) = Some k /\
             so_data st = Some d.

(** The working record that [/edit_report] loads from a row. *)
Definition data_of (rep : report) : report_data :=
  {| d_title := Some (rp_title rep);
     d_completion := rp_completion rep;
     d_report_time := rp_report_time rep;
     d_receive_time := rp_receive_time rep;
     d_done_time := rp_done_time rep;
     d_notes := rp_notes rep |}.

(** The row that [report_confirm_save] writes for a complete record. *)
Definition report_of (chatId : Z) (title : string) (d : report_data)
    : report :=
  {| rp_chat_id := chatId; rp_title := title;
     rp_completion := d_completion d;
     rp_report_time := d_report_time d;
     rp_receive_time := d_receive_time d;
     rp_done_time := d_done_time d;
     rp_notes := d_notes d |}.

(** How a run of the button handler ends: it returns, or its promise
    is rejected (an awaited send failed, or a statement or a property
    access threw) in the state reached by then. *)
Inductive cb_outcome :=
  | CbReturned (w : rworld)
  | CbRejected (w : rworld).

Definition cb_state (o : cb_outcome) : rworld :=
  match o with CbReturned w => w | CbRejected w => w end.

(** Every value of the record is set: what [insertReportStmt.run] needs
    of a new report, whose unset fields are [undefined]. *)
Definition complete (d : report_data) : bool :=
  match d_title d, d_completion d, d_report_time d,
        d_receive_time d, d_done_time d, d_notes d with
  | Some _, Some _, Some _, Some _, Some _, Some _ => true
  | _, _, _, _, _, _ => false
  end.

(** [bot.on("callback_query", ...)] with the failures of the run:
    [delivered] says whether the message the handler awaits arrives
    (only the six branches that apply a preset await one, after
    [setState] and before [answerCallbackQuery]); binding [undefined]
    to [insertReportStmt] throws, and so does a property of a missing
    [st.data] or of a missing field name. *)
Definition onCallback_sends (delivered : bool) (chatId : Z) (data : string)
    (now : Z) (w : rworld) : cb_outcome :=
  if is_preset data then
    let '(field, tag) := preset_parts data in
    match rState (rsess w) !! chatId with
    | None => CbReturned (r_answer (Some "Tidak ada sesi aktif.") w)
    | Some st =>
        if match tag with Some t => String.eqb t "custom" | None => false end
        then
          let st' := {| so_base := so_base st; so_data := so_data st;
                        so_awaiting_custom := field |} in
          match field with
          | Some f =>
              CbReturned (r_answer None
                            (r_send chatId (RCustomPrompt f)
                               (r_set chatId st' now w)))
          | None => CbRejected (r_set chatId st' now w)
          end
        else
          match match tag with
                | Some t => computePresetDatetime t now
                | None => None
                end with
          | None => CbReturned (r_answer (Some "Preset tidak valid.") w)
          | Some dt =>
              match match field with
                    | Some f => preset_target (st_mode (so_base st)) f dt
                    | None => None
                    end with
              | Some (set, step, m) =>
                  match so_data st with
                  | Some d =>
                      let w1 := r_set chatId (with_step st step (set d))
                                  now w in
                      if delivered
                      then CbReturned (r_answer None (r_send chatId m w1))
                      else CbRejected w1
                  | None => CbRejected w
                  end
              | None => CbReturned (r_answer (Some "Preset diterima.") w)
              end
          end
    end
  else if String.eqb data "report_confirm_save" then
    match rState (rsess w) !! chatId with
    | Some st =>
        match st_mode (so_base st), st_step (so_base st) with
        | create_report, Some 7 =>
            match so_data st with
            | Some d =>
                match d_title d with
                | Some title =>
                    if complete d then
                      let '(i, db') :=
                        insertReportStmt (report_of chatId title d) (rdb w) in
                      let w := {| rdb := db'; rsess := rsess w;
                                  rout := rout w; answers := answers w |} in
                      CbReturned
                        (r_answer (Some "Disimpan")
                           (r_send chatId RMainMenu
                              (r_clear chatId (r_send chatId (RSaved i) w))))
                    else CbRejected w
                | None => CbRejected w
                end
            | None => CbRejected w
            end
        | _, _ =>
            CbReturned (r_answer (Some "Tidak ada laporan untuk disimpan.") w)
        end
    | None =>
        CbReturned (r_answer (Some "Tidak ada laporan untuk disimpan.") w)
    end
  else if String.eqb data "report_confirm_cancel" then
    CbReturned (r_answer (Some "Dibatalkan")
                  (r_send chatId RMainMenu
                     (r_send chatId RSaveCancelled (r_clear chatId w))))
  else CbReturned (r_answer None w).

(** A strict parser that knows one timestamp, for concrete runs. *)
Definition sample_strict (s : string) : option Z :=
  if String.eqb s "2024-10-04 08:00" then Some (clock 20000 8 0) else None.

(** Chat 7 goes through the wizard up to the preview. *)
Definition previewed : rworld :=
  r_run sample_strict no_chrono
    [ RMessage 7 "🧾 Laporan Kerja Harian" (clock 20000 9 0);
      RMessage 7 "Printer macet" (clock 20000 9 0);
      RMessage 7 "Ganti roller" (clock 20000 9 0);
      RMessage 7 "2024-10-04 08:00" (clock 20000 9 1);
      RMessage 7 "2024-10-04 08:00" (clock 20000 9 1);
      RMessage 7 "2024-10-04 08:00" (clock 20000 9 1);
      RMessage 7 "-" (clock 20000 9 2) ]
    empty_rworld.

Definition saved : rworld :=
  r_step sample_strict no_chrono previewed
    (RButton 7 "report_confirm_save" (clock 20000 9 3)).

(** Chat 7 in the create wizard at step [k] with working record [d]. *)
Definition typing_report (k : Z) (d : report_data) : rworld :=
  r_set 7 {| so_base := {| st_mode := create_report; st_step := Some k;
                           st_id := None; st_text := None;
                           st_candidate := None |};
             so_data := Some d;
             so_awaiting_custom := None |} (clock 20000 9 0) empty_rworld.

Definition full_data : report_data :=
  {| d_title := Some "Printer macet"; d_completion := Some "Ganti roller";
     d_report_time := Some (clock 20000 8 0);
     d_receive_time := Some (clock 20000 8 0);
     d_done_time := Some (clock 20000 8 0);
     d_notes := Some "-" |}.

(** Chat 7 starts a report, presses a button of an old keyboard for the
    time of completion, types the notes and presses the save button of
    the preview: the record has no title. *)
Definition untitled : rworld :=
  r_run sample_strict no_chrono
    [ RButton 7 "preset|done_time|now" (clock 20000 9 0);
      RMessage 7 "beres" (clock 20000 9 1) ]
    (typing_report 1 no_data).

(** * Properties *)

(** ** Wall-clock arithmetic *)

Ltac unfold_moment :=
  unfold Moment.at_hm, Moment.millisecond, Moment.second, Moment.minute,
    Moment.hour, Moment.add_day, Moment.startOfDay, Moment.make,
    Moment.day, Moment.hourOf, Moment.minuteOf, Moment.secondOf,
    Moment.msOf, Moment.DAY, Moment.HOUR, Moment.MINUTE, Moment.SECOND
    in *.

Lemma make_fields t :
  Moment.make (Moment.day t) (Moment.hourOf t) (Moment.minuteOf t)
              (Moment.secondOf t) (Moment.msOf t) = t.
Proof. unfold_moment. Z.div_mod_to_equations. lia. Qed.

(** Setting hour, minute, second and millisecond in turn gives that
    time of the current day; fields out of range carry over. *)
Lemma at_hm_spec now h m :
  Moment.at_hm now h m =
  Moment.startOfDay now + h * Moment.HOUR + m * Moment.MINUTE.
Proof. unfold_moment. Z.div_mod_to_equations. lia. Qed.

Lemma startOfDay_make d h m :
  0 <= h * Moment.HOUR + m * Moment.MINUTE < Moment.DAY ->
  Moment.startOfDay (Moment.make d h m 0 0) = d * Moment.DAY.
Proof. unfold_moment. intros H. Z.div_mod_to_equations. lia. Qed.

Lemma startOfDay_add_day t :
  Moment.startOfDay (Moment.add_day 1 t) = Moment.startOfDay t + Moment.DAY.
Proof. unfold_moment. Z.div_mod_to_equations. lia. Qed.

(** ** The patterns on sample phrases *)

Example hour_re_meridiem :
  Text.hour_re "ingatkan jam 9 pagi hari ini"
  = Some (Text.HourGroups "9" None (Some "pagi")).
Proof. reflexivity. Qed.

Example hour_re_minutes_upper :
  Text.hour_re "Rapat PUKUL 12.30PM"
  = Some (Text.HourGroups "12" (Some "30") (Some "PM")).
Proof. reflexivity. Qed.

Example hour_re_one_digit_minute :
  Text.hour_re "jam 9:5 pagi" = Some (Text.HourGroups "9" None None).
Proof. reflexivity. Qed.

Example hour_re_absent : Text.hour_re "besok pagi" = None.
Proof. reflexivity. Qed.

Example today_marker_needs_boundary :
  containsHariIni "jam 9 Hari Ini" = true /\
  containsHariIni "jam 9 hari inix" = false /\
  containsHariIni "see you today!" = true.
Proof. repeat split; reflexivity. Qed.

Example normalizeIndo_sample :
  normalizeIndo "Besok  pukul 9.30 pagi, nanti malam jam 7"
  = "tomorrow at 9:30 morning, tonight at 7:".
Proof. reflexivity. Qed.

Example affirmative_samples :
  affirmative "ya" = true /\ affirmative "Y" = true /\
  affirmative "YES" = true /\ affirmative "yaa" = false /\
  affirmative "besok" = false.
Proof. repeat split; reflexivity. Qed.

Example strip_request_sample :
  Text.trim (strip_request "Ingatkan saya beli tinta") = "beli tinta" /\
  Text.trim (strip_request "remind me") = "remind me".
Proof. split; reflexivity. Qed.

Example format_HHmm_sample : format_HHmm (clock 20000 9 5) = "09:05".
Proof. reflexivity. Qed.

(** ** The temporal resolver *)

Lemma extract_unfold text now g :
  Text.hour_re text = Some g ->
  extractHourPreferToday text now =
  Some (Moment.at_hm now
          (to24h (Text.toLowerCase (default EmptyString (Text.m5 g)))
                 (Text.Number (Text.m2 g)))
          (match Text.m4 g with Some d => Text.Number d | None => 0 end)).
Proof. intros H. unfold extractHourPreferToday. now rewrite H. Qed.

(** C7. Whenever the hour pattern occurs in the phrase,
    [extractHourPreferToday] returns the current day at [hour24:minute],
    where the minute is 0 when group 4 is absent (and the two digits
    otherwise) and [hour24] follows the meridiem: "pagi" at 12 gives 0;
    "siang", "sore", "malam" below 12 give hour + 12; "pm" below 12
    gives hour + 12; "am" at 12 gives 0; without a meridiem the hour is
    unchanged. *)
Theorem C7_extract_hour_meridiem (text : string) (now : Z)
    (g : Text.hour_groups) :
  Text.hour_re text = Some g ->
  let hour := Text.Number (Text.m2 g) in
  let meridiem := Text.toLowerCase (default EmptyString (Text.m5 g)) in
  exists hour24 minute,
    extractHourPreferToday text now =
      Some (Moment.startOfDay now + hour24 * Moment.HOUR
            + minute * Moment.MINUTE) /\
    (Text.m4 g = None -> minute = 0) /\
    (forall d, Text.m4 g = Some d -> minute = Text.Number d) /\
    (meridiem = "pagi" -> hour = 12 -> hour24 = 0) /\
    (meridiem = "siang" \/ meridiem = "sore" \/ meridiem = "malam" ->
     hour < 12 -> hour24 = hour + 12) /\
    (meridiem = "pm" -> hour < 12 -> hour24 = hour + 12) /\
    (meridiem = "am" -> hour = 12 -> hour24 = 0) /\
    (Text.m5 g = None -> hour24 = hour).
Proof.
  intros Hre hour meridiem.
  exists (to24h meridiem hour),
         (match Text.m4 g with Some d => Text.Number d | None => 0 end).
  split; [rewrite (extract_unfold _ _ _ Hre); f_equal; apply at_hm_spec|].
  split; [intros ->; reflexivity|].
  split; [intros d ->; reflexivity|].
  repeat split.
  - intros -> ->. reflexivity.
  - intros Hm Hlt. unfold to24h.
    apply Z.ltb_lt in Hlt as Hb.
    assert ((hour =? 12) = false) as Hne by (apply Z.eqb_neq; lia).
    destruct Hm as [-> | [-> | ->]]; cbn; rewrite ?Hne, Hb; reflexivity.
  - intros -> Hlt. unfold to24h. apply Z.ltb_lt in Hlt. cbn.
    now rewrite Hlt.
  - intros -> ->. reflexivity.
  - intros Hnone. subst meridiem. rewrite Hnone. reflexivity.
Qed.

Lemma C7_extract_hour_meridiem_witness :
  exists hour24 minute,
    extractHourPreferToday "besok jam 7.30 malam" 0 =
      Some (Moment.startOfDay 0 + hour24 * Moment.HOUR
            + minute * Moment.MINUTE) /\
    hour24 = 19 /\ minute = 30.
Proof.
  destruct (C7_extract_hour_meridiem "besok jam 7.30 malam" 0
              (Text.HourGroups "7" (Some "30") (Some "malam")) eq_refl)
    as (h & m & He & _ & Hm & _ & Hh & _).
  exists h, m. split; [exact He|]. split.
  - apply Hh; [right; right; reflexivity | reflexivity].
  - apply (Hm "30"). reflexivity.
Defined.

Lemma extract_jam_9_pagi suffix now :
  Text.hour_re ("jam 9 pagi" ++ suffix) =
    Some (Text.HourGroups "9" None (Some "pagi")) ->
  extractHourPreferToday ("jam 9 pagi" ++ suffix) now =
    Some (Moment.startOfDay now + 9 * Moment.HOUR).
Proof.
  intros H. rewrite (extract_unfold _ _ _ H). cbn [Text.m2 Text.m4 Text.m5].
  rewrite at_hm_spec. f_equal.
  generalize (Moment.startOfDay now). intros x.
  change (to24h (Text.toLowerCase (default EmptyString (Some "pagi")))
            (Text.Number "9")) with 9.
  lia.
Qed.

Lemma parse_manual chrono text now candidate :
  extractHourPreferToday text now = Some candidate ->
  parseIndoPrefer chrono text now =
    if now <? candidate then PMoment candidate
    else if containsHariIni text then PTimePassedToday candidate
    else PMoment (candidate + Moment.DAY).
Proof.
  intros H. unfold parseIndoPrefer. rewrite H.
  unfold Moment.isAfter, Moment.add_day.
  now rewrite Z.mul_1_l.
Qed.

(** C3. When the phrase holds the hour pattern, [parseIndoPrefer]
    returns the candidate if it is strictly after [now]; otherwise the
    signal [time_passed_today] with the candidate if the phrase has
    "hari ini" or "today"; otherwise the candidate plus one day.  So
    "jam 9 pagi" gives today 09:00 at 08:00 and tomorrow 09:00 at
    10:00, and with "hari ini" (or "today") at 10:00 it gives the signal
    with candidate today 09:00. *)
Theorem C3_prefer_today_or_ask :
  (forall chrono text now candidate,
     extractHourPreferToday text now = Some candidate ->
     parseIndoPrefer chrono text now =
       if now <? candidate then PMoment candidate
       else if containsHariIni text then PTimePassedToday candidate
       else PMoment (candidate + Moment.DAY)) /\
  (forall chrono d,
     parseIndoPrefer chrono "jam 9 pagi" (clock d 8 0)
       = PMoment (clock d 9 0) /\
     parseIndoPrefer chrono "jam 9 pagi" (clock d 10 0)
       = PMoment (clock (d + 1) 9 0) /\
     parseIndoPrefer chrono "jam 9 pagi hari ini" (clock d 10 0)
       = PTimePassedToday (clock d 9 0) /\
     parseIndoPrefer chrono "jam 9 pagi today" (clock d 10 0)
       = PTimePassedToday (clock d 9 0)).
Proof.
  split; [exact parse_manual|].
  intros chrono d.
  assert (Hs : forall h, 0 <= h < 24 ->
            Moment.startOfDay (clock d h 0) = d * Moment.DAY).
  { intros h Hh. apply startOfDay_make. unfold_moment. lia. }
  assert (Hlt : forall a b : Z, a < b ->
            (clock d a 0 <? clock d b 0) = true).
  { intros a b Hab. apply Z.ltb_lt. unfold clock. unfold_moment. lia. }
  assert (Hge : forall a b : Z, b <= a ->
            (clock d a 0 <? clock d b 0) = false).
  { intros a b Hab. apply Z.ltb_ge. unfold clock. unfold_moment. lia. }
  assert (H9 : forall h, 0 <= h < 24 ->
            Moment.startOfDay (clock d h 0) + 9 * Moment.HOUR = clock d 9 0).
  { intros h Hh. rewrite Hs by lia. unfold clock. unfold_moment. lia. }
  assert (Hnext : clock d 9 0 + Moment.DAY = clock (d + 1) 9 0).
  { unfold clock. unfold_moment. lia. }
  repeat split.
  - rewrite (parse_manual _ _ _ _
               (extract_jam_9_pagi EmptyString _ eq_refl)).
    rewrite H9 by lia. now rewrite Hlt by lia.
  - rewrite (parse_manual _ _ _ _
               (extract_jam_9_pagi EmptyString _ eq_refl)).
    rewrite H9 by lia. rewrite Hge by lia.
    change (containsHariIni ("jam 9 pagi" ++ EmptyString)) with false.
    cbv iota. now rewrite Hnext.
  - rewrite (parse_manual _ _ _ _
               (extract_jam_9_pagi " hari ini" _ eq_refl)).
    rewrite H9 by lia. rewrite Hge by lia.
    change (containsHariIni ("jam 9 pagi" ++ " hari ini")) with true.
    reflexivity.
  - rewrite (parse_manual _ _ _ _
               (extract_jam_9_pagi " today" _ eq_refl)).
    rewrite H9 by lia. rewrite Hge by lia.
    change (containsHariIni ("jam 9 pagi" ++ " today")) with true.
    reflexivity.
Qed.

Lemma C3_prefer_today_or_ask_witness :
  extractHourPreferToday "jam 9 pagi" (clock 20000 8 0)
    = Some (clock 20000 9 0) /\
  parseIndoPrefer (fun _ _ _ => None) "jam 9 pagi" (clock 20000 8 0)
    = PMoment (clock 20000 9 0).
Proof.
  split; [reflexivity|].
  exact (proj1 C3_prefer_today_or_ask (fun _ _ _ => None) "jam 9 pagi"
           (clock 20000 8 0) (clock 20000 9 0) eq_refl).
Defined.

(** ** The deferred scheduler *)

Lemma skip_past (n : note) (now t : Z) (s : scheduler) :
  reminder_at (cols n) = Some (Iso t) ->
  t < now ->
  scheduleNoteJob (Some n) now s = s /\
  scheduleJob n t now s = (None, s).
Proof.
  intros Hat Hlt. apply Z.ltb_lt in Hlt.
  unfold scheduleNoteJob, scheduleJob, Moment.isBefore.
  now rewrite Hat, Hlt.
Qed.

Lemma cancel_existing_fields (i : Z) (s : scheduler) :
  next_job (cancel_existing i s) = next_job s /\
  scheduledJobs (cancel_existing i s) = delete i (scheduledJobs s) /\
  pending (cancel_existing i s) =
    match scheduledJobs s !! i with
    | Some (Some h) => delete h (pending s)
    | _ => pending s
    end.
Proof.
  unfold cancel_existing.
  destruct (scheduledJobs s !! i) as [[h|]|] eqn:E; cbn;
    repeat split; try reflexivity.
  apply map_eq. intros k. destruct (decide (k = i)) as [->|Hk].
  - now rewrite lookup_delete_eq.
  - now rewrite lookup_delete_ne by congruence.
Qed.

(** Past the guard, with the library's clock at [lib]: the entry of the
    reminder is dropped and its timer cancelled; the library gives a
    job when [lib] has not passed the time, and [null] otherwise. *)
Lemma arm_outcomes (n : note) (now lib t : Z) (s : scheduler) :
  reminder_at (cols n) = Some (Iso t) ->
  now <= t ->
  let s' := scheduleNoteJob_clocks (Some n) now lib s in
  (forall i, i <> note_id n ->
     scheduledJobs s' !! i = scheduledJobs s !! i) /\
  (forall h, scheduledJobs s !! note_id n = Some (Some h) ->
     (h < next_job s)%nat -> pending s' !! h = None) /\
  (lib <= t ->
     scheduledJobs s' !! note_id n = Some (Some (next_job s)) /\
     pending s' !! next_job s = Some (Job n t) /\
     next_job s' = S (next_job s)) /\
  (t < lib ->
     scheduledJobs s' !! note_id n = Some None /\
     next_job s' = next_job s /\
     forall h j, pending s' !! h = Some j -> pending s !! h = Some j).
Proof.
  intros Hat Hle s'. subst s'.
  unfold scheduleNoteJob_clocks, Moment.isBefore. rewrite Hat.
  assert ((t <? now) = false) as Hb by now apply Z.ltb_ge.
  rewrite Hb. cbv zeta.
  destruct (cancel_existing_fields (note_id n) s) as (Hk & Hreg & Hpen).
  unfold scheduleJob. rewrite Hk.
  destruct (Z.ltb_spec t lib) as [Hlt|Hge]; unfold jobs_set; cbn;
    rewrite Hreg, Hpen.
  - split; [|split; [|split]].
    + intros i Hi. rewrite lookup_insert_ne by congruence.
      now rewrite lookup_delete_ne by congruence.
    + intros h Hh _. rewrite Hh. apply lookup_delete_eq.
    + intros Hc. lia.
    + intros _. split; [apply lookup_insert_eq|]. split; [exact Hk|].
      intros h j.
      destruct (scheduledJobs s !! note_id n) as [[h0|]|]; [|tauto|tauto].
      intros Hp. now apply lookup_delete_Some in Hp as [_ Hp].
  - split; [|split; [|split]].
    + intros i Hi. rewrite lookup_insert_ne by congruence.
      now rewrite lookup_delete_ne by congruence.
    + intros h Hh Hfresh. rewrite Hh.
      rewrite lookup_insert_ne by lia. apply lookup_delete_eq.
    + intros _. split; [apply lookup_insert_eq|].
      split; [apply lookup_insert_eq|reflexivity].
    + intros Hc. lia.
Qed.

Lemma scheduleNoteJob_same_clock (n : option note) (now : Z)
    (s : scheduler) :
  scheduleNoteJob n now s = scheduleNoteJob_clocks n now now s.
Proof. reflexivity. Qed.

Lemma skip_past_clocks (n : note) (now lib t : Z) (s : scheduler) :
  reminder_at (cols n) = Some (Iso t) ->
  t < now ->
  scheduleNoteJob_clocks (Some n) now lib s = s.
Proof.
  intros Hat Hlt. apply Z.ltb_lt in Hlt.
  unfold scheduleNoteJob_clocks, Moment.isBefore. now rewrite Hat, Hlt.
Qed.

(** C4, as amended. A reminder whose time is strictly before [now] is
    skipped: [scheduleNoteJob] returns the scheduler as it was (no timer
    stored, registry untouched, nothing thrown), and the library itself
    would refuse the date.  A time equal to [now] is not skipped: the
    timer the registry holds for the reminder is cancelled, and the
    registry gets what the library returns, a new pending job when the
    library's reading of the clock [lib] is still that instant, and
    [null], with no timer added, when the clock has moved on. *)
Theorem C4_only_strictly_past_is_skipped (n : note) (now lib t : Z)
    (s : scheduler) :
  reminder_at (cols n) = Some (Iso t) ->
  now <= lib ->
  let s' := scheduleNoteJob_clocks (Some n) now lib s in
  (t < now -> s' = s /\ scheduleJob n t lib s = (None, s)) /\
  (t = now ->
     (forall h, scheduledJobs s !! note_id n = Some (Some h) ->
        (h < next_job s)%nat -> pending s' !! h = None) /\
     (lib = now ->
        scheduledJobs s' !! note_id n = Some (Some (next_job s)) /\
        pending s' !! next_job s = Some (Job n t)) /\
     (now < lib ->
        scheduledJobs s' !! note_id n = Some None /\
        next_job s' = next_job s /\
        forall h j, pending s' !! h = Some j -> pending s !! h = Some j)).
Proof.
  intros Hat Hlib s'. split.
  - intros Hlt. split; [now apply skip_past_clocks with (t := t)|].
    unfold scheduleJob.
    assert ((t <? lib) = true) as Hb by (apply Z.ltb_lt; lia).
    now rewrite Hb.
  - intros Heq.
    assert (Hle : now <= t) by lia.
    destruct (arm_outcomes n now lib t s Hat Hle)
      as (_ & Hold & Hjob & Hnull).
    split; [exact Hold|]. split.
    + intros Hsame.
      assert (Hl : lib <= t) by lia.
      destruct (Hjob Hl) as (H1 & H2 & _). now split.
    + intros Hlater. apply Hnull. lia.
Qed.

Lemma C4_only_strictly_past_is_skipped_witness :
  (scheduleNoteJob_clocks (Some (sample_note 1 999)) 1000 1000 no_jobs
   = no_jobs /\
   scheduleJob (sample_note 1 999) 999 1000 no_jobs = (None, no_jobs)) /\
  (scheduledJobs
     (scheduleNoteJob_clocks (Some (sample_note 1 1000)) 1000 1001 no_jobs)
     !! 1 = Some None /\
   next_job
     (scheduleNoteJob_clocks (Some (sample_note 1 1000)) 1000 1001 no_jobs)
   = next_job no_jobs /\
   forall h j,
     pending
       (scheduleNoteJob_clocks (Some (sample_note 1 1000)) 1000 1001 no_jobs)
       !! h = Some j ->
     pending no_jobs !! h = Some j).
Proof.
  split.
  - apply (C4_only_strictly_past_is_skipped (sample_note 1 999) 1000 1000
             999 no_jobs); [reflexivity | lia | lia].
  - apply (C4_only_strictly_past_is_skipped (sample_note 1 1000) 1000 1001
             1000 no_jobs); [reflexivity | lia | reflexivity | lia].
Defined.

(** C4 as stated fails at the boundary: a time equal to [now] is not
    strictly in the future, yet [scheduleNoteJob] is no no-op.  When the
    library reads the same instant, the timer the reminder had is
    cancelled and a new job is registered; when the clock has moved on
    by then, the timer is cancelled all the same and the registry holds
    [null]. *)
Lemma C4_counterexample :
  let s0 := scheduleNoteJob_clocks (Some (sample_note 1 5000)) 0 0 no_jobs in
  let s1 := scheduleNoteJob_clocks (Some (sample_note 1 1000)) 1000 1000 s0 in
  let s2 := scheduleNoteJob_clocks (Some (sample_note 1 1000)) 1000 1001 s0 in
  ~ (1000 < 1000) /\
  pending s0 !! 0%nat = Some (Job (sample_note 1 5000) 5000) /\
  pending s1 !! 0%nat = None /\
  pending s1 !! 1%nat = Some (Job (sample_note 1 1000) 1000) /\
  scheduledJobs s1 !! 1 = Some (Some 1%nat) /\
  s1 <> s0 /\
  pending s2 !! 0%nat = None /\
  scheduledJobs s2 !! 1 = Some None /\
  s2 <> s0.
Proof.
  cbv zeta. split; [lia|].
  split; [reflexivity|]. split; [reflexivity|].
  split; [reflexivity|]. split; [reflexivity|].
  split.
  { intros H. apply (f_equal (fun s => pending s !! 0%nat)) in H.
    vm_compute in H. discriminate H. }
  split; [reflexivity|]. split; [reflexivity|].
  intros H. apply (f_equal (fun s => pending s !! 0%nat)) in H.
  vm_compute in H. discriminate H.
Qed.

Lemma fire_callback_returns (n : note) (delivered db_ok : bool) (w : world) :
  exists w', fire_callback n delivered db_ok w = (Returned tt, w') /\
    sched w' = jobs_delete (note_id n) (sched w) /\
    sess w' = sess w /\
    outbox w' =
      (if delivered
       then (outbox w
             ++ [(chat_id (cols n), MsgReminder (note_text (cols n)))])%list
       else outbox w) /\
    db w' = (if delivered && db_ok then markReminded (note_id n) (db w)
             else db w) /\
    console_errors w' =
      (if delivered
       then if db_ok then console_errors w
            else (console_errors w ++ [DbFailed])%list
       else (console_errors w ++ [SendFailed])%list).
Proof.
  unfold fire_callback, andThen, bind, try_catch, await_sendMessage,
    run_markReminded, console_error, modify, throw.
  destruct delivered, db_ok; cbn; eexists; (split; [reflexivity|]);
    cbn; repeat split; reflexivity.
Qed.

(** C5. When a pending job fires, the library takes the invocation off
    its list (so it fires once and cannot fire again) and starts the
    callback; when the callback resumes, whatever happened in between
    and whether the gateway or the store failed, it returns normally,
    the registry has no entry for the reminder, no timer has been added
    (no retry), and a failure is only logged: on a failed delivery
    nothing is sent and the row is not marked. *)
Theorem C5_fire_once_no_retry (s : scheduler) (h : nat) (j : job)
    (now : Z) (delivered db_ok : bool) :
  pending s !! h = Some j ->
  job_when j <= now ->
  let s1 := fire_begin h now s in
  pending s1 !! h = None /\
  running s1 !! h = Some j /\
  (forall now', fire_begin h now' s1 = s1) /\
  forall w2, running (sched w2) !! h = Some j ->
    exists w3,
      fire_end h delivered db_ok w2 = (Returned tt, w3) /\
      scheduledJobs (sched w3) !! note_id (job_note j) = None /\
      pending (sched w3) = pending (sched w2) /\
      running (sched w3) !! h = None /\
      (delivered = false ->
         outbox w3 = outbox w2 /\ db w3 = db w2 /\
         console_errors w3 = (console_errors w2 ++ [SendFailed])%list) /\
      (delivered = true ->
         outbox w3 =
           (outbox w2 ++
              [(chat_id (cols (job_note j)),
                MsgReminder (note_text (cols (job_note j))))])%list).
Proof.
  intros Hp Hw s1. subst s1. unfold fire_begin. rewrite Hp.
  apply Z.leb_le in Hw. rewrite Hw. cbn.
  split; [apply lookup_delete_eq|].
  split; [apply lookup_insert_eq|].
  split; [intros now'; unfold fire_begin; cbn;
          now rewrite lookup_delete_eq|].
  intros w2 Hr. unfold fire_end. rewrite Hr.
  destruct (fire_callback_returns (job_note j) delivered db_ok
              (on_sched (fun s0 =>
                 {| scheduledJobs := scheduledJobs s0;
                    pending := pending s0;
                    running := delete h (running s0);
                    next_job := next_job s0 |}) w2))
    as (w3 & Hrun & Hs & _ & Ho & Hd & He).
  exists w3. split; [exact Hrun|]. cbn in Hs, Ho, Hd, He.
  rewrite Hs. cbn.
  split; [apply lookup_delete_eq|].
  split; [reflexivity|].
  split; [apply lookup_delete_eq|].
  split.
  - intros ->. cbn in *. now rewrite Ho, Hd, He.
  - intros ->. exact Ho.
Qed.

Lemma C5_fire_once_no_retry_witness :
  let s := scheduleNoteJob (Some (sample_note 1 1000)) 0 no_jobs in
  pending (fire_begin 0 1000 s) !! 0%nat = None /\
  running (fire_begin 0 1000 s) !! 0%nat
    = Some (Job (sample_note 1 1000) 1000).
Proof.
  cbv zeta.
  pose proof (C5_fire_once_no_retry
                (scheduleNoteJob (Some (sample_note 1 1000)) 0 no_jobs)
                0%nat (Job (sample_note 1 1000) 1000) 1000 false true
                eq_refl) as H.
  cbv zeta in H.
  destruct H as (H1 & H2 & _); [cbn; lia|].
  split; [exact H1 | exact H2].
Defined.

(** *** The registry follows the armed timers *)

Lemma tracked_no_jobs : tracked no_jobs.
Proof.
  split.
  - intros h j H. cbn in H. now rewrite lookup_empty in H.
  - intros i h H. cbn in H. now rewrite lookup_empty in H.
Qed.

Lemma tracked_unique s i h1 h2 :
  tracked s -> armed s i h1 -> armed s i h2 -> h1 = h2.
Proof.
  intros [T1 _] (j1 & P1 & I1) (j2 & P2 & I2).
  destruct (T1 _ _ P1) as [_ R1]. destruct (T1 _ _ P2) as [_ R2].
  rewrite I1 in R1. rewrite I2 in R2. congruence.
Qed.

Lemma cancel_existing_tracked i s :
  tracked s ->
  tracked (cancel_existing i s) /\
  scheduledJobs (cancel_existing i s) !! i = None /\
  (forall h, ~ armed (cancel_existing i s) i h) /\
  next_job (cancel_existing i s) = next_job s.
Proof.
  intros [T1 T2].
  assert (Hgoal : tracked (cancel_existing i s) /\
                  scheduledJobs (cancel_existing i s) !! i = None /\
                  next_job (cancel_existing i s) = next_job s).
  { unfold cancel_existing.
    destruct (scheduledJobs s !! i) as [[h|]|] eqn:E; cbn.
    - split; [split|split; [apply lookup_delete_eq|reflexivity]]; cbn.
      + intros h' j Hp. apply lookup_delete_Some in Hp as [Hne Hp].
        destruct (T1 _ _ Hp) as [Hlt Hr]. split; [exact Hlt|].
        rewrite lookup_delete_ne; [exact Hr|].
        intros Heq. rewrite <- Heq in Hr. congruence.
      + intros i' h' Hr. apply lookup_delete_Some in Hr as [Hne Hr].
        destruct (T2 _ _ Hr) as [Hlt Hj]. split; [exact Hlt|].
        intros j Hp. apply lookup_delete_Some in Hp as [_ Hp]. eauto.
    - split; [split|split; [apply lookup_delete_eq|reflexivity]]; cbn.
      + intros h' j Hp. destruct (T1 _ _ Hp) as [Hlt Hr].
        split; [exact Hlt|]. rewrite lookup_delete_ne; [exact Hr|].
        intros Heq. rewrite <- Heq in Hr. congruence.
      + intros i' h' Hr. apply lookup_delete_Some in Hr as [Hne Hr].
        exact (T2 _ _ Hr).
    - split; [split; assumption|split; [exact E|reflexivity]]. }
  destruct Hgoal as (T & Hn & Hk).
  split; [exact T|]. split; [exact Hn|]. split; [|exact Hk].
  intros h (j & Hp & Hi). destruct T as [T1' _].
  destruct (T1' _ _ Hp) as [_ Hr]. rewrite Hi in Hr. congruence.
Qed.

(** Arming keeps the registry in step with the armed timers, and when it
    goes through, the reminder has exactly the new timer. *)
Lemma arm_replaces (n : note) (now t : Z) (s : scheduler) :
  tracked s ->
  reminder_at (cols n) = Some (Iso t) ->
  now <= t ->
  let s' := scheduleNoteJob (Some n) now s in
  tracked s' /\
  scheduledJobs s' !! note_id n = Some (Some (next_job s)) /\
  pending s' !! next_job s = Some (Job n t) /\
  (forall h, armed s' (note_id n) h -> h = next_job s) /\
  (forall h j, pending s' !! h = Some j -> h <> next_job s ->
     pending s !! h = Some j /\ note_id (job_note j) <> note_id n) /\
  (forall h j, pending s !! h = Some j ->
     note_id (job_note j) <> note_id n -> pending s' !! h = Some j) /\
  (forall i, i <> note_id n ->
     scheduledJobs s' !! i = scheduledJobs s !! i) /\
  next_job s' = S (next_job s).
Proof.
  intros T Hat Hle s'. subst s'.
  unfold scheduleNoteJob, Moment.isBefore. rewrite Hat.
  assert ((t <? now) = false) as Hb by (apply Z.ltb_ge; exact Hle).
  rewrite Hb.
  destruct (cancel_existing_tracked (note_id n) s T)
    as ([T1 T2] & Hnone & Hna & Hk).
  assert (Hpend : forall h j,
            pending (cancel_existing (note_id n) s) !! h = Some j ->
            pending s !! h = Some j).
  { intros h j. unfold cancel_existing.
    destruct (scheduledJobs s !! note_id n) as [[h0|]|]; cbn; try tauto.
    intros Hp. now apply lookup_delete_Some in Hp as [_ Hp]. }
  assert (Hkeep : forall h j, pending s !! h = Some j ->
            note_id (job_note j) <> note_id n ->
            pending (cancel_existing (note_id n) s) !! h = Some j).
  { intros h j Hp Hne. unfold cancel_existing.
    destruct (scheduledJobs s !! note_id n) as [[h0|]|] eqn:E; cbn;
      try exact Hp.
    rewrite lookup_delete_ne; [exact Hp|].
    intros <-. destruct T as [_ T2']. destruct (T2' _ _ E) as [_ Hj].
    apply Hne. now apply Hj. }
  assert (Hreg : forall i, i <> note_id n ->
            scheduledJobs (cancel_existing (note_id n) s) !! i
            = scheduledJobs s !! i).
  { intros i Hne. unfold cancel_existing.
    destruct (scheduledJobs s !! note_id n) as [[h0|]|]; cbn;
      try reflexivity; now rewrite lookup_delete_ne. }
  unfold scheduleJob, jobs_set. rewrite Hb. cbn. rewrite Hk.
  assert (Hfresh : forall h j,
            pending (cancel_existing (note_id n) s) !! h = Some j ->
            h <> next_job s).
  { intros h j Hp. destruct (T1 _ _ Hp) as [Hlt _]. rewrite Hk in Hlt. lia. }
  unfold tracked, armed. cbn.
  split; [split|].
  - intros h j Hp. apply lookup_insert_Some in Hp as [[<- <-]|[Hne Hp]].
    + cbn. split; [lia|apply lookup_insert_eq].
    + destruct (T1 _ _ Hp) as [Hlt Hr]. rewrite Hk in Hlt.
      split; [lia|]. rewrite lookup_insert_ne; [exact Hr|].
      intros Heq. rewrite <- Heq in Hr. congruence.
  - intros i h Hr. apply lookup_insert_Some in Hr as [[<- Hh]|[Hne Hr]].
    + injection Hh as <-. split; [lia|].
      intros j Hp. rewrite lookup_insert_eq in Hp. now injection Hp as <-.
    + destruct (T2 _ _ Hr) as [Hlt Hj]. rewrite Hk in Hlt.
      split; [lia|]. intros j Hp.
      rewrite lookup_insert_ne in Hp by lia. eauto.
  - split; [apply lookup_insert_eq|].
    split; [apply lookup_insert_eq|].
    split.
    { intros h (j & Hp & Hi).
      apply lookup_insert_Some in Hp as [[<- _]|[Hne Hp]]; [reflexivity|].
      exfalso. apply (Hna h). exists j. split; assumption. }
    split.
    { intros h j Hp Hne. rewrite lookup_insert_ne in Hp by congruence.
      split; [now apply Hpend|].
      intros Hi. apply (Hna h). exists j. split; assumption. }
    split.
    { intros h j Hp Hne. rewrite lookup_insert_ne.
      - now apply Hkeep.
      - intros Heq. apply (Hfresh h j); [now apply Hkeep|congruence]. }
    split; [|reflexivity].
    intros i Hne. rewrite lookup_insert_ne by congruence. now apply Hreg.
Qed.

Lemma arm_keeps_tracked (n : option note) (now : Z) (s : scheduler) :
  tracked s -> tracked (scheduleNoteJob n now s).
Proof.
  intros T. destruct n as [n|]; [|exact T].
  destruct (reminder_at (cols n)) as [[t|]|] eqn:Hat;
    try (unfold scheduleNoteJob; rewrite Hat; exact T).
  destruct (Z.ltb_spec t now) as [Hlt|Hle].
  - destruct (skip_past n now t s Hat Hlt) as [-> _]. exact T.
  - now apply (arm_replaces n now t s T Hat Hle).
Qed.

Lemma fire_begin_cases (h : nat) (now : Z) (s : scheduler) :
  (exists j, pending s !! h = Some j /\
     fire_begin h now s =
       {| scheduledJobs := scheduledJobs s;
          pending := delete h (pending s);
          running := <[h := j]> (running s);
          next_job := next_job s |}) \/
  fire_begin h now s = s.
Proof.
  unfold fire_begin. destruct (pending s !! h) as [j|]; [|now right].
  destruct (job_when j <=? now); [left; now exists j|now right].
Qed.

Lemma quiet_step_tracked (e : quiet_event) (w : world) :
  tracked (sched w) -> running (sched w) = ∅ ->
  tracked (sched (sched_run (unquiet e) w)) /\
  running (sched (sched_run (unquiet e) w)) = ∅.
Proof.
  intros T R.
  destruct e as [n now|i chatId|h now delivered db_ok]; [cbn|cbn|].
  - split; [now apply arm_keeps_tracked|].
    destruct n as [n|]; [|exact R]. unfold scheduleNoteJob.
    destruct (reminder_at (cols n)) as [[t|]|]; try exact R.
    destruct (Moment.isBefore t now); [exact R|].
    unfold scheduleJob. destruct (t <? now); cbn; unfold cancel_existing;
      destruct (scheduledJobs (sched w) !! note_id n) as [[h0|]|]; exact R.
  - unfold delete_note.
    destruct (getNoteByIdStmt i chatId (db w)); [cbn|split; assumption].
    split; [now apply cancel_existing_tracked|].
    unfold cancel_existing.
    destruct (scheduledJobs (sched w) !! i) as [[h0|]|]; exact R.
  - unfold sched_run. cbn [unquiet foldl sched_step].
    unfold fire_end. cbn [on_sched sched].
    destruct (fire_begin_cases h now (sched w)) as [(j & Hp & Hs1)|Hs1];
      rewrite Hs1.
    + cbn [running]. rewrite lookup_insert_eq.
      match goal with
      | |- context [fire_callback ?n ?d ?o ?w0] =>
          destruct (fire_callback_returns n d o w0) as (w3 & -> & Hs & _)
      end.
      cbn [snd]. rewrite Hs. cbn [on_sched sched]. rewrite Hs1.
      unfold jobs_delete. cbn. rewrite R.
      split; [|now rewrite delete_insert_eq, delete_empty].
      destruct T as [T1 T2]. destruct (T1 _ _ Hp) as [Hlt Hreg].
      split; cbn.
      * intros h' j' Hp'. apply lookup_delete_Some in Hp' as [Hne Hp'].
        destruct (T1 _ _ Hp') as [Hlt' Hreg']. split; [exact Hlt'|].
        rewrite lookup_delete_ne; [exact Hreg'|].
        intros Heq. rewrite Heq in Hreg. congruence.
      * intros i' h' Hr. apply lookup_delete_Some in Hr as [Hne Hr].
        destruct (T2 _ _ Hr) as [Hlt' Hj]. split; [exact Hlt'|].
        intros j' Hp'. apply lookup_delete_Some in Hp' as [_ Hp']. eauto.
    + rewrite R, lookup_empty. cbn [snd on_sched sched]. rewrite Hs1.
      split; assumption.
Qed.

(** As long as no handler runs while a fire callback waits for the
    gateway, a reminder never has two armed timers. *)
Lemma quiet_runs_one_timer (es : list quiet_event) (d : database)
    (i : Z) (h1 h2 : nat) :
  let w0 := {| db := d; sched := no_jobs; sess := no_sessions;
               outbox := []; console_errors := [] |} in
  let s := sched (sched_run (concat (unquiet <$> es)) w0) in
  armed s i h1 -> armed s i h2 -> h1 = h2.
Proof.
  intros w0 s. apply tracked_unique. subst s.
  assert (H : tracked (sched w0) /\ running (sched w0) = ∅)
    by (split; [apply tracked_no_jobs|reflexivity]).
  revert H. generalize w0. clear w0.
  induction es as [|e es IH]; intros w [T R]; [exact T|].
  cbn. unfold sched_run. rewrite foldl_app.
  apply IH. now apply quiet_step_tracked.
Qed.

(** C1 fails on the code. After [late_delete_run], started from the
    recovered store, reminder 1 has two armed timers (09:00 and 10:00):
    the callback of the fired job deleted the registry entry of the job
    that had replaced it, so the last [scheduleNoteJob] found nothing to
    cancel.  Both fire later, and [/delete] would cancel only one. *)
Theorem C1_two_timers_after_late_delete :
  let w0 := boot one_note (clock 20000 7 0) in
  let w := run no_chrono late_delete_run w0 in
  let j1 := Job (Note 1 (Row 7 "beli tinta" (Some (Iso (clock 20000 9 0)))
                           0 "pending")) (clock 20000 9 0) in
  let j2 := Job (Note 1 (Row 7 "beli tinta" (Some (Iso (clock 20000 10 0)))
                           0 "pending")) (clock 20000 10 0) in
  pending (sched w0) !! 0%nat
    = Some (Job (sample_note 1 (clock 20000 8 0)) (clock 20000 8 0)) /\
  pending (sched w) !! 1%nat = Some j1 /\
  pending (sched w) !! 2%nat = Some j2 /\
  armed (sched w) 1 1%nat /\ armed (sched w) 1 2%nat /\
  scheduledJobs (sched w) !! 1 = Some (Some 2%nat).
Proof.
  cbv zeta.
  assert (H1 : pending (sched (run no_chrono late_delete_run
                 (boot one_note (clock 20000 7 0)))) !! 1%nat
               = Some (Job (Note 1 (Row 7 "beli tinta"
                   (Some (Iso (clock 20000 9 0))) 0 "pending"))
                   (clock 20000 9 0)))
    by (vm_compute; reflexivity).
  assert (H2 : pending (sched (run no_chrono late_delete_run
                 (boot one_note (clock 20000 7 0)))) !! 2%nat
               = Some (Job (Note 1 (Row 7 "beli tinta"
                   (Some (Iso (clock 20000 10 0))) 0 "pending"))
                   (clock 20000 10 0)))
    by (vm_compute; reflexivity).
  split; [vm_compute; reflexivity|].
  split; [exact H1|]. split; [exact H2|].
  split; [eexists; split; [exact H1|reflexivity]|].
  split; [eexists; split; [exact H2|reflexivity]|].
  vm_compute; reflexivity.
Qed.

(** *** Recovery at start-up *)

Lemma elem_of_existing (d : database) (n : note) :
  n ∈ existing d <->
  notes d !! note_id n = Some (cols n) /\
  reminder_at (cols n) <> None /\ reminded (cols n) = 0.
Proof.
  unfold existing. rewrite list_elem_of_filter, list_elem_of_fmap.
  unfold due_row. split.
  - intros [Hdue ([i r] & -> & Hin)]. cbn in *.
    apply elem_of_map_to_list in Hin. split; [exact Hin|].
    destruct (reminder_at r); [|discriminate].
    split; [discriminate|now apply Z.eqb_eq].
  - intros (Hl & Hat & Hr). split.
    + destruct (reminder_at (cols n)); [now apply Z.eqb_eq|congruence].
    + exists (note_id n, cols n). split; [now destruct n|].
      now apply elem_of_map_to_list.
Qed.

Lemma NoDup_existing (d : database) : NoDup (note_id <$> existing d).
Proof.
  unfold existing.
  eapply sublist_NoDup;
    [|apply fmap_sublist, sublist_filter].
  rewrite <- list_fmap_compose.
  erewrite list_fmap_ext; [apply (NoDup_fst_map_to_list (notes d))|].
  now intros ? [? ?].
Qed.

Lemma recovered_snoc (now : Z) (l : list note) (n : note) (s : scheduler) :
  recovered now l s ->
  note_id n ∉ (note_id <$> l) ->
  recovered now (l ++ [n]) (scheduleNoteJob (Some n) now s).
Proof.
  intros (Ha & Hb & Hc) Hfresh.
  assert (Hreg : scheduledJobs s !! note_id n = None).
  { destruct (scheduledJobs s !! note_id n) as [e|] eqn:E; [|reflexivity].
    destruct (Hb _ _ E) as (n' & Hin & Hid). exfalso. apply Hfresh.
    apply list_elem_of_fmap. exists n'. split; [now symmetry|exact Hin]. }
  assert (Hskip : scheduleNoteJob (Some n) now s = s ->
                  (forall t, reminder_at (cols n) = Some (Iso t) ->
                             now <= t -> False) ->
                  recovered now (l ++ [n]) (scheduleNoteJob (Some n) now s)).
  { intros -> Hno. split; [|split].
    - intros h j Hp. destruct (Ha _ _ Hp) as (? & ? & ? & ? & ?).
      repeat split; try assumption. apply elem_of_app; now left.
    - intros i e Hr. destruct (Hb _ _ Hr) as (n' & ? & ?).
      exists n'. split; [apply elem_of_app; now left|assumption].
    - intros n' t Hin Hat Hle. apply elem_of_app in Hin as [Hin|Hin].
      + eauto.
      + apply list_elem_of_singleton in Hin as ->. exfalso. eauto. }
  destruct (reminder_at (cols n)) as [[t|]|] eqn:Hat.
  - destruct (Z.ltb_spec t now) as [Hlt|Hle].
    + apply Hskip.
      * unfold scheduleNoteJob, Moment.isBefore. rewrite Hat.
        now apply Z.ltb_lt in Hlt as ->.
      * intros t' [= <-] Hle. lia.
    + clear Hskip. unfold scheduleNoteJob, Moment.isBefore. rewrite Hat.
      assert ((t <? now) = false) as Hbf by now apply Z.ltb_ge.
      rewrite Hbf. unfold cancel_existing. rewrite Hreg.
      unfold scheduleJob. rewrite Hbf. unfold jobs_set, recovered. cbn.
      split; [|split].
      * intros h j Hp. apply lookup_insert_Some in Hp as [[<- <-]|[Hne Hp]].
        -- cbn. split; [lia|]. split; [apply lookup_insert_eq|].
           split; [apply elem_of_app; right; now apply list_elem_of_singleton|].
           split; [exact Hat|exact Hle].
        -- destruct (Ha _ _ Hp) as (Hlt & Hr & Hin & Hw & Hn).
           split; [lia|]. split.
           { rewrite lookup_insert_ne; [exact Hr|].
             intros Heq. rewrite <- Heq in Hr. congruence. }
           split; [apply elem_of_app; now left|]. split; assumption.
      * intros i e Hr. apply lookup_insert_Some in Hr as [[<- _]|[Hne Hr]].
        -- exists n. split; [|reflexivity].
           apply elem_of_app; right; now apply list_elem_of_singleton.
        -- destruct (Hb _ _ Hr) as (n' & ? & ?).
           exists n'. split; [apply elem_of_app; now left|assumption].
      * intros n' t' Hin Hat' Hle'. apply elem_of_app in Hin as [Hin|Hin].
        -- destruct (Hc _ _ Hin Hat' Hle') as (h & Hr & Hp).
           exists h. split.
           ++ rewrite lookup_insert_ne; [exact Hr|].
              intros Heq. rewrite <- Heq in Hr. congruence.
           ++ rewrite lookup_insert_ne; [exact Hp|].
              destruct (Ha _ _ Hp) as (Hlt & _). lia.
        -- apply list_elem_of_singleton in Hin as ->.
           rewrite Hat in Hat'. injection Hat' as ->.
           exists (next_job s).
           split; apply lookup_insert_eq.
  - apply Hskip.
    + unfold scheduleNoteJob. now rewrite Hat.
    + intros t [=].
  - apply Hskip.
    + unfold scheduleNoteJob. now rewrite Hat.
    + intros t [=].
Qed.

Lemma recovered_foldl (now : Z) (l : list note) :
  NoDup (note_id <$> l) ->
  recovered now l
    (foldl (fun s n => scheduleNoteJob (Some n) now s) no_jobs l).
Proof.
  induction l as [|n l IH] using rev_ind; intros Hnd.
  - cbn. split; [|split].
    + intros h j H. cbn in H. now rewrite lookup_empty in H.
    + intros i e H. cbn in H. now rewrite lookup_empty in H.
    + intros n t H. now apply elem_of_nil in H.
  - rewrite foldl_app. cbn.
    rewrite fmap_app in Hnd. apply NoDup_app in Hnd as (Hl & Hdis & _).
    apply recovered_snoc; [now apply IH|].
    intros Hin. apply (Hdis _ Hin). cbn. apply list_elem_of_singleton.
    reflexivity.
Qed.

(** C6. The start-up loop arms exactly the rows with a non-null
    [reminder_at] and [reminded = 0]; afterwards each such row whose time
    is in the future has an armed timer, registered under its id, for
    that time, and no row whose time is in the past has an armed
    timer. *)
Theorem C6_recover_arms_future_only (d : database) (now : Z) :
  let s := recover d now in
  s = foldl (fun s n => scheduleNoteJob (Some n) now s) no_jobs (existing d)
  /\
  (forall n, n ∈ existing d <->
     notes d !! note_id n = Some (cols n) /\
     reminder_at (cols n) <> None /\ reminded (cols n) = 0) /\
  (forall i r t,
     notes d !! i = Some r -> reminder_at r = Some (Iso t) ->
     reminded r = 0 -> now < t ->
     exists h, scheduledJobs s !! i = Some (Some h) /\
               pending s !! h = Some (Job (Note i r) t)) /\
  (forall i r t,
     notes d !! i = Some r -> reminder_at r = Some (Iso t) -> t < now ->
     forall h, ~ armed s i h).
Proof.
  intros s. split; [reflexivity|]. split; [apply elem_of_existing|].
  destruct (recovered_foldl now (existing d) (NoDup_existing d))
    as (Ha & Hb & Hc).
  fold (recover d now) in Ha, Hb, Hc. fold s in Ha, Hb, Hc.
  split.
  - intros i r t Hl Hat Hr Hlt.
    apply (Hc (Note i r) t); [|exact Hat|lia].
    apply elem_of_existing. cbn. rewrite Hat. repeat split; congruence.
  - intros i r t Hl Hat Hlt h (j & Hp & Hi).
    destruct (Ha _ _ Hp) as (_ & _ & Hin & Hw & Hle).
    apply elem_of_existing in Hin as (Hl' & _).
    rewrite Hi, Hl in Hl'. injection Hl' as Hr. rewrite <- Hr in Hw.
    rewrite Hat in Hw. injection Hw as ->. lia.
Qed.

Lemma C6_recover_arms_future_only_witness :
  (exists h, scheduledJobs (recover two_notes 1000) !! 1 = Some (Some h) /\
             pending (recover two_notes 1000) !! h
             = Some (Job (sample_note 1 2000) 2000)) /\
  (forall h, ~ armed (recover two_notes 1000) 2 h).
Proof.
  destruct (C6_recover_arms_future_only two_notes 1000)
    as (_ & _ & Hfuture & Hpast).
  split.
  - apply (Hfuture 1 (cols (sample_note 1 2000)) 2000);
      [reflexivity | reflexivity | reflexivity | lia].
  - apply (Hpast 2 (cols (sample_note 2 500)) 500);
      [reflexivity | reflexivity | lia].
Defined.

(** ** The session manager *)

Lemma sessions_ok_empty : sessions_ok no_sessions.
Proof.
  split; [|split].
  - intros h c dl H. unfold expiring in H. cbn in H.
    now rewrite lookup_empty in H.
  - intros h x H. cbn in H. now rewrite lookup_empty in H.
  - intros c h H. cbn in H. now rewrite lookup_empty in H.
Qed.

Lemma setState_timers chatId stateObj now ss :
  timers (setState chatId stateObj now ss) =
    <[next_timer ss := (chatId, now + SESSION_TIMEOUT)]>
      (match stateTimeouts ss !! chatId with
       | Some h => delete h (timers ss)
       | None => timers ss
       end) /\
  stateTimeouts (setState chatId stateObj now ss) =
    <[chatId := next_timer ss]> (stateTimeouts ss) /\
  userState (setState chatId stateObj now ss) =
    <[chatId := stateObj]> (userState ss) /\
  next_timer (setState chatId stateObj now ss) = S (next_timer ss).
Proof.
  unfold setState. cbn.
  destruct (stateTimeouts ss !! chatId); cbn; repeat split; reflexivity.
Qed.

Lemma clearState_fields chatId ss :
  timers (clearState chatId ss) =
    (match stateTimeouts ss !! chatId with
     | Some h => delete h (timers ss)
     | None => timers ss
     end) /\
  stateTimeouts (clearState chatId ss) = delete chatId (stateTimeouts ss) /\
  userState (clearState chatId ss) = delete chatId (userState ss) /\
  next_timer (clearState chatId ss) = next_timer ss.
Proof.
  unfold clearState. cbn.
  destruct (stateTimeouts ss !! chatId) eqn:E; cbn; repeat split;
    try reflexivity.
  symmetry. now apply delete_id.
Qed.

Lemma setState_ok chatId stateObj now ss :
  sessions_ok ss -> sessions_ok (setState chatId stateObj now ss).
Proof.
  intros (T & F1 & F2).
  destruct (setState_timers chatId stateObj now ss) as (Ht & Hr & _ & Hn).
  unfold sessions_ok, timed, expiring. rewrite Ht, Hr, Hn.
  split; [|split].
  - intros h c dl H. apply lookup_insert_Some in H as [[<- [= <- <-]]|[Hne H]].
    + apply lookup_insert_eq.
    + assert (Hold : timers ss !! h = Some (c, dl) /\
                     stateTimeouts ss !! chatId <> Some h).
      { destruct (stateTimeouts ss !! chatId) as [h0|].
        - apply lookup_delete_Some in H as [? ?]. split; congruence.
        - split; [exact H|discriminate]. }
      destruct Hold as [Hold Hneq]. pose proof (T _ _ _ Hold) as Hreg.
      rewrite lookup_insert_ne; [exact Hreg|]. congruence.
  - intros h x H. apply lookup_insert_Some in H as [[<- _]|[Hne H]]; [lia|].
    assert (timers ss !! h = Some x) as Hold.
    { destruct (stateTimeouts ss !! chatId);
        [now apply lookup_delete_Some in H as [_ H]|exact H]. }
    pose proof (F1 _ _ Hold). lia.
  - intros c h H. apply lookup_insert_Some in H as [[<- <-]|[Hne H]].
    + split; [lia|]. intros c' dl H'. rewrite lookup_insert_eq in H'.
      now injection H' as <- _.
    + destruct (F2 _ _ H) as [Hlt Hown]. split; [lia|].
      intros c' dl H'. rewrite lookup_insert_ne in H' by lia.
      apply (Hown c' dl).
      destruct (stateTimeouts ss !! chatId);
        [now apply lookup_delete_Some in H' as [_ H']|exact H'].
Qed.

Lemma clearState_ok chatId ss :
  sessions_ok ss -> sessions_ok (clearState chatId ss).
Proof.
  intros (T & F1 & F2).
  destruct (clearState_fields chatId ss) as (Ht & Hr & _ & Hn).
  unfold sessions_ok, timed, expiring. rewrite Ht, Hr, Hn.
  assert (Hsub : forall h x,
            match stateTimeouts ss !! chatId with
            | Some h0 => delete h0 (timers ss)
            | None => timers ss
            end !! h = Some x ->
            timers ss !! h = Some x /\ stateTimeouts ss !! chatId <> Some h).
  { intros h x H. destruct (stateTimeouts ss !! chatId) as [h0|].
    - apply lookup_delete_Some in H as [? ?]. split; congruence.
    - split; [exact H|discriminate]. }
  split; [|split].
  - intros h c dl H. apply Hsub in H as [H Hne].
    pose proof (T _ _ _ H) as Hreg.
    rewrite lookup_delete_ne; [exact Hreg|]. congruence.
  - intros h x H. apply Hsub in H as [H _]. eauto.
  - intros c h H. apply lookup_delete_Some in H as [_ H].
    destruct (F2 _ _ H) as [Hlt Hown]. split; [exact Hlt|].
    intros c' dl H'. apply Hsub in H' as [H' _]. eauto.
Qed.

Lemma expire_ok h now w :
  sessions_ok (sess w) -> sessions_ok (sess (expire h now w)).
Proof.
  intros (T & F1 & F2). unfold expire.
  destruct (timers (sess w) !! h) as [[chatId deadline]|] eqn:E;
    [|split; [exact T|split; assumption]].
  destruct (deadline <=? now); [|split; [exact T|split; assumption]].
  cbn. unfold sessions_ok, timed, expiring. cbn.
  pose proof (T _ _ _ E) as Hreg.
  split; [|split].
  - intros h' c dl H. apply lookup_delete_Some in H as [Hne H].
    pose proof (T _ _ _ H) as Hreg'.
    rewrite lookup_delete_ne; [exact Hreg'|]. congruence.
  - intros h' x H. apply lookup_delete_Some in H as [_ H]. eauto.
  - intros c h' H. apply lookup_delete_Some in H as [_ H].
    destruct (F2 _ _ H) as [Hlt Hown]. split; [exact Hlt|].
    intros c' dl H'. apply lookup_delete_Some in H' as [_ H']. eauto.
Qed.

Lemma session_run_ok es w :
  sessions_ok (sess w) -> sessions_ok (sess (session_run es w)).
Proof.
  revert w. induction es as [|e es IH]; intros w H; [exact H|].
  cbn. apply IH. destruct e as [c st now|c|h now]; cbn.
  - now apply setState_ok.
  - now apply clearState_ok.
  - now apply expire_ok.
Qed.

(** C2. In every state the session manager can reach by [setState],
    [clearState] and expiries, an owner has at most one session (the
    entry of the map [userState]) and at most one live expiry timer.
    [setState] puts the given state object in place of whatever was
    there, cancels the owner's previous timer and leaves the owner with
    exactly one timer, due 120000 ms after this call; other owners keep
    their session and timers.  [clearState] leaves the owner with no
    session and no timer. *)
Theorem C2_one_session_one_expiry_timer (es : list session_event)
    (d : database) (now0 : Z) (chatId : Z) (stateObj : session) (now : Z) :
  let ss := sess (session_run es (boot d now0)) in
  let set := setState chatId stateObj now ss in
  let cleared := clearState chatId ss in
  (forall c h1 h2 d1 d2,
     expiring ss c h1 d1 -> expiring ss c h2 d2 -> h1 = h2 /\ d1 = d2) /\
  userState set !! chatId = Some stateObj /\
  (exists h,
     stateTimeouts set !! chatId = Some h /\
     forall h' dl, expiring set chatId h' dl <->
                   h' = h /\ dl = now + 2 * 60 * 1000) /\
  (forall h, stateTimeouts ss !! chatId = Some h -> timers set !! h = None) /\
  (forall c, c <> chatId ->
     userState set !! c = userState ss !! c /\
     forall h dl, expiring set c h dl <-> expiring ss c h dl) /\
  userState cleared !! chatId = None /\
  stateTimeouts cleared !! chatId = None /\
  (forall h dl, ~ expiring cleared chatId h dl).
Proof.
  intros ss set cleared.
  assert (Hok : sessions_ok ss)
    by (apply session_run_ok, sessions_ok_empty).
  destruct Hok as (T & F1 & F2).
  destruct (setState_timers chatId stateObj now ss) as (Ht & Hr & Hu & Hn).
  destruct (clearState_fields chatId ss) as (Ht' & Hr' & Hu' & Hn').
  fold set in Ht, Hr, Hu, Hn. fold cleared in Ht', Hr', Hu', Hn'.
  assert (Hsub : forall h x,
            match stateTimeouts ss !! chatId with
            | Some h0 => delete h0 (timers ss)
            | None => timers ss
            end !! h = Some x ->
            timers ss !! h = Some x /\ stateTimeouts ss !! chatId <> Some h).
  { intros h x H. destruct (stateTimeouts ss !! chatId) as [h0|].
    - apply lookup_delete_Some in H as [? ?]. split; congruence.
    - split; [exact H|discriminate]. }
  split.
  { intros c h1 h2 d1 d2 H1 H2.
    pose proof (T _ _ _ H1) as R1. pose proof (T _ _ _ H2) as R2.
    assert (h1 = h2) as -> by congruence.
    unfold expiring in *. split; congruence. }
  split; [rewrite Hu; apply lookup_insert_eq|].
  split.
  { exists (next_timer ss). split; [rewrite Hr; apply lookup_insert_eq|].
    intros h' dl. unfold expiring. rewrite Ht. split.
    - intros H. apply lookup_insert_Some in H as [[<- [= <-]]|[Hne H]].
      + split; reflexivity.
      + apply Hsub in H as [H Hneq]. pose proof (T _ _ _ H). congruence.
    - intros [-> ->]. apply lookup_insert_eq. }
  split.
  { intros h Hh. rewrite Ht, Hh. destruct (F2 _ _ Hh) as [Hlt _].
    rewrite lookup_insert_ne by lia. apply lookup_delete_eq. }
  split.
  { intros c Hc. split; [rewrite Hu; now apply lookup_insert_ne|].
    intros h dl. unfold expiring. rewrite Ht. split.
    - intros H. apply lookup_insert_Some in H as [[_ Heq]|[_ H]].
      + injection Heq as Heq _. now symmetry in Heq.
      + now apply Hsub in H as [H _].
    - intros H. pose proof (F1 _ _ H). rewrite lookup_insert_ne by lia.
      destruct (stateTimeouts ss !! chatId) as [h0|] eqn:E; [|exact H].
      rewrite lookup_delete_ne; [exact H|].
      intros <-. destruct (F2 _ _ E) as [_ Hown].
      apply Hc. apply (Hown c dl H). }
  split; [rewrite Hu'; apply lookup_delete_eq|].
  split; [rewrite Hr'; apply lookup_delete_eq|].
  intros h dl H. unfold expiring in H. rewrite Ht' in H.
  apply Hsub in H as [H Hneq]. pose proof (T _ _ _ H). congruence.
Qed.

(** ** The store *)

Lemma foldr_max_ge (l : list Z) (k : Z) : k ∈ l -> k <= foldr Z.max 0 l.
Proof.
  induction l as [|x l IH]; intros H; [now apply elem_of_nil in H|].
  apply elem_of_cons in H as [->|H]; cbn; [lia|].
  specialize (IH H). lia.
Qed.

Lemma max_rowid_ge (m : gmap Z row) (k : Z) (r : row) :
  m !! k = Some r -> k <= max_rowid m.
Proof.
  intros H. apply foldr_max_ge, list_elem_of_fmap.
  exists (k, r). split; [reflexivity|now apply elem_of_map_to_list].
Qed.

(** The row id of an insertion is new. *)
Lemma insert_rowid_fresh (d : database) :
  notes d !! (1 + Z.max (notes_seq d) (max_rowid (notes d))) = None.
Proof.
  destruct (notes d !! _) as [r|] eqn:E; [|reflexivity].
  apply max_rowid_ge in E. lia.
Qed.

(** ** The handler *)

(** Once past the guard, arming stores the new job under the next
    handle, whatever the registry held. *)
Lemma arm_stores (n : note) (now t : Z) (s : scheduler) :
  reminder_at (cols n) = Some (Iso t) -> now <= t ->
  scheduledJobs (scheduleNoteJob (Some n) now s) !! note_id n
    = Some (Some (next_job s)) /\
  pending (scheduleNoteJob (Some n) now s) !! next_job s
    = Some (Job n t).
Proof.
  intros Hat Hle. unfold scheduleNoteJob, Moment.isBefore. rewrite Hat.
  assert ((t <? now) = false) as Hb by now apply Z.ltb_ge.
  rewrite Hb. unfold scheduleJob. rewrite Hb.
  assert (next_job (cancel_existing (note_id n) s) = next_job s) as Hk.
  { unfold cancel_existing.
    now destruct (scheduledJobs s !! note_id n) as [[h|]|]. }
  unfold jobs_set. cbn. rewrite Hk.
  split; apply lookup_insert_eq.
Qed.

Lemma digit_char_facts (k : Z) :
  0 <= k <= 9 ->
  Text.is_digit (Text.digit_char k) = true /\
  (Text.code (Text.digit_char k) =? 58)%N = false /\
  Z.of_N (Text.code (Text.digit_char k)) - 48 = k.
Proof.
  intros H.
  assert (k = 0 \/ k = 1 \/ k = 2 \/ k = 3 \/ k = 4 \/ k = 5 \/ k = 6 \/
          k = 7 \/ k = 8 \/ k = 9) as Hk by lia.
  repeat destruct Hk as [->|Hk]; try subst k; repeat split; reflexivity.
Qed.

(** Reading back what [format("HH:mm")] printed. *)
Lemma read_HHmm (t : Z) :
  Text.Number_opt <$> Text.split_colon (format_HHmm t)
  = [Some (Moment.hourOf t); Some (Moment.minuteOf t)].
Proof.
  assert (Hh : 0 <= Moment.hourOf t < 24)
    by (unfold_moment; Z.div_mod_to_equations; lia).
  assert (Hm : 0 <= Moment.minuteOf t < 60)
    by (unfold_moment; Z.div_mod_to_equations; lia).
  unfold format_HHmm, Text.pad2.
  set (h := Moment.hourOf t) in *. set (m := Moment.minuteOf t) in *.
  destruct (digit_char_facts (h / 10)) as (A1 & A2 & A3);
    [Z.div_mod_to_equations; lia|].
  destruct (digit_char_facts (h mod 10)) as (B1 & B2 & B3);
    [Z.div_mod_to_equations; lia|].
  destruct (digit_char_facts (m / 10)) as (C1 & C2 & C3);
    [Z.div_mod_to_equations; lia|].
  destruct (digit_char_facts (m mod 10)) as (D1 & D2 & D3);
    [Z.div_mod_to_equations; lia|].
  match goal with
  | |- context [String.append (String ?a (String ?b EmptyString))
                  (String.append ?c ?x)] =>
      change (String.append (String a (String b EmptyString))
                (String.append c x))
        with (String a (String b (String ":" x)))
  end.
  cbn [Text.split_colon].
  rewrite A2, B2, C2, D2.
  change ((Text.code ":" =? 58)%N) with true. cbn [fmap list_fmap].
  unfold Text.Number_opt, Text.Number.
  cbn [Text.all_digits Text.digits_value].
  rewrite A1, B1, C1, D1. cbn [andb].
  rewrite A3, B3, C3, D3.
  repeat f_equal; Z.div_mod_to_equations; lia.
Qed.

Lemma onMessage_in_session chrono chatId msg now w st o :
  Text.is_empty msg = false ->
  userState (sess w) !! chatId = Some st ->
  in_session chrono chatId (Text.trim msg) now st w = Some o ->
  onMessage chrono chatId msg now w = o.
Proof.
  intros He Hs Hi. unfold onMessage. now rewrite He, Hs, Hi.
Qed.

Lemma tomorrow_at (now hh mm : Z) :
  Moment.at_hm (Moment.add_day 1 now) hh mm =
  Moment.startOfDay now + Moment.DAY + hh * Moment.HOUR
  + mm * Moment.MINUTE.
Proof. now rewrite at_hm_spec, startOfDay_add_day. Qed.

Lemma tomorrow_after_now (now hh mm : Z) :
  0 <= hh -> 0 <= mm ->
  now <= Moment.startOfDay now + Moment.DAY + hh * Moment.HOUR
         + mm * Moment.MINUTE.
Proof. intros. unfold_moment. Z.div_mod_to_equations. lia. Qed.

Lemma confirm_yes chrono chatId msg now w st note_text candidate :
  Text.is_empty msg = false ->
  userState (sess w) !! chatId = Some st ->
  st_mode st = confirm_next_for_reminder ->
  affirmative (Text.trim msg) = true ->
  st_text st = Some note_text ->
  st_candidate st = Some (format_HHmm candidate) ->
  let dt := Moment.startOfDay now + Moment.DAY
            + Moment.hourOf candidate * Moment.HOUR
            + Moment.minuteOf candidate * Moment.MINUTE in
  let i := 1 + Z.max (notes_seq (db w)) (max_rowid (notes (db w))) in
  let r := Row chatId note_text (Some (Iso dt)) 0 "pending" in
  exists w',
    onMessage chrono chatId msg now w = Done w' /\
    notes (db w) !! i = None /\
    notes (db w') = <[i := r]> (notes (db w)) /\
    scheduledJobs (sched w') !! i = Some (Some (next_job (sched w))) /\
    pending (sched w') !! next_job (sched w) = Some (Job (Note i r) dt) /\
    userState (sess w') !! chatId = None /\
    (Moment.day now = Moment.day candidate ->
     Moment.secondOf candidate = 0 -> Moment.msOf candidate = 0 ->
     dt = candidate + Moment.DAY).
Proof.
  intros He Hs Hm Ha Ht Hc dt i r.
  assert (Hh : 0 <= Moment.hourOf candidate)
    by (unfold_moment; Z.div_mod_to_equations; lia).
  assert (Hmi : 0 <= Moment.minuteOf candidate)
    by (unfold_moment; Z.div_mod_to_equations; lia).
  assert (Hget : getNoteByIdStmt i chatId
                   {| notes := <[i := r]> (notes (db w));
                      notes_seq := i |} = Some (Note i r)).
  { unfold getNoteByIdStmt. cbn. rewrite lookup_insert_eq. cbn.
    now rewrite Z.eqb_refl. }
  destruct (arm_stores (Note i r) now dt (sched w) eq_refl
              (tomorrow_after_now now _ _ Hh Hmi)) as [Hreg Hpend].
  eexists. split.
  { apply onMessage_in_session with (st := st); [exact He|exact Hs|].
    unfold in_session. rewrite Hm. unfold handle_confirm_next.
    rewrite Ha, Hc, Ht, read_HHmm. rewrite tomorrow_at.
    unfold insert_note, insertNoteStmt. fold i. fold dt. fold r.
    unfold schedule_by_id. cbn [db on_db on_sched].
    rewrite Hget. reflexivity. }
  cbn. split; [apply insert_rowid_fresh|]. split; [reflexivity|].
  split; [exact Hreg|]. split; [exact Hpend|].
  split.
  { destruct (clearState_fields chatId (sess w)) as (_ & _ & -> & _).
    apply lookup_delete_eq. }
  intros Hday Hsec Hms. subst dt.
  rewrite <- (make_fields candidate) at 3.
  unfold Moment.startOfDay, Moment.make. rewrite Hday, Hsec, Hms. lia.
Qed.

(** C8, as amended. In [confirm_next_for_reminder] an affirmative reply
    inserts a new row and arms it for the day after the reply, at the
    hour and minute of the candidate; that is the candidate plus one day
    when the reply comes on the candidate's own day.  The session is
    cleared.  Any other reply only puts the session back to
    [create_reminder] step 2 with the captured text: the store and the
    scheduler are untouched. *)
Theorem C8_confirm_schedules_day_after_reply chrono chatId msg now w st :
  Text.is_empty msg = false ->
  userState (sess w) !! chatId = Some st ->
  st_mode st = confirm_next_for_reminder ->
  (forall note_text candidate,
     affirmative (Text.trim msg) = true ->
     st_text st = Some note_text ->
     st_candidate st = Some (format_HHmm candidate) ->
     let dt := Moment.startOfDay now + Moment.DAY
               + Moment.hourOf candidate * Moment.HOUR
               + Moment.minuteOf candidate * Moment.MINUTE in
     let i := 1 + Z.max (notes_seq (db w)) (max_rowid (notes (db w))) in
     let r := Row chatId note_text (Some (Iso dt)) 0 "pending" in
     exists w',
       onMessage chrono chatId msg now w = Done w' /\
       notes (db w) !! i = None /\
       notes (db w') = <[i := r]> (notes (db w)) /\
       scheduledJobs (sched w') !! i = Some (Some (next_job (sched w))) /\
       pending (sched w') !! next_job (sched w) = Some (Job (Note i r) dt) /\
       userState (sess w') !! chatId = None /\
       (Moment.day now = Moment.day candidate ->
        Moment.secondOf candidate = 0 -> Moment.msOf candidate = 0 ->
        dt = candidate + Moment.DAY)) /\
  (affirmative (Text.trim msg) = false ->
     exists w',
       onMessage chrono chatId msg now w = Done w' /\
       db w' = db w /\ sched w' = sched w /\
       userState (sess w') !! chatId =
         Some {| st_mode := create_reminder; st_step := Some 2;
                 st_id := None; st_text := st_text st;
                 st_candidate := None |} /\
       outbox w' = (outbox w ++ [(chatId, MsgSendNewTime)])%list).
Proof.
  intros He Hs Hm. split.
  - intros note_text candidate Ha Ht Hc.
    now apply (confirm_yes chrono chatId msg now w st).
  - intros Ha. eexists. split.
    { apply onMessage_in_session with (st := st); [exact He|exact Hs|].
      unfold in_session. rewrite Hm. unfold handle_confirm_next.
      rewrite Ha. reflexivity. }
    cbn [db sched sess outbox on_sess sendMessage].
    split; [reflexivity|]. split; [reflexivity|].
    split; [|reflexivity].
    match goal with
    | |- userState (setState ?c ?o ?n ?ss) !! _ = _ =>
        destruct (setState_timers c o n ss) as (_ & _ & -> & _)
    end.
    apply lookup_insert_eq.
Qed.

Lemma C8_confirm_schedules_day_after_reply_witness :
  exists w',
    onMessage no_chrono 7 "ya" (clock 20000 10 1) asked_at_ten = Done w' /\
    notes (db w') !! 1 =
      Some (Row 7 "beli tinta" (Some (Iso (clock 20001 9 0))) 0 "pending").
Proof.
  destruct (C8_confirm_schedules_day_after_reply no_chrono 7 "ya"
              (clock 20000 10 1) asked_at_ten
              {| st_mode := confirm_next_for_reminder; st_step := None;
                 st_id := None; st_text := Some "beli tinta";
                 st_candidate := Some "09:00" |}
              eq_refl eq_refl eq_refl) as [Hyes _].
  destruct (Hyes "beli tinta" (clock 20000 9 0) eq_refl eq_refl eq_refl)
    as (w' & Hrun & _ & Hnotes & _).
  exists w'. split; [exact Hrun|].
  rewrite Hnotes. apply lookup_insert_eq.
Defined.

(** C8 as stated fails across midnight: the candidate was day 20000 at
    09:00, the session is still live when the reply comes on day 20001,
    and the reminder is stored for day 20002 at 09:00, two days after
    the candidate. *)
Lemma C8_counterexample :
  let w3 := run no_chrono ask_before_midnight
              (boot empty_store (clock 20000 7 0)) in
  let w4 := run no_chrono confirm_after_midnight
              (boot empty_store (clock 20000 7 0)) in
  parseIndoPrefer no_chrono "jam 9 pagi hari ini"
    (clock 20000 23 59 + 30000) = PTimePassedToday (clock 20000 9 0) /\
  userState (sess w3) !! 7 =
    Some {| st_mode := confirm_next_for_reminder; st_step := None;
            st_id := None; st_text := Some "beli tinta";
            st_candidate := Some "09:00" |} /\
  timers (sess w3) !! 2%nat = Some (7, clock 20001 0 1 + 30000) /\
  clock 20001 0 0 + 30000 < clock 20001 0 1 + 30000 /\
  notes (db w4) !! 1 =
    Some (Row 7 "beli tinta" (Some (Iso (clock 20002 9 0))) 0 "pending") /\
  pending (sched w4) !! 0%nat =
    Some (Job (Note 1 (Row 7 "beli tinta" (Some (Iso (clock 20002 9 0)))
                          0 "pending")) (clock 20002 9 0)) /\
  clock 20002 9 0 <> clock 20000 9 0 + Moment.DAY.
Proof.
  cbv zeta. repeat split; try (vm_compute; reflexivity).
  vm_compute. discriminate.
Qed.

(** C9, as amended. [edit_note_time] and step 2 of [create_reminder]
    call the same resolver on the typed text, but treat its signal
    [time_passed_today] differently: [edit_note_time] only sends its own
    notice and leaves the store, the scheduler and the session (still
    [edit_note_time]) as they were, while step 2 of [create_reminder]
    moves the session to [confirm_next_for_reminder] with the captured
    text and the candidate's hour and minute. *)
Theorem C9_edit_time_only_reprompts chrono chatId msg now w st candidate :
  Text.is_empty msg = false ->
  userState (sess w) !! chatId = Some st ->
  parseIndoPrefer chrono (Text.trim msg) now = PTimePassedToday candidate ->
  (st_mode st = edit_note_time ->
     exists w',
       onMessage chrono chatId msg now w = Done w' /\
       db w' = db w /\ sched w' = sched w /\ sess w' = sess w /\
       userState (sess w') !! chatId = Some st /\
       outbox w' = (outbox w ++ [(chatId, MsgTodayPassedEdit)])%list) /\
  (st_mode st = create_reminder -> st_step st = Some 2 ->
     exists w',
       onMessage chrono chatId msg now w = Done w' /\
       db w' = db w /\ sched w' = sched w /\
       userState (sess w') !! chatId =
         Some {| st_mode := confirm_next_for_reminder; st_step := None;
                 st_id := None; st_text := st_text st;
                 st_candidate := Some (format_HHmm candidate) |}).
Proof.
  intros He Hs Hp. split.
  - intros Hm. eexists. split.
    { apply onMessage_in_session with (st := st); [exact He|exact Hs|].
      unfold in_session. rewrite Hm. unfold handle_edit_note_time.
      rewrite Hp. reflexivity. }
    cbn [db sched sess outbox sendMessage]. repeat split. exact Hs.
  - intros Hm Hstep. eexists. split.
    { apply onMessage_in_session with (st := st); [exact He|exact Hs|].
      unfold in_session. rewrite Hm. unfold handle_create_reminder.
      rewrite Hstep, Hp. reflexivity. }
    cbn [db sched sess outbox on_sess sendMessage].
    split; [reflexivity|]. split; [reflexivity|].
    match goal with
    | |- userState (setState ?c ?o ?n ?ss) !! _ = _ =>
        destruct (setState_timers c o n ss) as (_ & _ & -> & _)
    end.
    apply lookup_insert_eq.
Qed.

Lemma C9_edit_time_only_reprompts_witness :
  exists w',
    onMessage no_chrono 7 "jam 9 pagi hari ini" (clock 20000 10 1)
      editing_time = Done w' /\
    sess w' = sess editing_time /\
    outbox w' = (outbox editing_time ++ [(7, MsgTodayPassedEdit)])%list.
Proof.
  destruct (C9_edit_time_only_reprompts no_chrono 7 "jam 9 pagi hari ini"
              (clock 20000 10 1) editing_time
              {| st_mode := edit_note_time; st_step := None;
                 st_id := Some 1; st_text := None; st_candidate := None |}
              (clock 20000 9 0) eq_refl eq_refl eq_refl) as [Hedit _].
  destruct (Hedit eq_refl) as (w' & Hrun & _ & _ & Hsess & _ & Hout).
  exists w'. split; [exact Hrun|]. split; [exact Hsess|exact Hout].
Defined.

(** C9 as stated fails: on the same phrase at the same time the resolver
    signals [time_passed_today] in both flows, step 2 of
    [create_reminder] enters [confirm_next_for_reminder], and
    [edit_note_time] stays in [edit_note_time] with no candidate. *)
Lemma C9_counterexample :
  let now := clock 20000 10 1 in
  let w := run no_chrono [ Message 7 "jam 9 pagi hari ini" now ]
             editing_time in
  let w' := run no_chrono ask_at_ten (boot empty_store (clock 20000 7 0)) in
  parseIndoPrefer no_chrono "jam 9 pagi hari ini" now
    = PTimePassedToday (clock 20000 9 0) /\
  st_mode <$> userState (sess editing_time) !! 7 = Some edit_note_time /\
  userState (sess w) !! 7 =
    Some {| st_mode := edit_note_time; st_step := None; st_id := Some 1;
            st_text := None; st_candidate := None |} /\
  st_mode <$> userState (sess w) !! 7 <> Some confirm_next_for_reminder /\
  st_mode <$> userState (sess w') !! 7 = Some confirm_next_for_reminder /\
  st_candidate <$> userState (sess w') !! 7 = Some (Some "09:00").
Proof.
  cbv zeta. repeat split; try (vm_compute; reflexivity).
  vm_compute. discriminate.
Qed.

Lemma lit_i_head a p c r x :
  Text.lit_i (String a p) (String c r) = Some x -> Text.lower c = a.
Proof.
  cbn. destruct (Ascii.eqb_spec a (Text.lower c)); [congruence|discriminate].
Qed.

Lemma asks_reminder_head text :
  asks_reminder text = true ->
  exists c r, text = String c r /\
    (Text.lower c = "i" \/ Text.lower c = "t" \/ Text.lower c = "r")%char.
Proof.
  unfold asks_reminder. destruct text as [|c r]; [discriminate|].
  intros H. exists c, r. split; [reflexivity|].
  cbn [Text.alt_i] in H.
  destruct (Text.lit_i "ingatkan" (String c r)) eqn:E1;
    [apply lit_i_head in E1; now left|].
  destruct (Text.lit_i "ingat" (String c r)) eqn:E2;
    [apply lit_i_head in E2; now left|].
  destruct (Text.lit_i "tolong ingatkan" (String c r)) eqn:E3;
    [apply lit_i_head in E3; right; now left|].
  destruct (Text.lit_i "remind" (String c r)) eqn:E4;
    [apply lit_i_head in E4; right; now right|discriminate].
Qed.

(** A request that starts with "ingat", "tolong ingatkan" or "remind" is
    not a label of the keyboard. *)
Lemma keyboard_natural chrono chatId text now w :
  asks_reminder text = true ->
  keyboard chrono chatId text now w
  = natural_request chrono chatId text now w.
Proof.
  intros H. unfold keyboard. rewrite H.
  destruct (asks_reminder_head text H) as (c & r & -> & Hc).
  cbn [Text.toLowerCase].
  destruct Hc as [-> | [-> | ->]]; reflexivity.
Qed.

(** C10. A natural request that names a passed time of today (and that
    no running wizard consumes) is stored at once as a new row with a
    null [reminder_at], nothing is armed, and the session becomes
    [confirm_next_for_reminder] with the id of that row.  In any later
    state with this session where the row still is, an affirmative reply
    inserts another row, under a new id, due the day after the reply,
    and changes no existing row: the first row stays with its null
    [reminder_at]. *)
Theorem C10_request_row_stays_null chrono chatId msg now w candidate :
  let text := Text.trim msg in
  let noteText := Text.trim (strip_request text) in
  let i1 := 1 + Z.max (notes_seq (db w)) (max_rowid (notes (db w))) in
  let r1 := Row chatId noteText None 0 "pending" in
  let st1 := {| st_mode := confirm_next_for_reminder; st_step := None;
                st_id := Some i1; st_text := Some noteText;
                st_candidate := Some (format_HHmm candidate) |} in
  Text.is_empty msg = false ->
  match userState (sess w) !! chatId with
  | Some st => in_session chrono chatId text now st w = None
  | None => True
  end ->
  asks_reminder text = true ->
  Text.is_empty noteText = false ->
  parseIndoPrefer chrono text now = PTimePassedToday candidate ->
  exists w1,
    onMessage chrono chatId msg now w = Done w1 /\
    notes (db w) !! i1 = None /\
    notes (db w1) = <[i1 := r1]> (notes (db w)) /\
    sched w1 = sched w /\
    userState (sess w1) !! chatId = Some st1 /\
    forall w1' reply now2,
      userState (sess w1') !! chatId = Some st1 ->
      notes (db w1') !! i1 = Some r1 ->
      Text.is_empty reply = false ->
      affirmative (Text.trim reply) = true ->
      let dt := Moment.startOfDay now2 + Moment.DAY
                + Moment.hourOf candidate * Moment.HOUR
                + Moment.minuteOf candidate * Moment.MINUTE in
      let i2 := 1 + Z.max (notes_seq (db w1'))
                          (max_rowid (notes (db w1'))) in
      exists w2,
        onMessage chrono chatId reply now2 w1' = Done w2 /\
        i2 <> i1 /\
        notes (db w2) !! i2 =
          Some (Row chatId noteText (Some (Iso dt)) 0 "pending") /\
        notes (db w2) !! i1 = Some r1 /\
        (forall k, k <> i2 -> notes (db w2) !! k = notes (db w1') !! k).
Proof.
  intros text noteText i1 r1 st1 He Hfall Hask Hne Hp.
  eexists. split.
  { unfold onMessage. rewrite He. fold text.
    assert (Hk : keyboard chrono chatId text now w
                 = natural_request chrono chatId text now w)
      by now apply keyboard_natural.
    destruct (userState (sess w) !! chatId) as [st|];
      [rewrite Hfall|]; rewrite Hk; unfold natural_request;
      fold noteText; rewrite Hne, Hp; unfold insert_note, insertNoteStmt;
      fold i1; fold r1; reflexivity. }
  cbn [db sched sess on_db on_sess sendMessage notes].
  split; [apply insert_rowid_fresh|]. split; [reflexivity|].
  split; [reflexivity|].
  split.
  { match goal with
    | |- userState (setState ?c ?o ?n ?ss) !! _ = _ =>
        destruct (setState_timers c o n ss) as (_ & _ & -> & _)
    end.
    apply lookup_insert_eq. }
  intros w1' reply now2 Hs1 Hrow Her Haff.
  destruct (confirm_yes chrono chatId reply now2 w1' st1 noteText candidate
              Her Hs1 eq_refl Haff eq_refl eq_refl)
    as (w2 & Hrun & Hfresh & Hnotes & _).
  set (i2 := 1 + Z.max (notes_seq (db w1')) (max_rowid (notes (db w1'))))
    in *.
  assert (Hneq : i2 <> i1) by (intros Heq; rewrite Heq in Hfresh; congruence).
  exists w2. split; [exact Hrun|]. split; [exact Hneq|].
  rewrite Hnotes.
  split; [apply lookup_insert_eq|].
  split; [now rewrite lookup_insert_ne|].
  intros k Hk. now rewrite lookup_insert_ne.
Qed.

Lemma C10_request_row_stays_null_witness :
  onMessage no_chrono 7 "ingatkan saya beli tinta jam 9 pagi hari ini"
    (clock 20000 10 0) (boot empty_store (clock 20000 7 0))
  = Done requested /\
  notes (db requested) !! 1 =
    Some (Row 7 "beli tinta jam 9 pagi hari ini" None 0 "pending") /\
  exists w2,
    onMessage no_chrono 7 "Ya" (clock 20000 10 1) requested = Done w2 /\
    notes (db w2) !! 2 =
      Some (Row 7 "beli tinta jam 9 pagi hari ini"
              (Some (Iso (clock 20001 9 0))) 0 "pending") /\
    notes (db w2) !! 1 =
      Some (Row 7 "beli tinta jam 9 pagi hari ini" None 0 "pending").
Proof.
  assert (H1 : Text.is_empty "ingatkan saya beli tinta jam 9 pagi hari ini"
               = false) by reflexivity.
  assert (H2 : asks_reminder
                 (Text.trim "ingatkan saya beli tinta jam 9 pagi hari ini")
               = true) by (vm_compute; reflexivity).
  assert (H3 : Text.is_empty
                 (Text.trim (strip_request (Text.trim
                    "ingatkan saya beli tinta jam 9 pagi hari ini")))
               = false) by (vm_compute; reflexivity).
  assert (H4 : parseIndoPrefer no_chrono
                 (Text.trim "ingatkan saya beli tinta jam 9 pagi hari ini")
                 (clock 20000 10 0)
               = PTimePassedToday (clock 20000 9 0))
    by (vm_compute; reflexivity).
  destruct (C10_request_row_stays_null no_chrono 7
              "ingatkan saya beli tinta jam 9 pagi hari ini"
              (clock 20000 10 0) (boot empty_store (clock 20000 7 0))
              (clock 20000 9 0) H1 I H2 H3 H4)
    as (w1 & Hrun & _ & _ & _ & _ & Hnext).
  assert (Hc : onMessage no_chrono 7
                 "ingatkan saya beli tinta jam 9 pagi hari ini"
                 (clock 20000 10 0) (boot empty_store (clock 20000 7 0))
               = Done requested) by (vm_compute; reflexivity).
  clear Hrun w1.
  split; [exact Hc|]. split; [vm_compute; reflexivity|].
  destruct (Hnext requested "Ya" (clock 20000 10 1))
    as (w2 & Hrun2 & _ & Hnew & Hold & _);
    [vm_compute; reflexivity | vm_compute; reflexivity
     | reflexivity | reflexivity |].
  exists w2. split; [exact Hrun2|].
  split.
  - match type of Hnew with
    | notes _ !! ?k = Some (Row _ ?t (Some (Iso ?dt)) _ _) =>
        replace k with 2 in Hnew by (vm_compute; reflexivity);
        replace t with "beli tinta jam 9 pagi hari ini" in Hnew
          by (vm_compute; reflexivity);
        replace dt with (clock 20001 9 0) in Hnew
          by (vm_compute; reflexivity)
    end.
    exact Hnew.
  - match type of Hold with
    | notes _ !! ?k = Some (Row _ ?t _ _ _) =>
        replace k with 1 in Hold by (vm_compute; reflexivity);
        replace t with "beli tinta jam 9 pagi hari ini" in Hold
          by (vm_compute; reflexivity)
    end.
    exact Hold.
Defined.

(** * Further properties of the code *)

(** ** Scheduler and store *)

Lemma arm_next (n : note) (now t : Z) (s : scheduler) :
  reminder_at (cols n) = Some (Iso t) -> now <= t ->
  next_job (scheduleNoteJob (Some n) now s) = S (next_job s).
Proof.
  intros Hat Hle. unfold scheduleNoteJob, Moment.isBefore. rewrite Hat.
  assert ((t <? now) = false) as Hb by now apply Z.ltb_ge.
  rewrite Hb. unfold scheduleJob. rewrite Hb. unfold jobs_set. cbn.
  unfold cancel_existing.
  now destruct (scheduledJobs s !! note_id n) as [[h|]|].
Qed.

(** X1.  What a call of [scheduleNoteJob] comes to.  Without a note,
    without [reminder_at], with an invalid one or with one before [now]
    the scheduler stays as it is.  Otherwise the entry of the reminder
    is dropped and the timer it named is cancelled, the other entries
    stay, and the registry gets what the library returns: a new pending
    job when the library's clock [lib] has not passed the time, and
    [null], with no timer added, when it has.  So the scheduler is
    unchanged exactly when the guard skips the call, or when the library
    refuses the date and the registry already held [null]. *)
Theorem scheduleNoteJob_outcomes (n : option note) (now lib : Z)
    (s : scheduler) :
  let s' := scheduleNoteJob_clocks n now lib s in
  match n with
  | None => s' = s
  | Some n' =>
      match reminder_at (cols n') with
      | Some (Iso t) =>
          (t < now -> s' = s) /\
          (now <= t ->
             (forall i, i <> note_id n' ->
                scheduledJobs s' !! i = scheduledJobs s !! i) /\
             (forall h, scheduledJobs s !! note_id n' = Some (Some h) ->
                (h < next_job s)%nat -> pending s' !! h = None) /\
             (lib <= t ->
                scheduledJobs s' !! note_id n' = Some (Some (next_job s)) /\
                pending s' !! next_job s = Some (Job n' t) /\
                next_job s' = S (next_job s)) /\
             (t < lib ->
                scheduledJobs s' !! note_id n' = Some None /\
                next_job s' = next_job s /\
                forall h j, pending s' !! h = Some j ->
                            pending s !! h = Some j)) /\
          (s' = s <->
           t < now \/
           (t < lib /\ scheduledJobs s !! note_id n' = Some None))
      | _ => s' = s
      end
  end.
Proof.
  intros s'. subst s'. destruct n as [n|]; [|reflexivity].
  destruct (reminder_at (cols n)) as [[t|]|] eqn:Hat;
    try (unfold scheduleNoteJob_clocks; now rewrite Hat).
  split; [intros Hlt; now apply skip_past_clocks with (t := t)|].
  split; [intros Hle; exact (arm_outcomes n now lib t s Hat Hle)|].
  split.
  - intros H. destruct (Z.ltb_spec t now) as [Hlt|Hle]; [now left|right].
    destruct (arm_outcomes n now lib t s Hat Hle) as (_ & _ & Hjob & Hnull).
    destruct (Z.ltb_spec t lib) as [Hl|Hl].
    + split; [exact Hl|]. destruct (Hnull Hl) as (Hr & _).
      now rewrite H in Hr.
    + destruct (Hjob Hl) as (_ & _ & Hn). rewrite H in Hn. lia.
  - intros [Hlt|[Hl Hreg]]; [now apply skip_past_clocks with (t := t)|].
    destruct (Z.ltb_spec t now) as [Hlt|Hle];
      [now apply skip_past_clocks with (t := t)|].
    unfold scheduleNoteJob_clocks, Moment.isBefore. rewrite Hat.
    assert ((t <? now) = false) as Hb by now apply Z.ltb_ge.
    assert ((t <? lib) = true) as Hb' by now apply Z.ltb_lt.
    rewrite Hb. cbv zeta. unfold scheduleJob. rewrite Hb'.
    unfold cancel_existing. rewrite Hreg.
    unfold jobs_set, jobs_delete. cbn. destruct s as [reg pen run nxt].
    cbn in *. f_equal.
    apply map_eq. intros k. destruct (decide (k = note_id n)) as [->|Hk].
    + now rewrite lookup_insert_eq.
    + rewrite lookup_insert_ne by congruence.
      now rewrite lookup_delete_ne by congruence.
Qed.

Lemma scheduleNoteJob_outcomes_witness :
  let s0 := scheduleNoteJob_clocks (Some (sample_note 1 5000)) 0 0 no_jobs in
  let s' := scheduleNoteJob_clocks (Some (sample_note 1 1000)) 1000 1001 s0 in
  scheduledJobs s' !! 1 = Some None /\
  next_job s' = next_job s0 /\
  forall h j, pending s' !! h = Some j -> pending s0 !! h = Some j.
Proof.
  cbv zeta.
  pose proof (scheduleNoteJob_outcomes (Some (sample_note 1 1000)) 1000 1001
                (scheduleNoteJob_clocks (Some (sample_note 1 5000)) 0 0
                   no_jobs)) as H.
  cbv zeta in H.
  change (reminder_at (cols (sample_note 1 1000))) with (Some (Iso 1000)) in H.
  cbv iota beta in H.
  destruct H as (_ & H & _).
  assert (Hle : 1000 <= 1000) by lia.
  assert (Hlt : 1000 < 1001) by lia.
  exact (proj2 (proj2 (proj2 (H Hle))) Hlt).
Defined.

Lemma cancel_existing_other (i i' : Z) (h : nat) (s : scheduler) :
  tracked s -> i' <> i ->
  (armed (cancel_existing i s) i' h <-> armed s i' h).
Proof.
  intros [T1 T2] Hne. unfold armed, cancel_existing.
  destruct (scheduledJobs s !! i) as [[h0|]|] eqn:E; cbn; try tauto.
  split; intros (j & Hp & Hi); exists j; (split; [|exact Hi]).
  - now apply lookup_delete_Some in Hp as [_ Hp].
  - rewrite lookup_delete_ne; [exact Hp|].
    intros <-. destruct (T2 _ _ E) as [_ Hj].
    apply Hne. rewrite <- Hi. now apply Hj.
Qed.

(** X2.  In a state where the registry follows the timers, arming a reminder
    whose time has not passed leaves it with exactly one armed timer,
    the new job, and leaves the timers of every other reminder as they
    were. *)
Theorem arm_leaves_one_timer (n : note) (now t : Z) (s : scheduler) :
  tracked s ->
  reminder_at (cols n) = Some (Iso t) ->
  now <= t ->
  let s' := scheduleNoteJob (Some n) now s in
  tracked s' /\
  pending s' !! next_job s = Some (Job n t) /\
  (forall h, armed s' (note_id n) h <-> h = next_job s) /\
  (forall i h, i <> note_id n -> (armed s' i h <-> armed s i h)).
Proof.
  intros T Hat Hle s'.
  destruct (arm_replaces n now t s T Hat Hle)
    as (T' & _ & Hp & Hone & Hold & Hkeep & _).
  fold s' in T', Hp, Hone, Hold, Hkeep.
  split; [exact T'|]. split; [exact Hp|]. split.
  - intros h. split; [apply Hone|].
    intros ->. exists (Job n t). split; [exact Hp|reflexivity].
  - intros i h Hne. split; intros (j & Hj & Hi); exists j.
    + split; [|exact Hi]. apply (Hold h j Hj).
      intros ->. rewrite Hp in Hj. injection Hj as <-. now apply Hne.
    + split; [|exact Hi]. apply Hkeep; [exact Hj|congruence].
Qed.

Lemma arm_leaves_one_timer_witness :
  let s := scheduleNoteJob (Some (sample_note 1 5000)) 0 no_jobs in
  let s' := scheduleNoteJob (Some (sample_note 1 7000)) 10 s in
  pending s' !! 1%nat = Some (Job (sample_note 1 7000) 7000) /\
  (forall h, armed s' 1 h <-> h = 1%nat).
Proof.
  cbv zeta.
  destruct (arm_leaves_one_timer (sample_note 1 7000) 10 7000
              (scheduleNoteJob (Some (sample_note 1 5000)) 0 no_jobs))
    as (_ & Hp & Hone & _).
  - apply arm_keeps_tracked, tracked_no_jobs.
  - reflexivity.
  - lia.
  - split; [exact Hp|exact Hone].
Defined.

(** X3.  From start-up, through any calls of [scheduleNoteJob], note
    deletions and fires in which the callback ends before the next
    handler runs, no reminder has two armed timers. *)
Theorem one_timer_per_reminder_when_callbacks_finish
    (es : list quiet_event) (d : database) (now0 : Z) (i : Z)
    (h1 h2 : nat) :
  let s := sched (sched_run (concat (unquiet <$> es)) (boot d now0)) in
  armed s i h1 -> armed s i h2 -> h1 = h2.
Proof.
  intros s. apply tracked_unique. subst s.
  assert (H : tracked (sched (boot d now0)) /\
              running (sched (boot d now0)) = ∅).
  { split.
    - unfold boot, recover. cbn.
      generalize (existing d). intros l.
      assert (G : forall s0, tracked s0 ->
                tracked (foldl (fun s n => scheduleNoteJob (Some n) now0 s)
                           s0 l)).
      { induction l as [|n l IH]; intros s0 T; [exact T|].
        cbn. apply IH. exact (arm_keeps_tracked (Some n) now0 s0 T). }
      apply G, tracked_no_jobs.
    - unfold boot, recover. cbn.
      generalize (existing d). intros l.
      assert (G : forall s0, running s0 = ∅ ->
                running (foldl (fun s n => scheduleNoteJob (Some n) now0 s)
                           s0 l) = ∅).
      { induction l as [|n l IH]; intros s0 R; [exact R|].
        cbn. apply IH. unfold scheduleNoteJob.
        destruct (reminder_at (cols n)) as [[t|]|]; try exact R.
        destruct (Moment.isBefore t now0); [exact R|].
        unfold scheduleJob. destruct (t <? now0); cbn;
          unfold cancel_existing;
          destruct (scheduledJobs s0 !! note_id n) as [[h0|]|]; exact R. }
      now apply G. }
  revert H. generalize (boot d now0).
  induction es as [|e es IH]; intros w [T R]; [exact T|].
  cbn. unfold sched_run. rewrite foldl_app.
  apply IH. now apply quiet_step_tracked.
Qed.

Lemma one_timer_per_reminder_when_callbacks_finish_witness :
  let es := [QFire 0 (clock 20000 8 0) true true;
             QArm (Some (sample_note 1 (clock 20000 9 0)))
                  (clock 20000 8 30);
             QArm (Some (sample_note 1 (clock 20000 10 0)))
                  (clock 20000 8 40)] in
  let s := sched (sched_run (concat (unquiet <$> es))
                    (boot one_note (clock 20000 7 0))) in
  armed s 1 2%nat /\ forall h, armed s 1 h -> h = 2%nat.
Proof.
  cbv zeta.
  match goal with
  | |- ?A /\ _ =>
      assert (Ha : A)
        by (exists (Job (sample_note 1 (clock 20000 10 0))
                      (clock 20000 10 0));
            split; vm_compute; reflexivity)
  end.
  split; [exact Ha|].
  intros h Hh.
  exact (one_timer_per_reminder_when_callbacks_finish
           [QFire 0 (clock 20000 8 0) true true;
            QArm (Some (sample_note 1 (clock 20000 9 0))) (clock 20000 8 30);
            QArm (Some (sample_note 1 (clock 20000 10 0)))
                 (clock 20000 8 40)]
           one_note (clock 20000 7 0) 1 h 2%nat Hh Ha).
Defined.

(** X4.  [/delete] of a note: when the id is not a note of the chat, nothing
    changes; otherwise the row is gone and the registry has no entry for
    it, and, where the registry follows the timers, the reminder has no
    armed timer left while every other reminder keeps its own. *)
Theorem delete_note_cancels_its_timer (i chatId : Z) (w : world) :
  (getNoteByIdStmt i chatId (db w) = None -> delete_note i chatId w = w) /\
  (forall n, getNoteByIdStmt i chatId (db w) = Some n ->
     notes (db (delete_note i chatId w)) = delete i (notes (db w)) /\
     scheduledJobs (sched (delete_note i chatId w)) !! i = None /\
     sess (delete_note i chatId w) = sess w /\
     (tracked (sched w) ->
        tracked (sched (delete_note i chatId w)) /\
        (forall h, ~ armed (sched (delete_note i chatId w)) i h) /\
        (forall i' h, i' <> i ->
           (armed (sched (delete_note i chatId w)) i' h
            <-> armed (sched w) i' h)))).
Proof.
  split.
  - intros H. unfold delete_note. now rewrite H.
  - intros n H. unfold delete_note. rewrite H. cbn.
    split; [unfold deleteNoteByIdStmt; now rewrite H|].
    split.
    { unfold cancel_existing.
      destruct (scheduledJobs (sched w) !! i) as [[h|]|] eqn:E; cbn;
        try apply lookup_delete_eq. exact E. }
    split; [reflexivity|].
    intros T. destruct (cancel_existing_tracked i (sched w) T)
      as (T' & _ & Hna & _).
    split; [exact T'|]. split; [exact Hna|].
    intros i' h Hne. now apply cancel_existing_other.
Qed.

Lemma delete_note_cancels_its_timer_witness :
  let w := boot one_note (clock 20000 7 0) in
  notes (db (delete_note 1 7 w)) = delete 1 (notes (db w)) /\
  (forall h, ~ armed (sched (delete_note 1 7 w)) 1 h) /\
  delete_note 1 8 w = w.
Proof.
  cbv zeta.
  destruct (delete_note_cancels_its_timer 1 7
              (boot one_note (clock 20000 7 0))) as [_ Hsome].
  destruct (Hsome (sample_note 1 (clock 20000 8 0)) eq_refl)
    as (Hn & _ & _ & Ht).
  destruct Ht as (_ & Hna & _);
    [apply arm_keeps_tracked, tracked_no_jobs|].
  split; [exact Hn|]. split; [exact Hna|].
  apply (proj1 (delete_note_cancels_its_timer 1 8
                  (boot one_note (clock 20000 7 0)))).
  reflexivity.
Defined.

Lemma shutdown_pending (l : list (option nat)) (s : scheduler) (h : nat)
    (j : job) :
  pending (foldr (fun e s => match e with
                             | Some h => cancel h s
                             | None => s
                             end) s l) !! h = Some j ->
  pending s !! h = Some j /\ Some h ∉ l.
Proof.
  induction l as [|e l IH]; cbn; intros H.
  - split; [exact H|apply not_elem_of_nil].
  - destruct e as [h0|].
    + cbn in H. apply lookup_delete_Some in H as [Hne H].
      destruct (IH H) as [Hp Hn]. split; [exact Hp|].
      intros Hin. apply elem_of_cons in Hin as [Heq|Hin]; [congruence|tauto].
    + destruct (IH H) as [Hp Hn]. split; [exact Hp|].
      intros Hin. apply elem_of_cons in Hin as [Heq|Hin];
        [discriminate|tauto].
Qed.

(** X5.  On [SIGINT] every job the registry holds is cancelled: where the
    registry follows the timers, nothing stays armed; a timer the
    registry has lost stays pending. *)
Theorem shutdown_cancels_registered_jobs (s : scheduler) :
  (tracked s -> pending (shutdown s) = ∅) /\
  (forall h j, pending s !! h = Some j ->
     (forall i, scheduledJobs s !! i <> Some (Some h)) ->
     pending (shutdown s) !! h = Some j).
Proof.
  split.
  - intros [T1 _]. apply map_empty. intros h.
    destruct (pending (shutdown s) !! h) as [j|] eqn:E; [|reflexivity].
    exfalso. apply shutdown_pending in E as [Hp Hn].
    destruct (T1 _ _ Hp) as [_ Hr]. apply Hn.
    apply list_elem_of_fmap. exists (note_id (job_note j), Some h).
    split; [reflexivity|]. now apply elem_of_map_to_list.
  - intros h j Hp Hno. unfold shutdown.
    assert (Hn : Some h ∉ (snd <$> map_to_list (scheduledJobs s))).
    { intros Hin. apply list_elem_of_fmap in Hin as ([i e] & He & Hin).
      cbn in He. subst e. apply elem_of_map_to_list in Hin.
      now apply (Hno i). }
    revert Hn. generalize (snd <$> map_to_list (scheduledJobs s)).
    induction l as [|e l IH]; intros Hn; [exact Hp|].
    cbn. apply not_elem_of_cons in Hn as [Hne Hn].
    destruct e as [h0|]; [|now apply IH].
    cbn. rewrite lookup_delete_ne by congruence. now apply IH.
Qed.

Lemma shutdown_cancels_registered_jobs_witness :
  pending (shutdown (recover two_notes 1000)) = ∅ /\
  pending (shutdown (sched (run no_chrono late_delete_run
                              (boot one_note (clock 20000 7 0))))) !! 1%nat
  = Some (Job (Note 1 (Row 7 "beli tinta" (Some (Iso (clock 20000 9 0)))
                          0 "pending")) (clock 20000 9 0)).
Proof.
  split.
  - apply (proj1 (shutdown_cancels_registered_jobs (recover two_notes 1000))).
    unfold recover.
    generalize (existing two_notes). intros l.
    assert (G : forall s0, tracked s0 ->
              tracked (foldl (fun s n => scheduleNoteJob (Some n) 1000 s)
                         s0 l)).
    { induction l as [|n l IH]; intros s0 T; [exact T|].
      cbn. apply IH. exact (arm_keeps_tracked (Some n) 1000 s0 T). }
    apply G, tracked_no_jobs.
  - apply (proj2 (shutdown_cancels_registered_jobs _)).
    + vm_compute; reflexivity.
    + intros i H.
      assert (E : scheduledJobs (sched (run no_chrono late_delete_run
                    (boot one_note (clock 20000 7 0))))
                  = {[ 1 := Some 2%nat ]}) by (vm_compute; reflexivity).
      rewrite E in H. apply lookup_singleton_Some in H as [_ H].
      discriminate H.
Defined.

Lemma update_where_fields (i chatId : Z) (f : row -> row) (d : database)
    (k : Z) :
  notes (update_where i chatId f d) !! k =
    if decide (k = i)
    then (fun r => if chat_id r =? chatId then f r else r) <$> notes d !! k
    else notes d !! k.
Proof.
  unfold update_where. cbn. destruct (decide (k = i)) as [->|Hne].
  - apply lookup_alter_eq.
  - now apply lookup_alter_ne.
Qed.

(** X6.  [/done]: a reminder of another chat or a missing id changes nothing;
    a pending reminder of the chat gets [status = "done"], all its other
    columns and all other rows as before; asking again answers "already
    done" and changes nothing.  In no case does [/done] touch the
    scheduler or the sessions: a reminder marked done keeps its armed
    timer. *)
Theorem done_marks_without_disarming (i chatId : Z) (w : world) :
  sched (fst (cmd_done i chatId w)) = sched w /\
  sess (fst (cmd_done i chatId w)) = sess w /\
  (getNoteByIdStmt i chatId (db w) = None ->
     cmd_done i chatId w = (w, DoneNotFound)) /\
  (forall r, notes (db w) !! i = Some r -> chat_id r = chatId ->
     status r <> "done" ->
     snd (cmd_done i chatId w) = DoneMarked /\
     notes (db (fst (cmd_done i chatId w))) =
       <[i := {| chat_id := chat_id r; note_text := note_text r;
                 reminder_at := reminder_at r; reminded := reminded r;
                 status := "done" |}]> (notes (db w)) /\
     cmd_done i chatId (fst (cmd_done i chatId w)) =
       (fst (cmd_done i chatId w), DoneAlready)).
Proof.
  unfold cmd_done.
  split; [|split; [|split]].
  - destruct (getNoteByIdStmt i chatId (db w)) as [n|]; [|reflexivity].
    now destruct (String.eqb (status (cols n)) "done").
  - destruct (getNoteByIdStmt i chatId (db w)) as [n|]; [|reflexivity].
    now destruct (String.eqb (status (cols n)) "done").
  - now intros ->.
  - intros r Hr Hc Hs. unfold getNoteByIdStmt. rewrite Hr.
    apply Z.eqb_eq in Hc as Hcb. rewrite Hcb. cbn.
    apply String.eqb_neq in Hs. rewrite Hs. cbn.
    assert (Hn : notes (updateNoteStatusStmt "done" i chatId (db w)) =
              <[i := {| chat_id := chat_id r; note_text := note_text r;
                        reminder_at := reminder_at r;
                        reminded := reminded r; status := "done" |}]>
                (notes (db w))).
    { apply map_eq. intros k. unfold updateNoteStatusStmt.
      rewrite update_where_fields.
      destruct (decide (k = i)) as [->|Hne].
      - rewrite Hr, lookup_insert_eq. cbn. now rewrite Hcb.
      - now rewrite lookup_insert_ne. }
    split; [reflexivity|]. split; [exact Hn|].
    cbn [fst snd db on_db]. rewrite lookup_alter_eq, Hr. cbn.
    rewrite Hcb. cbn. now rewrite Hcb.
Qed.

Lemma done_marks_without_disarming_witness :
  let w := boot one_note (clock 20000 7 0) in
  snd (cmd_done 1 7 w) = DoneMarked /\
  pending (sched (fst (cmd_done 1 7 w))) !! 0%nat
    = Some (Job (sample_note 1 (clock 20000 8 0)) (clock 20000 8 0)) /\
  cmd_done 1 8 w = (w, DoneNotFound).
Proof.
  cbv zeta.
  destruct (done_marks_without_disarming 1 7
              (boot one_note (clock 20000 7 0)))
    as (Hs & _ & _ & Hmark).
  destruct (Hmark (cols (sample_note 1 (clock 20000 8 0)))
              eq_refl eq_refl) as (Hr & _); [discriminate|].
  split; [exact Hr|]. split; [rewrite Hs; reflexivity|].
  apply (done_marks_without_disarming 1 8). reflexivity.
Defined.

(** X7.  Inserting a reminder and reading it back: the new row is returned
    for its chat and for no other chat, its id is above every id the
    table holds or has ever given out, and every other lookup answers as
    before. *)
Theorem insert_then_get (chatId : Z) (text : string) (at_ : option stamp)
    (d : database) :
  let i := fst (insertNoteStmt chatId text at_ d) in
  let d' := snd (insertNoteStmt chatId text at_ d) in
  getNoteByIdStmt i chatId d' =
    Some (Note i {| chat_id := chatId; note_text := text;
                    reminder_at := at_; reminded := 0;
                    status := "pending" |}) /\
  (forall c, c <> chatId -> getNoteByIdStmt i c d' = None) /\
  notes_seq d < i /\
  (forall k r, notes d !! k = Some r -> k < i) /\
  (forall k c, k <> i -> getNoteByIdStmt k c d' = getNoteByIdStmt k c d).
Proof.
  intros i d'. subst i d'. unfold insertNoteStmt, getNoteByIdStmt. cbn.
  rewrite lookup_insert_eq. cbn. rewrite Z.eqb_refl.
  split; [reflexivity|]. split.
  { intros c Hc. apply Z.eqb_neq in Hc. rewrite Z.eqb_sym. now rewrite Hc. }
  split; [lia|]. split.
  { intros k r Hk. apply max_rowid_ge in Hk. lia. }
  intros k c Hne. now rewrite lookup_insert_ne.
Qed.

Lemma foreign_rows_stay (i chatId : Z) (d : database) :
  getNoteByIdStmt i chatId d = None ->
  (forall at_, updateNoteReminderStmt at_ i chatId d = d) /\
  (forall text, updateNoteTextStmt text i chatId d = d).
Proof.
  intros H.
  assert (G : forall f, update_where i chatId f d = d).
  { intros f. unfold update_where. destruct d as [m q]. cbn. f_equal.
    apply alter_id. intros r Hr. unfold getNoteByIdStmt in H. cbn in H.
    rewrite Hr in H. destruct (chat_id r =? chatId); [discriminate|].
    reflexivity. }
  split; intros; apply G.
Qed.

(** X8.  The statements that change or delete a reminder by [(id, chat_id)]
    do nothing when the chat has no reminder with that id. *)
Theorem foreign_note_is_untouched (i chatId : Z) (d : database)
    (text : string) (at_ : option stamp) (st : string) :
  getNoteByIdStmt i chatId d = None ->
  updateNoteTextStmt text i chatId d = d /\
  updateNoteReminderStmt at_ i chatId d = d /\
  updateNoteStatusStmt st i chatId d = d /\
  deleteNoteByIdStmt i chatId d = d.
Proof.
  intros H.
  assert (G : forall f, update_where i chatId f d = d).
  { intros f. unfold update_where. destruct d as [m q]. cbn. f_equal.
    apply alter_id. intros r Hr. unfold getNoteByIdStmt in H. cbn in H.
    rewrite Hr in H. destruct (chat_id r =? chatId); [discriminate|].
    reflexivity. }
  repeat split; try apply G.
  unfold deleteNoteByIdStmt. now rewrite H.
Qed.

Lemma foreign_note_is_untouched_witness :
  updateNoteReminderStmt (Some (Iso 5)) 1 8 one_note = one_note /\
  deleteNoteByIdStmt 1 8 one_note = one_note.
Proof.
  destruct (foreign_note_is_untouched 1 8 one_note "x" (Some (Iso 5)) "done"
              eq_refl) as (_ & Hu & _ & Hd).
  split; [exact Hu|exact Hd].
Defined.

(** ** Session expiry *)

(** X9.  After [setState], the timer the owner had before can no longer do
    anything when its time comes, and the new timer does nothing before
    its deadline. *)
Theorem stale_or_early_expiry_is_ignored (es : list session_event)
    (d : database) (now0 : Z) (chatId : Z) (stateObj : session) (now : Z) :
  let w := session_run es (boot d now0) in
  let w' := on_sess (setState chatId stateObj now) w in
  (forall h0 now', stateTimeouts (sess w) !! chatId = Some h0 ->
     expire h0 now' w' = w') /\
  (forall now', now' < now + 2 * 60 * 1000 ->
     expire (next_timer (sess w)) now' w' = w').
Proof.
  intros w w'.
  assert (Hok : sessions_ok (sess w))
    by (apply session_run_ok, sessions_ok_empty).
  destruct Hok as (T & F1 & F2).
  destruct (setState_timers chatId stateObj now (sess w)) as (Ht & _).
  split.
  - intros h0 now' Hh. unfold expire. subst w'. cbn [sess on_sess].
    rewrite Ht, Hh. destruct (F2 _ _ Hh) as [Hlt _].
    rewrite lookup_insert_ne by lia. now rewrite lookup_delete_eq.
  - intros now' Hlt. unfold expire. subst w'. cbn [sess on_sess].
    rewrite Ht, lookup_insert_eq.
    assert ((now + SESSION_TIMEOUT <=? now') = false) as ->
      by (apply Z.leb_gt; unfold SESSION_TIMEOUT; lia).
    reflexivity.
Qed.

(** X10.  When the timer of the last [setState] comes due, the owner loses
    session and timer, is told so and is shown the main menu, once: the
    store and the scheduler are untouched, and the same timer cannot
    fire again. *)
Theorem expiry_evicts_once (es : list session_event) (d : database)
    (now0 : Z) (chatId : Z) (stateObj : session) (now now' : Z) :
  let w := session_run es (boot d now0) in
  let w' := on_sess (setState chatId stateObj now) w in
  let w'' := expire (next_timer (sess w)) now' w' in
  now + 2 * 60 * 1000 <= now' ->
  userState (sess w'') !! chatId = None /\
  stateTimeouts (sess w'') !! chatId = None /\
  (forall h dl, ~ expiring (sess w'') chatId h dl) /\
  outbox w'' =
    (outbox w ++ [(chatId, MsgSessionExpired); (chatId, MsgMainMenu)])%list /\
  db w'' = db w /\ sched w'' = sched w /\
  (forall c, c <> chatId ->
     userState (sess w'') !! c = userState (sess w) !! c) /\
  (forall t, expire (next_timer (sess w)) t w'' = w'').
Proof.
  intros w w' w'' Hdue.
  assert (Hok : sessions_ok (sess w))
    by (apply session_run_ok, sessions_ok_empty).
  pose proof (setState_ok chatId stateObj now (sess w) Hok) as (T' & _ & _).
  destruct (setState_timers chatId stateObj now (sess w))
    as (Ht & Hr & Hu & _).
  assert (Hw'' : w'' = expiry_callback chatId
                         (on_sess (clearTimeout (next_timer (sess w))) w')).
  { subst w''. unfold expire. subst w'. cbn [sess on_sess].
    rewrite Ht, lookup_insert_eq.
    assert ((now + SESSION_TIMEOUT <=? now') = true) as ->
      by (apply Z.leb_le; unfold SESSION_TIMEOUT; lia).
    reflexivity. }
  rewrite Hw''. subst w'.
  unfold expiry_callback, showMainMenu, sendMessage, on_sess,
    expire_session, clearTimeout, expiring.
  cbn [sess db sched outbox userState stateTimeouts timers next_timer].
  split; [apply lookup_delete_eq|]. split; [apply lookup_delete_eq|].
  split.
  { intros h dl H.
    apply lookup_delete_Some in H as [Hne H].
    pose proof (T' h chatId dl H) as Hreg. rewrite Hr in Hreg.
    rewrite lookup_insert_eq in Hreg. congruence. }
  split; [now rewrite <- app_assoc|].
  split; [reflexivity|]. split; [reflexivity|]. split.
  { intros c Hc. rewrite lookup_delete_ne by congruence.
    rewrite Hu. now rewrite lookup_insert_ne by congruence. }
  intros t. unfold expire.
  cbn [sess db sched outbox userState stateTimeouts timers next_timer].
  now rewrite lookup_delete_eq.
Qed.

Lemma expiry_evicts_once_witness :
  let st := {| st_mode := create_reminder; st_step := Some 1;
               st_id := None; st_text := None; st_candidate := None |} in
  let w' := on_sess (setState 7 st 1000) (boot empty_store 0) in
  userState (sess (expire 0 121000 w')) !! 7 = None /\
  outbox (expire 0 121000 w') = [(7, MsgSessionExpired); (7, MsgMainMenu)].
Proof.
  cbv zeta.
  destruct (expiry_evicts_once [] empty_store 0 7
              {| st_mode := create_reminder; st_step := Some 1;
                 st_id := None; st_text := None; st_candidate := None |}
              1000 121000) as (H1 & _ & _ & H4 & _); [lia|].
  split; [exact H1|exact H4].
Defined.

(** ** The resolver *)

Lemma digit_value_range (c : ascii) :
  Text.is_digit c = true -> 0 <= Z.of_N (Text.code c) - 48 <= 9.
Proof.
  unfold Text.is_digit. intros H. apply andb_true_iff in H as [H1 H2].
  apply N.leb_le in H1, H2. lia.
Qed.

Lemma digits12_spec (s h r : string) :
  Text.digits12 s = Some (h, r) -> 0 <= Text.Number h <= 99.
Proof.
  unfold Text.digits12, Text.Number.
  destruct s as [|a [|b r']].
  - discriminate.
  - destruct (Text.is_digit a) eqn:A; [|discriminate].
    intros [= <- <-]. cbn. apply digit_value_range in A. lia.
  - destruct (Text.is_digit a) eqn:A; [|discriminate].
    apply digit_value_range in A.
    destruct (Text.is_digit b) eqn:B; intros [= <- <-]; cbn.
    + apply digit_value_range in B. lia.
    + lia.
Qed.

Lemma opt_minute_spec (s d r : string) :
  Text.opt_minute s = (Some d, r) -> 0 <= Text.Number d <= 99.
Proof.
  unfold Text.opt_minute, Text.Number.
  destruct s as [|p [|a [|b r']]]; try discriminate.
  destruct (((Text.code p =? 58)%N || (Text.code p =? 46)%N)
            && Text.is_digit a && Text.is_digit b) eqn:E; [|discriminate].
  intros [= <- <-]. apply andb_true_iff in E as [E B].
  apply andb_true_iff in E as [_ A].
  apply digit_value_range in A, B. cbn. lia.
Qed.

Lemma hour_re_groups (text : string) (g : Text.hour_groups) :
  Text.hour_re text = Some g ->
  0 <= Text.Number (Text.m2 g) <= 99 /\
  (forall d, Text.m4 g = Some d -> 0 <= Text.Number d <= 99).
Proof.
  induction text as [|c text IH]; cbn [Text.hour_re].
  - cbn. discriminate.
  - destruct (Text.hour_re_here (String c text)) as [g'|] eqn:E.
    + intros [= <-]. unfold Text.hour_re_here in E.
      destruct (Text.alt_i ["pukul"; "jam"] (String c text))
        as [[k r1]|]; [|discriminate].
      destruct (Text.digits12 (Text.skip_ws r1)) as [[h r2]|] eqn:D;
        [|discriminate].
      destruct (Text.opt_minute r2) as [mi r3] eqn:O.
      injection E as <-. cbn. split.
      * eapply digits12_spec. exact D.
      * intros d' ->. eapply opt_minute_spec. exact O.
    + exact IH.
Qed.

Lemma to24h_range (meridiem : string) (hour : Z) :
  0 <= hour <= 99 -> 0 <= to24h meridiem hour <= 99.
Proof.
  intros H. unfold to24h.
  destruct (negb (Text.is_empty meridiem)); [|lia].
  repeat match goal with
         | |- context [if ?b then _ else _] => destruct b eqn:?
         end; try lia;
  repeat match goal with
         | H : (_ && _) = true |- _ => apply andb_true_iff in H as [? ?]
         | H : (_ <? _) = true |- _ => apply Z.ltb_lt in H
         end; lia.
Qed.

Lemma candidate_shape (text : string) (now c : Z) :
  extractHourPreferToday text now = Some c ->
  exists h m, 0 <= h <= 99 /\ 0 <= m <= 99 /\
    c = Moment.startOfDay now + h * Moment.HOUR + m * Moment.MINUTE.
Proof.
  unfold extractHourPreferToday.
  destruct (Text.hour_re text) as [g|] eqn:E; [|discriminate].
  intros [= <-]. destruct (hour_re_groups text g E) as [Hh Hm].
  eexists _, _. split; [|split; [|apply at_hm_spec]].
  - now apply to24h_range.
  - destruct (Text.m4 g) as [d|]; [now apply Hm|lia].
Qed.

(** X11.  The candidate of [extractHourPreferToday] is a whole minute at or
    after today's midnight: today at [h:m] when [h < 24] and [m < 60],
    and carried over into the following days otherwise (two digits allow
    up to 99 each). *)
Theorem candidate_is_a_whole_minute_from_today (text : string) (now c : Z) :
  extractHourPreferToday text now = Some c ->
  Moment.secondOf c = 0 /\ Moment.msOf c = 0 /\
  Moment.startOfDay now <= c < Moment.startOfDay now + 5 * Moment.DAY /\
  exists h m, 0 <= h <= 99 /\ 0 <= m <= 99 /\
    c = Moment.startOfDay now + h * Moment.HOUR + m * Moment.MINUTE /\
    (h < 24 -> m < 60 ->
     Moment.day c = Moment.day now /\
     Moment.hourOf c = h /\ Moment.minuteOf c = m).
Proof.
  intros H. destruct (candidate_shape text now c H) as (h & m & Hh & Hm & ->).
  split; [unfold_moment; Z.div_mod_to_equations; lia|].
  split; [unfold_moment; Z.div_mod_to_equations; lia|].
  split; [unfold_moment; Z.div_mod_to_equations; lia|].
  exists h, m. split; [exact Hh|]. split; [exact Hm|].
  split; [reflexivity|].
  intros H24 H60. unfold_moment.
  repeat split; Z.div_mod_to_equations; lia.
Qed.

Lemma candidate_is_a_whole_minute_from_today_witness :
  Moment.secondOf (clock 20001 1 15) = 0 /\
  Moment.startOfDay (clock 20000 10 0) <= clock 20001 1 15.
Proof.
  destruct (candidate_is_a_whole_minute_from_today "jam 25:15"
              (clock 20000 10 0) (clock 20001 1 15) eq_refl)
    as (Hs & _ & [Hlo _] & _).
  split; [exact Hs|exact Hlo].
Defined.

(** X12.  A phrase with the hour pattern never resolves to a moment that is
    not after [now]: the result is the candidate or the candidate a day
    later, or the signal [time_passed_today]; it is never [null]. *)
Theorem explicit_hour_is_never_past chrono (text : string) (now c : Z) :
  extractHourPreferToday text now = Some c ->
  parseIndoPrefer chrono text now <> PNull /\
  (forall t, parseIndoPrefer chrono text now = PMoment t ->
     now < t /\ (t = c \/ t = c + Moment.DAY)) /\
  (forall c', parseIndoPrefer chrono text now = PTimePassedToday c' ->
     c' = c /\ c <= now).
Proof.
  intros H. rewrite (parse_manual chrono text now c H).
  destruct (candidate_shape text now c H) as (h & m & Hh & Hm & Hc).
  assert (Hday : now < Moment.startOfDay now + Moment.DAY)
    by (unfold_moment; Z.div_mod_to_equations; lia).
  assert (Hlo : Moment.startOfDay now <= c)
    by (rewrite Hc; unfold Moment.HOUR, Moment.MINUTE; lia).
  destruct (Z.ltb_spec now c) as [Hlt|Hge].
  - split; [discriminate|]. split; [|discriminate].
    intros t [= <-]. split; [exact Hlt|now left].
  - destruct (containsHariIni text).
    + split; [discriminate|]. split; [discriminate|].
      intros c' [= <-]. split; [reflexivity|exact Hge].
    + split; [discriminate|]. split; [|discriminate].
      intros t [= <-]. split; [lia|now right].
Qed.

Lemma explicit_hour_is_never_past_witness :
  parseIndoPrefer no_chrono "jam 9 pagi" (clock 20000 10 0) <> PNull.
Proof.
  apply (explicit_hour_is_never_past no_chrono "jam 9 pagi"
           (clock 20000 10 0) (clock 20000 9 0) eq_refl).
Defined.

(** X13.  When each outcome of [parseIndoPrefer] arises: the signal
    [time_passed_today] exactly when the hour pattern is there, its
    candidate is not after [now] and the phrase has "hari ini" or
    "today" (never from the generic parser); [null] exactly when the
    pattern is absent and the generic parser fails on the normalised and
    on the raw phrase. *)
Theorem resolver_outcomes chrono (text : string) (now : Z) :
  (forall c, parseIndoPrefer chrono text now = PTimePassedToday c <->
     extractHourPreferToday text now = Some c /\ c <= now /\
     containsHariIni text = true) /\
  (parseIndoPrefer chrono text now = PNull <->
     extractHourPreferToday text now = None /\
     chrono (normalizeIndo text) now true = None /\
     chrono text now true = None).
Proof.
  unfold parseIndoPrefer, Moment.isAfter.
  destruct (extractHourPreferToday text now) as [m|] eqn:E.
  - split.
    + intros c. destruct (Z.ltb_spec now m) as [Hlt|Hge].
      * split; [discriminate|]. intros ([= <-] & Hle & _). lia.
      * destruct (containsHariIni text).
        -- split; [intros [= <-]; now repeat split|].
           now intros ([= <-] & _).
        -- split; [discriminate|]. intros (_ & _ & [=]).
    + split; [|intros ([=] & _)].
      destruct (now <? m); [discriminate|].
      destruct (containsHariIni text); discriminate.
  - split.
    + intros c. split; [|intros ([=] & _)].
      destruct (chrono (normalizeIndo text) now true) as [m|].
      * destruct (_ && _); discriminate.
      * destruct (chrono text now true); discriminate.
    + destruct (chrono (normalizeIndo text) now true) as [m|].
      * split; [destruct (_ && _); discriminate|]. intros (_ & [=] & _).
      * destruct (chrono text now true) as [m|].
        -- split; [discriminate|]. intros (_ & _ & [=]).
        -- now split.
Qed.

(** X14.  What step 2 of [create_reminder] prints with [format("HH:mm")], the
    confirmation branch reads back with [split(":")] and [Number]: the
    hour and minute of the candidate, within 0..23 and 0..59. *)
Theorem hhmm_reads_back (t : Z) :
  Text.Number_opt <$> Text.split_colon (format_HHmm t)
    = [Some (Moment.hourOf t); Some (Moment.minuteOf t)] /\
  0 <= Moment.hourOf t < 24 /\ 0 <= Moment.minuteOf t < 60.
Proof.
  split; [apply read_HHmm|].
  unfold_moment. split; Z.div_mod_to_equations; lia.
Qed.

(** ** The reminder flows of the message handler *)

(** X15.  A time the resolver does not recognise only brings the prompt again:
    in [edit_note_time], in step 2 of [create_reminder] and in
    [await_time_for_note] the store, the scheduler and the sessions
    (with the running deadline) stay as they are. *)
Theorem unrecognized_time_only_reprompts chrono chatId msg now w st :
  Text.is_empty msg = false ->
  userState (sess w) !! chatId = Some st ->
  parseIndoPrefer chrono (Text.trim msg) now = PNull ->
  st_mode st = edit_note_time \/
  (st_mode st = create_reminder /\ st_step st = Some 2) \/
  st_mode st = await_time_for_note ->
  onMessage chrono chatId msg now w
  = Done (sendMessage chatId MsgUnrecognized w).
Proof.
  intros He Hs Hp Hm.
  apply onMessage_in_session with (st := st); [exact He|exact Hs|].
  unfold in_session.
  destruct Hm as [Hm | [[Hm Hstep] | Hm]]; rewrite Hm.
  - unfold handle_edit_note_time. now rewrite Hp.
  - unfold handle_create_reminder. now rewrite Hstep, Hp.
  - unfold handle_await_time. now rewrite Hp.
Qed.

Lemma unrecognized_time_only_reprompts_witness :
  onMessage no_chrono 7 "kapan-kapan" (clock 20000 10 1) editing_time
  = Done (sendMessage 7 MsgUnrecognized editing_time).
Proof.
  apply (unrecognized_time_only_reprompts no_chrono 7 "kapan-kapan"
           (clock 20000 10 1) editing_time
           {| st_mode := edit_note_time; st_step := None; st_id := Some 1;
              st_text := None; st_candidate := None |});
    [reflexivity | reflexivity | reflexivity | now left].
Defined.

(** X16.  In step 1 of [create_reminder] whatever text arrives, a label of the
    keyboard such as the one that returns to the main menu included, is
    taken as the text of the reminder: nothing is stored, the session
    goes to step 2 with that text, and its deadline starts again. *)
Theorem step1_takes_any_text chrono chatId msg now w st :
  Text.is_empty msg = false ->
  userState (sess w) !! chatId = Some st ->
  st_mode st = create_reminder ->
  st_step st = Some 1 ->
  exists w',
    onMessage chrono chatId msg now w = Done w' /\
    db w' = db w /\ sched w' = sched w /\
    userState (sess w') !! chatId =
      Some {| st_mode := create_reminder; st_step := Some 2;
              st_id := st_id st; st_text := Some (Text.trim msg);
              st_candidate := st_candidate st |} /\
    expiring (sess w') chatId (next_timer (sess w)) (now + 2 * 60 * 1000) /\
    outbox w' = (outbox w ++ [(chatId, MsgAskWhen)])%list.
Proof.
  intros He Hs Hm Hstep. eexists. split.
  { apply onMessage_in_session with (st := st); [exact He|exact Hs|].
    unfold in_session. rewrite Hm. unfold handle_create_reminder.
    rewrite Hstep, Hm. reflexivity. }
  cbn [db sched sess outbox on_sess sendMessage].
  split; [reflexivity|]. split; [reflexivity|].
  match goal with
  | |- context [setState ?c ?o ?n ?ss] =>
      destruct (setState_timers c o n ss) as (Ht & _ & Hu & _)
  end.
  unfold expiring. rewrite Ht, Hu.
  split; [apply lookup_insert_eq|]. split; [apply lookup_insert_eq|].
  reflexivity.
Qed.

Lemma step1_takes_any_text_witness :
  let w := run no_chrono [ Message 7 "🕰️ Catat Pengingat" (clock 20000 10 0) ]
             (boot empty_store (clock 20000 7 0)) in
  exists w',
    onMessage no_chrono 7 "🏠 Kembali ke Menu Utama" (clock 20000 10 1) w
    = Done w' /\
    st_text <$> userState (sess w') !! 7
    = Some (Some "🏠 Kembali ke Menu Utama").
Proof.
  cbv zeta.
  destruct (step1_takes_any_text no_chrono 7 "🏠 Kembali ke Menu Utama"
              (clock 20000 10 1)
              (run no_chrono
                 [ Message 7 "🕰️ Catat Pengingat" (clock 20000 10 0) ]
                 (boot empty_store (clock 20000 7 0)))
              {| st_mode := create_reminder; st_step := Some 1;
                 st_id := None; st_text := None; st_candidate := None |}
              eq_refl eq_refl eq_refl eq_refl)
    as (w' & Hrun & _ & _ & Hu & _).
  exists w'. split; [exact Hrun|]. now rewrite Hu.
Defined.

Lemma insert_then_schedule (chatId : Z) (text : string) (t now : Z)
    (w : world) :
  let i := 1 + Z.max (notes_seq (db w)) (max_rowid (notes (db w))) in
  let r := Row chatId text (Some (Iso t)) 0 "pending" in
  let w1 := snd (insert_note chatId text (Some (Iso t)) w) in
  fst (insert_note chatId text (Some (Iso t)) w) = i /\
  notes (db (schedule_by_id i chatId now w1)) = <[i := r]> (notes (db w)) /\
  sess (schedule_by_id i chatId now w1) = sess w /\
  outbox (schedule_by_id i chatId now w1) = outbox w /\
  sched (schedule_by_id i chatId now w1)
  = scheduleNoteJob (Some (Note i r)) now (sched w).
Proof.
  intros i r w1. subst w1. unfold insert_note, insertNoteStmt.
  fold i. fold r. cbn [fst snd]. unfold schedule_by_id.
  cbn [db on_db on_sched sched sess outbox notes].
  split; [reflexivity|]. split; [reflexivity|].
  split; [reflexivity|]. split; [reflexivity|].
  unfold getNoteByIdStmt. cbn [notes]. rewrite lookup_insert_eq.
  cbn. now rewrite Z.eqb_refl.
Qed.

(** X17.  Step 2 of [create_reminder] with a recognised time stores a new row
    with the captured text and that time and clears the session.  The
    timer is armed when the time has not passed; a time in the past,
    which only the generic parser can give, is stored all the same and
    nothing is armed. *)
Theorem step2_stores_and_arms chrono chatId msg now w st note_text t :
  Text.is_empty msg = false ->
  userState (sess w) !! chatId = Some st ->
  st_mode st = create_reminder ->
  st_step st = Some 2 ->
  st_text st = Some note_text ->
  parseIndoPrefer chrono (Text.trim msg) now = PMoment t ->
  let i := 1 + Z.max (notes_seq (db w)) (max_rowid (notes (db w))) in
  let r := Row chatId note_text (Some (Iso t)) 0 "pending" in
  exists w',
    onMessage chrono chatId msg now w = Done w' /\
    notes (db w) !! i = None /\
    notes (db w') = <[i := r]> (notes (db w)) /\
    userState (sess w') !! chatId = None /\
    outbox w' =
      (outbox w ++ [(chatId, MsgSaved i t); (chatId, MsgMainMenu)])%list /\
    (now <= t ->
       scheduledJobs (sched w') !! i = Some (Some (next_job (sched w))) /\
       pending (sched w') !! next_job (sched w) = Some (Job (Note i r) t)) /\
    (t < now -> sched w' = sched w).
Proof.
  intros He Hs Hm Hstep Ht Hp i r.
  destruct (insert_then_schedule chatId note_text t now w)
    as (Hi & Hn & Hse & Ho & Hsc).
  fold i in Hi, Hn, Hse, Ho, Hsc. fold r in Hn, Hsc.
  destruct (insert_note chatId note_text (Some (Iso t)) w) as [i' w1]
    eqn:E.
  cbn [fst snd] in Hi, Hn, Hse, Ho, Hsc. subst i'.
  eexists. split.
  { apply onMessage_in_session with (st := st); [exact He|exact Hs|].
    unfold in_session. rewrite Hm. unfold handle_create_reminder.
    rewrite Hstep, Hp, Ht, E. reflexivity. }
  cbn [db sched sess outbox on_sess sendMessage showMainMenu].
  split; [apply insert_rowid_fresh|]. split; [exact Hn|].
  split.
  { destruct (clearState_fields chatId
                (sess (schedule_by_id i chatId now w1)))
      as (_ & _ & -> & _).
    apply lookup_delete_eq. }
  split; [rewrite Ho; now rewrite <- app_assoc|].
  rewrite Hsc. split.
  - intros Hle. exact (arm_stores (Note i r) now t (sched w) eq_refl Hle).
  - intros Hlt. exact (proj1 (skip_past (Note i r) now t (sched w)
                                eq_refl Hlt)).
Qed.

Lemma step2_stores_and_arms_witness :
  let w := run no_chrono
             [ Message 7 "🕰️ Catat Pengingat" (clock 20000 10 0);
               Message 7 "beli tinta" (clock 20000 10 1) ]
             (boot empty_store (clock 20000 7 0)) in
  exists w',
    onMessage no_chrono 7 "jam 9 pagi" (clock 20000 10 2) w = Done w' /\
    notes (db w') !! 1 =
      Some (Row 7 "beli tinta" (Some (Iso (clock 20001 9 0))) 0 "pending") /\
    pending (sched w') !! 0%nat =
      Some (Job (Note 1 (Row 7 "beli tinta" (Some (Iso (clock 20001 9 0)))
                            0 "pending")) (clock 20001 9 0)).
Proof.
  cbv zeta.
  destruct (step2_stores_and_arms no_chrono 7 "jam 9 pagi"
              (clock 20000 10 2)
              (run no_chrono
                 [ Message 7 "🕰️ Catat Pengingat" (clock 20000 10 0);
                   Message 7 "beli tinta" (clock 20000 10 1) ]
                 (boot empty_store (clock 20000 7 0)))
              {| st_mode := create_reminder; st_step := Some 2;
                 st_id := None; st_text := Some "beli tinta";
                 st_candidate := None |}
              "beli tinta" (clock 20001 9 0)
              eq_refl eq_refl eq_refl eq_refl eq_refl eq_refl)
    as (w' & Hrun & _ & Hn & _ & _ & Harm & _).
  exists w'. split; [exact Hrun|].
  split; [rewrite Hn; apply lookup_insert_eq|].
  apply Harm. vm_compute. discriminate.
Defined.

Lemma update_reminder_own (i chatId : Z) (at_ : option stamp) (d : database)
    (r : row) :
  notes d !! i = Some r -> chat_id r = chatId ->
  let r' := {| chat_id := chat_id r; note_text := note_text r;
               reminder_at := at_; reminded := 0; status := status r |} in
  notes (updateNoteReminderStmt at_ i chatId d) = <[i := r']> (notes d) /\
  notes_seq (updateNoteReminderStmt at_ i chatId d) = notes_seq d /\
  getNoteByIdStmt i chatId (updateNoteReminderStmt at_ i chatId d)
  = Some (Note i r').
Proof.
  intros Hr Hc r'. apply Z.eqb_eq in Hc as Hcb.
  assert (Hn : notes (updateNoteReminderStmt at_ i chatId d)
               = <[i := r']> (notes d)).
  { apply map_eq. intros k. unfold updateNoteReminderStmt.
    rewrite update_where_fields. destruct (decide (k = i)) as [->|Hne].
    - rewrite Hr, lookup_insert_eq. cbn. now rewrite Hcb.
    - now rewrite lookup_insert_ne. }
  split; [exact Hn|]. split; [reflexivity|].
  unfold getNoteByIdStmt. rewrite Hn, lookup_insert_eq. cbn.
  now rewrite Hcb.
Qed.

(** X18.  In [edit_note_time] and in [await_time_for_note] a recognised time
    is written into the reminder the session names, if the chat owns it:
    its row gets the time and [reminded = 0] and keeps text and status,
    no row is added, the session is cleared, and when the time has not
    passed the registry holds a new job for the updated row.  If the
    chat does not own such a reminder, store and scheduler stay as they
    are; the session is cleared all the same. *)
Theorem typed_time_updates_the_named_reminder
    chrono chatId msg now w st i t :
  Text.is_empty msg = false ->
  userState (sess w) !! chatId = Some st ->
  st_mode st = edit_note_time \/ st_mode st = await_time_for_note ->
  st_id st = Some i ->
  parseIndoPrefer chrono (Text.trim msg) now = PMoment t ->
  exists w',
    onMessage chrono chatId msg now w = Done w' /\
    userState (sess w') !! chatId = None /\
    notes_seq (db w') = notes_seq (db w) /\
    (forall r, notes (db w) !! i = Some r -> chat_id r = chatId ->
       let r' := {| chat_id := chat_id r; note_text := note_text r;
                    reminder_at := Some (Iso t); reminded := 0;
                    status := status r |} in
       notes (db w') = <[i := r']> (notes (db w)) /\
       (now <= t ->
          scheduledJobs (sched w') !! i = Some (Some (next_job (sched w))) /\
          pending (sched w') !! next_job (sched w) = Some (Job (Note i r') t))
       /\
       (t < now -> sched w' = sched w)) /\
    (getNoteByIdStmt i chatId (db w) = None ->
       db w' = db w /\ sched w' = sched w).
Proof.
  intros He Hs Hm Hid Hp.
  set (w1 := schedule_by_id i chatId now
               (on_db (updateNoteReminderStmt (Some (Iso t)) i chatId) w)).
  assert (Hcl : forall w0, userState (sess (on_sess (clearState chatId) w0))
                           !! chatId = None).
  { intros w0. cbn [sess on_sess].
    destruct (clearState_fields chatId (sess w0)) as (_ & _ & -> & _).
    apply lookup_delete_eq. }
  assert (Hfacts :
    notes_seq (db w1) = notes_seq (db w) /\
    (forall r, notes (db w) !! i = Some r -> chat_id r = chatId ->
       let r' := {| chat_id := chat_id r; note_text := note_text r;
                    reminder_at := Some (Iso t); reminded := 0;
                    status := status r |} in
       notes (db w1) = <[i := r']> (notes (db w)) /\
       (now <= t ->
          scheduledJobs (sched w1) !! i = Some (Some (next_job (sched w))) /\
          pending (sched w1) !! next_job (sched w) = Some (Job (Note i r') t))
       /\
       (t < now -> sched w1 = sched w)) /\
    (getNoteByIdStmt i chatId (db w) = None ->
       db w1 = db w /\ sched w1 = sched w)).
  { subst w1. unfold schedule_by_id. cbn [db sched on_db on_sched].
    split; [reflexivity|]. split.
    - intros r Hr Hc.
      destruct (update_reminder_own i chatId (Some (Iso t)) (db w) r Hr Hc)
        as (Hn & _ & Hg).
      cbv zeta in Hn, Hg. rewrite Hg. split; [exact Hn|]. split.
      + intros Hle. now apply arm_stores.
      + intros Hlt. now apply skip_past with (t := t).
    - intros Hnone.
      destruct (foreign_rows_stay i chatId (db w) Hnone) as [-> _].
      rewrite Hnone. split; reflexivity. }
  destruct Hm as [Hm|Hm].
  - exists (showMainMenu chatId
              (sendMessage chatId (MsgTimeUpdated i t)
                 (on_sess (clearState chatId) w1))).
    split.
    { apply onMessage_in_session with (st := st); [exact He|exact Hs|].
      unfold in_session. rewrite Hm. unfold handle_edit_note_time.
      now rewrite Hp, Hid. }
    cbn [db sched sess showMainMenu sendMessage].
    split; [apply Hcl|]. exact Hfacts.
  - exists (showMainMenu chatId
              (on_sess (clearState chatId)
                 (sendMessage chatId (MsgTimeSet i t) w1))).
    split.
    { apply onMessage_in_session with (st := st); [exact He|exact Hs|].
      unfold in_session. rewrite Hm. unfold handle_await_time.
      now rewrite Hp, Hid. }
    cbn [db sched sess showMainMenu sendMessage on_sess].
    split; [|exact Hfacts].
    destruct (clearState_fields chatId (sess w1)) as (_ & _ & -> & _).
    apply lookup_delete_eq.
Qed.

Lemma typed_time_updates_the_named_reminder_witness :
  exists w',
    onMessage no_chrono 7 "jam 11 pagi" (clock 20000 10 1) editing_time
    = Done w' /\
    notes (db w') !! 1 =
      Some (Row 7 "beli tinta" (Some (Iso (clock 20000 11 0))) 0 "pending") /\
    scheduledJobs (sched w') !! 1 = Some (Some 1%nat).
Proof.
  destruct (typed_time_updates_the_named_reminder no_chrono 7 "jam 11 pagi"
              (clock 20000 10 1) editing_time
              {| st_mode := edit_note_time; st_step := None; st_id := Some 1;
                 st_text := None; st_candidate := None |}
              1 (clock 20000 11 0) eq_refl eq_refl (or_introl eq_refl)
              eq_refl eq_refl)
    as (w' & Hrun & _ & _ & Hown & _).
  destruct (Hown (cols (sample_note 1 (clock 20000 8 0))) eq_refl eq_refl)
    as (Hn & Harm & _).
  exists w'. split; [exact Hrun|].
  split; [rewrite Hn; apply lookup_insert_eq|].
  apply Harm. vm_compute. discriminate.
Defined.

(** X19.  [await_time_for_note] has no confirmation branch: a time of today
    that has passed is answered like an unrecognised one, and store,
    scheduler and session stay as they are. *)
Theorem await_time_does_not_ask_for_tomorrow chrono chatId msg now w st c :
  Text.is_empty msg = false ->
  userState (sess w) !! chatId = Some st ->
  st_mode st = await_time_for_note ->
  parseIndoPrefer chrono (Text.trim msg) now = PTimePassedToday c ->
  onMessage chrono chatId msg now w
  = Done (sendMessage chatId MsgUnrecognized w).
Proof.
  intros He Hs Hm Hp.
  apply onMessage_in_session with (st := st); [exact He|exact Hs|].
  unfold in_session. rewrite Hm. unfold handle_await_time. now rewrite Hp.
Qed.

(** The world after a natural request that names no time. *)
Lemma natural_request_unfold chrono chatId msg now w :
  Text.is_empty msg = false ->
  match userState (sess w) !! chatId with
  | Some st => in_session chrono chatId (Text.trim msg) now st w = None
  | None => True
  end ->
  asks_reminder (Text.trim msg) = true ->
  onMessage chrono chatId msg now w
  = natural_request chrono chatId (Text.trim msg) now w.
Proof.
  intros He Hfall Hask. unfold onMessage. rewrite He.
  destruct (userState (sess w) !! chatId) as [st|];
    [rewrite Hfall|]; now apply keyboard_natural.
Qed.

(** X20.  A natural request whose time the resolver cannot find is stored at
    once with a null time, under a new id, and the session waits for the
    time of that row; a natural request with a time is stored with it,
    armed when the time has not passed, and leaves the sessions as they
    are. *)
Theorem natural_request_is_stored chrono chatId msg now w :
  let text := Text.trim msg in
  let noteText := Text.trim (strip_request text) in
  let i := 1 + Z.max (notes_seq (db w)) (max_rowid (notes (db w))) in
  Text.is_empty msg = false ->
  match userState (sess w) !! chatId with
  | Some st => in_session chrono chatId text now st w = None
  | None => True
  end ->
  asks_reminder text = true ->
  Text.is_empty noteText = false ->
  notes (db w) !! i = None /\
  (parseIndoPrefer chrono text now = PNull ->
     exists w',
       onMessage chrono chatId msg now w = Done w' /\
       notes (db w') = <[i := Row chatId noteText None 0 "pending"]>
                         (notes (db w)) /\
       sched w' = sched w /\
       userState (sess w') !! chatId =
         Some {| st_mode := await_time_for_note; st_step := None;
                 st_id := Some i; st_text := None;
                 st_candidate := None |}) /\
  (forall t, parseIndoPrefer chrono text now = PMoment t ->
     exists w',
       onMessage chrono chatId msg now w = Done w' /\
       notes (db w') = <[i := Row chatId noteText (Some (Iso t)) 0 "pending"]>
                         (notes (db w)) /\
       sess w' = sess w /\
       (now <= t ->
          scheduledJobs (sched w') !! i = Some (Some (next_job (sched w))) /\
          pending (sched w') !! next_job (sched w)
          = Some (Job (Note i (Row chatId noteText (Some (Iso t)) 0
                                   "pending")) t)) /\
       (t < now -> sched w' = sched w)).
Proof.
  intros text noteText i He Hfall Hask Hne.
  pose proof (natural_request_unfold chrono chatId msg now w He Hfall Hask)
    as Hrun. fold text in Hrun.
  split; [apply insert_rowid_fresh|]. split.
  - intros Hp. eexists. split.
    { rewrite Hrun. unfold natural_request. fold noteText.
      rewrite Hne, Hp. unfold insert_note, insertNoteStmt. fold i.
      reflexivity. }
    cbn [db sched sess on_db on_sess sendMessage notes].
    split; [reflexivity|]. split; [reflexivity|].
    match goal with
    | |- userState (setState ?c ?o ?n ?ss) !! _ = _ =>
        destruct (setState_timers c o n ss) as (_ & _ & -> & _)
    end.
    apply lookup_insert_eq.
  - intros t Hp.
    destruct (insert_then_schedule chatId noteText t now w)
      as (Hi & Hn & Hse & _ & Hsc).
    fold i in Hi, Hn, Hse, Hsc.
    destruct (insert_note chatId noteText (Some (Iso t)) w) as [i' w1]
      eqn:E.
    cbn [fst snd] in Hi, Hn, Hse, Hsc. subst i'.
    eexists. split.
    { rewrite Hrun. unfold natural_request. fold noteText.
      rewrite Hne, Hp, E. reflexivity. }
    cbn [db sched sess showMainMenu sendMessage].
    split; [exact Hn|]. split; [exact Hse|]. rewrite Hsc. split.
    + intros Hle. now apply arm_stores.
    + intros Hlt. now apply skip_past with (t := t).
Qed.

Lemma natural_request_is_stored_witness :
  exists w',
    onMessage no_chrono 7 "ingatkan beli tinta" (clock 20000 10 0)
      (boot empty_store (clock 20000 7 0)) = Done w' /\
    notes (db w') = <[1 := Row 7 "beli tinta" None 0 "pending"]> ∅ /\
    st_mode <$> userState (sess w') !! 7 = Some await_time_for_note.
Proof.
  assert (H3 : asks_reminder (Text.trim "ingatkan beli tinta") = true)
    by (vm_compute; reflexivity).
  assert (H4 : Text.is_empty
                 (Text.trim (strip_request (Text.trim "ingatkan beli tinta")))
               = false) by (vm_compute; reflexivity).
  destruct (natural_request_is_stored no_chrono 7 "ingatkan beli tinta"
              (clock 20000 10 0) (boot empty_store (clock 20000 7 0))
              eq_refl I H3 H4) as (_ & Hnull & _).
  destruct Hnull as (w' & Hrun & Hn & _ & Hu); [vm_compute; reflexivity|].
  exists w'. split; [exact Hrun|]. split.
  - rewrite Hn.
    replace (1 + Z.max (notes_seq (db (boot empty_store (clock 20000 7 0))))
                   (max_rowid (notes (db (boot empty_store
                                            (clock 20000 7 0))))))
      with 1 by (vm_compute; reflexivity).
    replace (Text.trim (strip_request (Text.trim "ingatkan beli tinta")))
      with "beli tinta" by (vm_compute; reflexivity).
    reflexivity.
  - now rewrite Hu.
Defined.

(** X21.  [edit_note_text] writes the typed text into the reminder the session
    names when the chat owns it, all other columns and rows as before,
    and clears the session; it never touches the scheduler, so a timer
    armed before still carries the old text and will send that.  When
    the chat does not own the reminder the store is unchanged. *)
Theorem edit_text_leaves_the_armed_text chrono chatId msg now w st i :
  Text.is_empty msg = false ->
  userState (sess w) !! chatId = Some st ->
  st_mode st = edit_note_text ->
  st_id st = Some i ->
  exists w',
    onMessage chrono chatId msg now w = Done w' /\
    sched w' = sched w /\
    userState (sess w') !! chatId = None /\
    (forall r, notes (db w) !! i = Some r -> chat_id r = chatId ->
       notes (db w') =
         <[i := {| chat_id := chat_id r; note_text := Text.trim msg;
                   reminder_at := reminder_at r; reminded := reminded r;
                   status := status r |}]> (notes (db w))) /\
    (getNoteByIdStmt i chatId (db w) = None -> db w' = db w).
Proof.
  intros He Hs Hm Hid. eexists. split.
  { apply onMessage_in_session with (st := st); [exact He|exact Hs|].
    unfold in_session. rewrite Hm. unfold handle_edit_note_text.
    rewrite Hid. reflexivity. }
  cbn [db sched sess showMainMenu sendMessage on_sess on_db].
  split; [reflexivity|]. split.
  { destruct (clearState_fields chatId (sess w)) as (_ & _ & -> & _).
    apply lookup_delete_eq. }
  split.
  - intros r Hr Hc. apply Z.eqb_eq in Hc as Hcb.
    apply map_eq. intros k. unfold updateNoteTextStmt.
    rewrite update_where_fields. destruct (decide (k = i)) as [->|Hne].
    + rewrite Hr, lookup_insert_eq. cbn. now rewrite Hcb.
    + now rewrite lookup_insert_ne.
  - intros Hnone. now destruct (foreign_rows_stay i chatId (db w) Hnone)
      as [_ ->].
Qed.

Lemma edit_text_leaves_the_armed_text_witness :
  let w := cmd_edit 1 7 (clock 20000 7 30) (boot one_note (clock 20000 7 0)) in
  exists w',
    onMessage no_chrono 7 "beli kertas" (clock 20000 7 31) w = Done w' /\
    note_text <$> notes (db w') !! 1 = Some "beli kertas" /\
    note_text <$> (cols <$> (job_note <$> pending (sched w') !! 0%nat))
    = Some "beli tinta".
Proof.
  cbv zeta.
  destruct (edit_text_leaves_the_armed_text no_chrono 7 "beli kertas"
              (clock 20000 7 31)
              (cmd_edit 1 7 (clock 20000 7 30)
                 (boot one_note (clock 20000 7 0)))
              {| st_mode := edit_note_text; st_step := None;
                 st_id := Some 1; st_text := None; st_candidate := None |}
              1 eq_refl eq_refl eq_refl eq_refl)
    as (w' & Hrun & Hs & _ & Hown & _).
  exists w'. split; [exact Hrun|]. split.
  - rewrite (Hown (cols (sample_note 1 (clock 20000 8 0))) eq_refl eq_refl).
    now rewrite lookup_insert_eq.
  - rewrite Hs. vm_compute. reflexivity.
Defined.

Lemma await_time_does_not_ask_for_tomorrow_witness :
  let w := run no_chrono [ Message 7 "ingatkan beli tinta" (clock 20000 10 0) ]
             (boot empty_store (clock 20000 7 0)) in
  onMessage no_chrono 7 "jam 9 pagi hari ini" (clock 20000 10 1) w
  = Done (sendMessage 7 MsgUnrecognized w).
Proof.
  cbv zeta.
  assert (Hs : userState (sess (run no_chrono
                 [ Message 7 "ingatkan beli tinta" (clock 20000 10 0) ]
                 (boot empty_store (clock 20000 7 0)))) !! 7
               = Some {| st_mode := await_time_for_note; st_step := None;
                         st_id := Some 1; st_text := None;
                         st_candidate := None |})
    by (vm_compute; reflexivity).
  assert (Hp : parseIndoPrefer no_chrono (Text.trim "jam 9 pagi hari ini")
                 (clock 20000 10 1) = PTimePassedToday (clock 20000 9 0))
    by (vm_compute; reflexivity).
  exact (await_time_does_not_ask_for_tomorrow no_chrono 7
           "jam 9 pagi hari ini" (clock 20000 10 1) _ _ (clock 20000 9 0)
           eq_refl Hs eq_refl Hp).
Defined.

(** ** Presets *)

Lemma whole_hour_fields (d k : Z) :
  Moment.minuteOf (d * Moment.DAY + k * Moment.HOUR) = 0 /\
  Moment.secondOf (d * Moment.DAY + k * Moment.HOUR) = 0 /\
  Moment.msOf (d * Moment.DAY + k * Moment.HOUR) = 0.
Proof.
  unfold Moment.minuteOf, Moment.secondOf, Moment.msOf, Moment.DAY,
    Moment.HOUR, Moment.MINUTE, Moment.SECOND.
  repeat split.
  - replace (d * 86400000 + k * 3600000) with ((d * 24 + k) * 3600000)
      by lia.
    now rewrite Z.mod_mul by lia.
  - replace (d * 86400000 + k * 3600000)
      with ((d * 1440 + k * 60) * 60000) by lia.
    now rewrite Z.mod_mul by lia.
  - replace (d * 86400000 + k * 3600000)
      with ((d * 86400 + k * 3600) * 1000) by lia.
    now rewrite Z.mod_mul by lia.
Qed.

Lemma preset_values (now : Z) :
  computePresetDatetime "today_08" now
    = Some (Moment.startOfDay now + 8 * Moment.HOUR) /\
  computePresetDatetime "today_13" now
    = Some (Moment.startOfDay now + 13 * Moment.HOUR) /\
  computePresetDatetime "tomorrow_08" now
    = Some (Moment.startOfDay now + Moment.DAY + 8 * Moment.HOUR).
Proof.
  assert (H8 : Moment.at_hm now 8 0 = Moment.startOfDay now + 8 * Moment.HOUR)
    by (rewrite at_hm_spec; lia).
  assert (H13 : Moment.at_hm now 13 0
                = Moment.startOfDay now + 13 * Moment.HOUR)
    by (rewrite at_hm_spec; lia).
  assert (Ht : Moment.at_hm (Moment.add_day 1 now) 8 0
               = Moment.startOfDay now + Moment.DAY + 8 * Moment.HOUR)
    by (rewrite tomorrow_at; lia).
  rewrite <- H8, <- H13, <- Ht. repeat split; reflexivity.
Qed.

Lemma preset_unknown (tag : string) (now : Z) :
  tag <> "now" -> tag <> "today_08" -> tag <> "today_13" ->
  tag <> "tomorrow_08" -> computePresetDatetime tag now = None.
Proof.
  intros N1 N2 N3 N4. unfold computePresetDatetime.
  apply String.eqb_neq in N1, N2, N3, N4. now rewrite N1, N2, N3, N4.
Qed.

Lemma preset_whole_hour (tag : string) (now t : Z) :
  computePresetDatetime tag now = Some t ->
  tag <> "now" ->
  Moment.minuteOf t = 0 /\ Moment.secondOf t = 0 /\ Moment.msOf t = 0 /\
  Moment.startOfDay now <= t < Moment.startOfDay now + 2 * Moment.DAY.
Proof.
  assert (H8 : Moment.at_hm now 8 0 = Moment.startOfDay now + 8 * Moment.HOUR)
    by (rewrite at_hm_spec; lia).
  assert (H13 : Moment.at_hm now 13 0
                = Moment.startOfDay now + 13 * Moment.HOUR)
    by (rewrite at_hm_spec; lia).
  assert (Ht : Moment.at_hm (Moment.add_day 1 now) 8 0
               = Moment.startOfDay now + Moment.DAY + 8 * Moment.HOUR)
    by (rewrite tomorrow_at; lia).
  intros Hc Hn. unfold computePresetDatetime in Hc.
  apply String.eqb_neq in Hn. rewrite Hn in Hc.
  rewrite H8, H13, Ht in Hc.
  assert (Hd : Moment.startOfDay now + Moment.DAY + 8 * Moment.HOUR
               = Moment.day now * Moment.DAY + 32 * Moment.HOUR)
    by (unfold Moment.startOfDay, Moment.DAY, Moment.HOUR; lia).
  destruct (String.eqb tag "today_08");
    [|destruct (String.eqb tag "today_13");
      [|destruct (String.eqb tag "tomorrow_08"); [|discriminate]]];
    injection Hc as <-; rewrite ?Hd;
    unfold Moment.startOfDay;
    (split; [apply (proj1 (whole_hour_fields _ _))|]);
    (split; [apply (proj1 (proj2 (whole_hour_fields _ _)))|]);
    (split; [apply (proj2 (proj2 (whole_hour_fields _ _)))|]);
    unfold Moment.DAY, Moment.HOUR; lia.
Qed.

Lemma tomorrow_08_is_ahead (now : Z) :
  now < Moment.startOfDay now + Moment.DAY + 8 * Moment.HOUR.
Proof. unfold_moment. Z.div_mod_to_equations. lia. Qed.

(** X22.  The presets: "today_08" and "today_13" are 08:00 and 13:00 of the
    day of the call, whatever the time of day (so they may lie in the
    past), "tomorrow_08" is 08:00 of the next day and always in the
    future, "now" is the instant of the call, and every other tag,
    "custom" included, gives [null]. *)
Theorem presets_are_fixed_hours (tag : string) (now : Z) :
  computePresetDatetime "now" now = Some now /\
  computePresetDatetime "today_08" now
    = Some (Moment.startOfDay now + 8 * Moment.HOUR) /\
  computePresetDatetime "today_13" now
    = Some (Moment.startOfDay now + 13 * Moment.HOUR) /\
  computePresetDatetime "tomorrow_08" now
    = Some (Moment.startOfDay now + Moment.DAY + 8 * Moment.HOUR) /\
  now < Moment.startOfDay now + Moment.DAY + 8 * Moment.HOUR /\
  (tag <> "now" -> tag <> "today_08" -> tag <> "today_13" ->
   tag <> "tomorrow_08" -> computePresetDatetime tag now = None) /\
  (forall t, computePresetDatetime tag now = Some t ->
     tag <> "now" ->
     Moment.minuteOf t = 0 /\ Moment.secondOf t = 0 /\ Moment.msOf t = 0 /\
     Moment.startOfDay now <= t < Moment.startOfDay now + 2 * Moment.DAY).
Proof.
  destruct (preset_values now) as (E8 & E13 & Et).
  exact (conj eq_refl
          (conj E8 (conj E13 (conj Et
            (conj (tomorrow_08_is_ahead now)
               (conj (preset_unknown tag now)
                     (preset_whole_hour tag now))))))).
Qed.

Lemma split_on_no_sep (sep : ascii) (s : string) :
  (forall c, In c (list_ascii_of_string s) -> c <> sep) ->
  split_on sep s = [s].
Proof.
  induction s as [|c s IH]; intros H; [reflexivity|].
  cbn. destruct (Ascii.eqb_spec c sep) as [->|Hne].
  - exfalso. apply (H sep); [now left|reflexivity].
  - rewrite IH; [reflexivity|]. intros c' Hin. apply H. now right.
Qed.

Lemma split_on_app (sep : ascii) (s rest : string) :
  (forall c, In c (list_ascii_of_string s) -> c <> sep) ->
  split_on sep (s ++ String sep rest) = s :: split_on sep rest.
Proof.
  induction s as [|c s IH]; intros H.
  - change (EmptyString ++ String sep rest) with (String sep rest).
    cbn. now rewrite Ascii.eqb_refl.
  - change (String c s ++ String sep rest)
      with (String c (s ++ String sep rest)).
    cbn. destruct (Ascii.eqb_spec c sep) as [->|Hne].
    + exfalso. apply (H sep); [now left|reflexivity].
    + rewrite IH; [reflexivity|]. intros c' Hin. apply H. now right.
Qed.

(** X23.  Every button of [timePresetKeyboard] carries data that the callback
    handler recognises as a preset and splits back into the field the
    keyboard was made for and one of the five tags, as long as the field
    name has no "|". *)
Theorem preset_buttons_read_back (prefixField : string) :
  (forall c, In c (list_ascii_of_string prefixField) -> c <> "|"%char) ->
  snd <$> concat (timePresetKeyboard prefixField) =
    (fun tag => "preset|" ++ prefixField ++ "|" ++ tag)
      <$> ["now"; "today_08"; "today_13"; "tomorrow_08"; "custom"] /\
  forall tag,
    tag ∈ ["now"; "today_08"; "today_13"; "tomorrow_08"; "custom"] ->
    is_preset ("preset|" ++ prefixField ++ "|" ++ tag) = true /\
    preset_parts ("preset|" ++ prefixField ++ "|" ++ tag)
    = (Some prefixField, Some tag).
Proof.
  intros Hf. split; [reflexivity|].
  intros tag Htag. split; [reflexivity|].
  unfold preset_parts.
  change ("preset|" ++ prefixField ++ "|" ++ tag)
    with ("preset" ++ String "|" (prefixField ++ String "|" tag)).
  rewrite split_on_app.
  - rewrite split_on_app by exact Hf.
    rewrite split_on_no_sep; [reflexivity|].
    intros c Hin.
    repeat (apply elem_of_cons in Htag as [->|Htag];
            [cbn in Hin; repeat destruct Hin as [<-|Hin];
             try discriminate; contradiction|]).
    now apply elem_of_nil in Htag.
  - intros c Hin. cbn in Hin.
    repeat destruct Hin as [<-|Hin]; try discriminate; contradiction.
Qed.

Lemma preset_buttons_read_back_witness :
  preset_parts "preset|edit_receive_time|tomorrow_08"
  = (Some "edit_receive_time", Some "tomorrow_08").
Proof.
  apply (preset_buttons_read_back "edit_receive_time").
  - intros c Hin. cbn in Hin.
    repeat destruct Hin as [<-|Hin]; try discriminate; contradiction.
  - repeat constructor.
Defined.


(** ** The report wizards and the inline buttons *)

Section ReportProperties.

Variable ms : string -> option Z.
Variable ch : string -> Z -> bool -> option Z.

Lemma r_set_at_step (c : Z) (st : state_obj) (k now : Z) (d : report_data)
    (msg : rmsg) (w : rworld) :
  at_step (r_send c msg (r_set c (with_step st k d) now w)) c
          (st_mode (so_base st)) k d.
Proof.
  exists (with_step st k d). cbn. now rewrite lookup_insert_eq.
Qed.

Lemma in_create_report (c : Z) (msg : string) (now : Z) (w : rworld)
    (st : state_obj) (d : report_data) :
  rState (rsess w) !! c = Some st ->
  st_mode (so_base st) = create_report ->
  so_data st = Some d ->
  Text.is_empty msg = false ->
  r_onMessage ms ch c msg now w =
    match handle_create_report ms ch c (Text.trim msg) now st d w with
    | Some w' => RDone w'
    | None => r_keyboard c (Text.trim msg) now w
    end.
Proof.
  intros Hst Hm Hd He. unfold r_onMessage. now rewrite He, Hst, Hm, Hd.
Qed.

Lemma in_edit_report (c : Z) (msg : string) (now : Z) (w : rworld)
    (st : state_obj) (d : report_data) :
  rState (rsess w) !! c = Some st ->
  st_mode (so_base st) = edit_report ->
  so_data st = Some d ->
  Text.is_empty msg = false ->
  r_onMessage ms ch c msg now w =
    match handle_edit_report ms ch c (Text.trim msg) now st d w with
    | Some o => o
    | None => r_keyboard c (Text.trim msg) now w
    end.
Proof.
  intros Hst Hm Hd He. unfold r_onMessage. now rewrite He, Hst, Hm, Hd.
Qed.






Lemma step_message (c : Z) (msg : string) (now : Z) (w w' : rworld) :
  r_onMessage ms ch c msg now w = RDone w' ->
  r_step ms ch w (RMessage c msg now) = w'.
Proof. unfold r_step, r_handle. now intros ->. Qed.

Lemma step_button (c : Z) (data : string) (now : Z) (w w' : rworld) :
  onCallback c data now w = RDone w' ->
  r_step ms ch w (RButton c data now) = w'.
Proof. unfold r_step, r_handle. now intros ->. Qed.


Lemma create_keeps_reports (c : Z) (text : string) (now : Z)
    (st : state_obj) (d : report_data) (w w' : rworld) :
  handle_create_report ms ch c text now st d w = Some w' -> rdb w' = rdb w.
Proof.
  unfold handle_create_report. intros H.
  repeat case_match; simplify_eq; reflexivity.
Qed.

Lemma keyboard_keeps_reports (c : Z) (text : string) (now : Z)
    (w w' : rworld) :
  r_keyboard c text now w = RDone w' ->
  rdb w' = rdb w /\ answers w' = answers w.
Proof.
  unfold r_keyboard. intros H.
  repeat case_match; simplify_eq; split; reflexivity.
Qed.

Lemma edit_keeps_reports (c : Z) (text : string) (now : Z)
    (st : state_obj) (d : report_data) (w w' : rworld) :
  handle_edit_report ms ch c text now st d w = Some (RDone w') ->
  rdb w' = rdb w \/ st_step (so_base st) = Some 6.
Proof.
  unfold handle_edit_report. intros H.
  repeat case_match; simplify_eq; (now left) || (now right).
Qed.

Lemma button_keeps_reports (c : Z) (data : string) (now : Z)
    (w w' : rworld) :
  onCallback c data now w = RDone w' ->
  rdb w' = rdb w \/
  (data = "report_confirm_save" /\
   exists st, rState (rsess w) !! c = Some st /\
              st_mode (so_base st) = create_report /\
              st_step (so_base st) = Some 7).
Proof.
  unfold onCallback. intros H.
  destruct (is_preset data).
  { left. repeat case_match; simplify_eq; reflexivity. }
  destruct (String.eqb_spec data "report_confirm_save") as [->|_].
  - destruct (rState (rsess w) !! c) as [st|] eqn:Hst;
      [|left; now simplify_eq].
    destruct (st_mode (so_base st)) eqn:Hm;
      try (left; now simplify_eq).
    + destruct (st_step (so_base st)) as [k|] eqn:Hk;
        [|left; now simplify_eq].
      destruct (Z.eq_dec k 7) as [->|Hne].
      * right. split; [reflexivity|]. now exists st.
      * left. repeat case_match; simplify_eq; try reflexivity;
          now elim Hne.
  - left. repeat case_match; simplify_eq; reflexivity.
Qed.


Lemma rejected_keeps_reports (delivered : bool) (c : Z) (data : string)
    (now : Z) (w w' : rworld) :
  onCallback_sends delivered c data now w = CbRejected w' ->
  rdb w' = rdb w /\ answers w' = answers w.
Proof.
  unfold onCallback_sends. intros H.
  repeat case_match; simplify_eq; split; reflexivity.
Qed.

(** X25.  The table of reports is written at three places.  A message
    or [/edit_report] whose run ends in the report branches, and a
    button press, change it only at the save button of a chat whose
    create wizard is at the preview (step 7) and at a message of a chat
    whose edit wizard is at its last step (step 6); a button press that
    is rejected changes nothing; and [/delete] changes it only when the
    chat owns no reminder of that id and owns the report, which it
    removes.  Nothing is stored while a report is being typed or when
    it is cancelled. *)
Theorem reports_change_only_at_the_three_writes :
  (forall w w' e,
     r_handle ms ch w e = RDone w' ->
     rdb w' <> rdb w ->
     exists c st,
       rState (rsess w) !! c = Some st /\
       (((exists now, e = RButton c "report_confirm_save" now) /\
         st_mode (so_base st) = create_report /\
         st_step (so_base st) = Some 7) \/
        ((exists text now, e = RMessage c text now) /\
         st_mode (so_base st) = edit_report /\
         st_step (so_base st) = Some 6))) /\
  (forall delivered c data now w,
     rdb (cb_state (onCallback_sends delivered c data now w)) <> rdb w ->
     data = "report_confirm_save" /\
     (exists w', onCallback_sends delivered c data now w = CbReturned w') /\
     exists st, rState (rsess w) !! c = Some st /\
                st_mode (so_base st) = create_report /\
                st_step (so_base st) = Some 7) /\
  (forall i c w rd,
     snd (fst (cmd_delete i c w rd)) <> rd ->
     getNoteByIdStmt i c (db w) = None /\
     exists rep,
       getReportByIdStmt i c rd = Some rep /\
       cmd_delete i c w rd
       = (w, {| reports := delete i (reports rd);
                reports_seq := reports_seq rd |}, RReportDeleted i)).
Proof.
  split; [|split].
  - intros w w' e H Hne.
    destruct e as [c text now|c data now|i c now]; cbn in H.
    + unfold r_onMessage in H.
      destruct (Text.is_empty text); [now simplify_eq|].
      destruct (rState (rsess w) !! c) as [st|] eqn:Hst;
        [|now apply keyboard_keeps_reports in H as [H _]].
      destruct (st_mode (so_base st)) eqn:Hm; try discriminate;
        destruct (so_data st) as [d|] eqn:Hd; try discriminate.
      * destruct (handle_create_report ms ch c (Text.trim text) now st d w)
          as [w1|] eqn:E.
        -- simplify_eq. now apply create_keeps_reports in E.
        -- now apply keyboard_keeps_reports in H as [H _].
      * destruct (handle_edit_report ms ch c (Text.trim text) now st d w)
          as [o|] eqn:E.
        -- subst o. apply edit_keeps_reports in E as [E|E]; [contradiction|].
           exists c, st. split; [exact Hst|]. right. eauto.
        -- now apply keyboard_keeps_reports in H as [H _].
    + apply button_keeps_reports in H as [H|(-> & st & Hst & Hm & Hk)];
        [contradiction|].
      exists c, st. split; [exact Hst|]. left. eauto.
    + simplify_eq. unfold cmd_edit_report in Hne.
      destruct (getReportByIdStmt i c (rdb w)); now elim Hne.
  - intros delivered c data now w Hne.
    destruct (onCallback_sends delivered c data now w) as [w'|w'] eqn:E;
      cbn in Hne.
    + unfold onCallback_sends in E.
      destruct (is_preset data).
      { exfalso. apply Hne. repeat case_match; simplify_eq; reflexivity. }
      destruct (String.eqb_spec data "report_confirm_save") as [->|_].
      * split; [reflexivity|]. split; [now exists w'|].
        destruct (rState (rsess w) !! c) as [st|] eqn:Hst;
          [|exfalso; apply Hne; now simplify_eq].
        exists st. split; [reflexivity|].
        destruct (st_mode (so_base st)) eqn:Hm;
          try (exfalso; apply Hne; now simplify_eq).
        split; [reflexivity|].
        destruct (st_step (so_base st)) as [k|] eqn:Hk;
          [|exfalso; apply Hne; now simplify_eq].
        destruct (Z.eq_dec k 7) as [->|Hk7]; [reflexivity|].
        exfalso. apply Hne.
        repeat case_match; simplify_eq; try reflexivity; now elim Hk7.
      * exfalso. apply Hne. repeat case_match; simplify_eq; reflexivity.
    + apply rejected_keeps_reports in E as [E _]. contradiction.
  - intros i c w rd Hne. unfold cmd_delete in *.
    destruct (getNoteByIdStmt i c (db w)) as [n|]; [now elim Hne|].
    split; [reflexivity|].
    destruct (getReportByIdStmt i c rd) as [rep|] eqn:Hr; [|now elim Hne].
    exists rep. split; [reflexivity|].
    unfold deleteReportByIdStmt. now rewrite Hr.
Qed.

(** X26.  A text that is no timestamp, typed at one of the three time
    steps of the create wizard, or at a time step of the edit wizard
    when it is not one of the keep words, only sends the notice: the
    step, the working record and the table stay, and the session is
    not stored again, so its expiry is not pushed back. *)
Theorem unrecognised_time_changes_nothing (c : Z) (msg : string)
    (now : Z) (w : rworld) (m : mode) (k : Z) (d : report_data) :
  at_step w c m k d ->
  3 <= k <= 5 ->
  Text.is_empty msg = false ->
  parseCustomTimestamp ms ch (Text.trim msg) now = None ->
  m = create_report \/
    (m = edit_report /\ gives_value (Text.trim msg) = true) ->
  r_onMessage ms ch c msg now w = RDone (r_send c RBadTime w) /\
  rsess (r_send c RBadTime w) = rsess w.
Proof.
  intros (st & Hst & Hm & Hk & Hd) Hr He Hp Hmode.
  split; [|reflexivity].
  assert (Hcases : k = 3 \/ k = 4 \/ k = 5) by lia.
  destruct Hmode as [->|[-> Hg]].
  - rewrite (in_create_report c msg now w st d Hst Hm Hd He).
    unfold handle_create_report. rewrite Hk.
    destruct Hcases as [-> | [-> | ->]]; now rewrite Hp.
  - rewrite (in_edit_report c msg now w st d Hst Hm Hd He).
    unfold handle_edit_report, edited_time. rewrite Hk, Hg, Hp.
    now destruct Hcases as [-> | [-> | ->]].
Qed.

Lemma preset_tag_cases (tag : string) (now dt : Z) :
  computePresetDatetime tag now = Some dt ->
  tag = "now" \/ tag = "today_08" \/ tag = "today_13" \/
  tag = "tomorrow_08".
Proof.
  unfold computePresetDatetime.
  destruct (String.eqb_spec tag "now"); [auto|].
  destruct (String.eqb_spec tag "today_08"); [auto|].
  destruct (String.eqb_spec tag "today_13"); [auto|].
  destruct (String.eqb_spec tag "tomorrow_08"); [auto|discriminate].
Qed.

(** A preset button of the create wizard, at any step. *)
Lemma preset_press (c : Z) (w : rworld) (k : Z) (d : report_data)
    (tag : string) (now dt : Z) (f : string) (k' : Z)
    (set : Z -> report_data -> report_data) :
  at_step w c create_report k d ->
  computePresetDatetime tag now = Some dt ->
  (f, k', set) ∈ [ ("report_time", 4, set_report_time);
                   ("receive_time", 5, set_receive_time);
                   ("done_time", 6, set_done_time) ] ->
  exists w1, onCallback c ("preset|" ++ f ++ "|" ++ tag) now w = RDone w1 /\
    rdb w1 = rdb w /\ at_step w1 c create_report k' (set dt d).
Proof.
  intros (st & Hst & Hm & Hk & Hd) Hdt Hin.
  pose proof (preset_tag_cases tag now dt Hdt) as Htag.
  assert (Hf : f = "report_time" /\ k' = 4 /\ set = set_report_time \/
               f = "receive_time" /\ k' = 5 /\ set = set_receive_time \/
               f = "done_time" /\ k' = 6 /\ set = set_done_time).
  { repeat (apply elem_of_cons in Hin as [Hin|Hin];
            [injection Hin as -> -> ->; tauto|]).
    now apply elem_of_nil in Hin. }
  assert (Hparts : is_preset ("preset|" ++ f ++ "|" ++ tag) = true /\
                   preset_parts ("preset|" ++ f ++ "|" ++ tag)
                   = (Some f, Some tag) /\
                   String.eqb tag "custom" = false).
  { destruct Hf as [(-> & _)|[(-> & _)|(-> & _)]];
      destruct Htag as [->|[-> | [-> | ->]]]; repeat split; reflexivity. }
  destruct Hparts as (Hp1 & Hp2 & Hp3).
  unfold onCallback. rewrite Hp1, Hp2, Hst, Hp3, Hdt, Hm, Hd.
  destruct Hf as [(-> & -> & ->)|[(-> & -> & ->)|(-> & -> & ->)]];
    cbn [preset_target String.eqb Ascii.eqb Bool.eqb];
    (eexists; split; [reflexivity|]; split; [reflexivity|]);
    rewrite <- Hm; apply r_set_at_step.
Qed.

(** X27.  A preset button works on the create wizard at whatever step
    it is: it writes its own field and sets the step that follows that
    field.  So a button of an earlier keyboard, pressed at the preview,
    takes the wizard back, and the save button is then refused: nothing
    is stored and the session stays. *)
Theorem stale_preset_button_reopens_the_wizard (c : Z) (w : rworld)
    (k : Z) (d : report_data) (tag : string) (now now' dt : Z)
    (f : string) (k' : Z) (set : Z -> report_data -> report_data) :
  at_step w c create_report k d ->
  computePresetDatetime tag now = Some dt ->
  (f, k', set) ∈ [ ("report_time", 4, set_report_time);
                   ("receive_time", 5, set_receive_time);
                   ("done_time", 6, set_done_time) ] ->
  let w' := r_run ms ch
              [ RButton c ("preset|" ++ f ++ "|" ++ tag) now;
                RButton c "report_confirm_save" now' ] w in
  rdb w' = rdb w /\
  at_step w' c create_report k' (set dt d) /\
  last (answers w') = Some (Some "Tidak ada laporan untuk disimpan.").
Proof.
  intros Hat Hdt Hin. unfold r_run. cbn [foldl].
  destruct (preset_press c w k d tag now dt f k' set Hat Hdt Hin)
    as (w1 & R1 & D1 & A1).
  rewrite (step_button _ _ _ _ _ R1).
  assert (Hk' : k' <> 7).
  { repeat (apply elem_of_cons in Hin as [Hin|Hin];
            [injection Hin as _ -> _; discriminate|]).
    now apply elem_of_nil in Hin. }
  assert (R2 : onCallback c "report_confirm_save" now' w1
               = RDone (r_answer (Some "Tidak ada laporan untuk disimpan.")
                          w1)).
  { destruct A1 as (st & Hst & Hm & Hk & Hd). unfold onCallback.
    change (is_preset "report_confirm_save") with false.
    change (String.eqb "report_confirm_save" "report_confirm_save")
      with true.
    cbv iota. rewrite Hst, Hm, Hk.
    repeat case_match; simplify_eq; try reflexivity; now elim Hk'. }
  rewrite (step_button _ _ _ _ _ R2).
  split; [exact D1|]. split; [exact A1|].
  cbn. apply last_snoc.
Qed.

Lemma create_keeps_answers (c : Z) (text : string) (now : Z)
    (st : state_obj) (d : report_data) (w w' : rworld) :
  handle_create_report ms ch c text now st d w = Some w' ->
  answers w' = answers w.
Proof.
  unfold handle_create_report. intros H.
  repeat case_match; simplify_eq; reflexivity.
Qed.

Lemma edit_keeps_answers (c : Z) (text : string) (now : Z)
    (st : state_obj) (d : report_data) (w w' : rworld) :
  handle_edit_report ms ch c text now st d w = Some (RDone w') ->
  answers w' = answers w.
Proof.
  unfold handle_edit_report. intros H.
  repeat case_match; simplify_eq; reflexivity.
Qed.

Lemma preset_parts_field (data : string) (f : option string) (t : string) :
  preset_parts data = (f, Some t) -> is_Some f.
Proof.
  unfold preset_parts. intros H. injection H as Hf Ht. subst f.
  apply lookup_lt_is_Some. apply lookup_lt_Some in Ht. lia.
Qed.

(** X28.  The button handler answers a press ([answerCallbackQuery]) at
    most once: once on every run that returns, and not at all on a run
    that is rejected.  A run is rejected only when a preset applies to
    the session and the message it awaits is not delivered or the
    session has no working record, or when the save button is pressed
    at the preview on a record with an unset field (or none), where the
    statement throws; the table of reports is then unchanged.  The
    report branches of the message handler and [/edit_report] never
    answer a press. *)
Theorem button_press_is_answered_unless_rejected :
  (forall delivered c data now w,
     match onCallback_sends delivered c data now w with
     | CbReturned w' => exists a, answers w' = (answers w ++ [a])%list
     | CbRejected w' =>
         answers w' = answers w /\ rdb w' = rdb w /\
         exists st,
           rState (rsess w) !! c = Some st /\
           ((exists f t dt,
               preset_parts data = (Some f, Some t) /\
               computePresetDatetime t now = Some dt /\
               is_Some (preset_target (st_mode (so_base st)) f dt) /\
               (delivered = false \/ so_data st = None)) \/
            (data = "report_confirm_save" /\
             st_mode (so_base st) = create_report /\
             st_step (so_base st) = Some 7 /\
             match so_data st with
             | Some d => complete d = false
             | None => True
             end))
     end) /\
  (forall w w' e,
     r_handle ms ch w e = RDone w' ->
     match e with
     | RButton _ _ _ => True
     | _ => answers w' = answers w
     end).
Proof.
  split.
  - intros delivered c data now w.
    destruct (onCallback_sends delivered c data now w) as [w'|w'] eqn:E.
    + unfold onCallback_sends in E.
      repeat case_match; simplify_eq; eexists; reflexivity.
    + destruct (rejected_keeps_reports _ _ _ _ _ _ E) as [Hdb Hans].
      split; [exact Hans|]. split; [exact Hdb|].
      unfold onCallback_sends in E.
      destruct (is_preset data).
      * destruct (preset_parts data) as [field tag] eqn:Hparts.
        destruct (rState (rsess w) !! c) as [st|] eqn:Hst; [|discriminate].
        exists st. split; [reflexivity|]. left.
        destruct tag as [t|]; [|discriminate].
        destruct (preset_parts_field data field t Hparts) as [f ->].
        destruct (String.eqb t "custom"); [discriminate|].
        destruct (computePresetDatetime t now) as [dt|] eqn:Hdt;
          [|discriminate].
        exists f, t, dt. split; [reflexivity|]. split; [exact Hdt|].
        destruct (preset_target (st_mode (so_base st)) f dt)
          as [[[set step] m]|] eqn:Ht; [|discriminate].
        split; [eexists; reflexivity|].
        destruct (so_data st) as [d|]; [|now right].
        destruct delivered; [discriminate|now left].
      * destruct (String.eqb_spec data "report_confirm_save") as [->|_];
          [|repeat case_match; discriminate].
        destruct (rState (rsess w) !! c) as [st|] eqn:Hst; [|discriminate].
        exists st. split; [reflexivity|]. right. split; [reflexivity|].
        destruct (st_mode (so_base st)) eqn:Hm; try discriminate.
        split; [reflexivity|].
        destruct (st_step (so_base st)) as [k|] eqn:Hk; [|discriminate].
        destruct (Z.eq_dec k 7) as [->|Hk7].
        -- split; [reflexivity|].
           destruct (so_data st) as [d|]; [|exact I].
           unfold complete in *.
           repeat case_match; simplify_eq; reflexivity.
        -- exfalso. repeat case_match; simplify_eq; now elim Hk7.
  - intros w w' e H.
    destruct e as [c text now|c data now|i c now]; cbn in H; [|exact I|].
    + unfold r_onMessage in H.
      destruct (Text.is_empty text); [now simplify_eq|].
      destruct (rState (rsess w) !! c) as [st|] eqn:Hst;
        [|now apply keyboard_keeps_reports in H as [_ H]].
      destruct (st_mode (so_base st)) eqn:Hm; try discriminate;
        destruct (so_data st) as [d|] eqn:Hd; try discriminate.
      * destruct (handle_create_report ms ch c (Text.trim text) now st d w)
          as [w1|] eqn:E.
        -- simplify_eq. now apply create_keeps_answers in E.
        -- now apply keyboard_keeps_reports in H as [_ H].
      * destruct (handle_edit_report ms ch c (Text.trim text) now st d w)
          as [o|] eqn:E.
        -- subst o. now apply edit_keeps_answers in E.
        -- now apply keyboard_keeps_reports in H as [_ H].
    + simplify_eq. unfold cmd_edit_report.
      now destruct (getReportByIdStmt i c (rdb w)).
Qed.

(** The button handler of the runs above is this one when the awaited
    message is delivered; what is left out there is a rejected run. *)
Lemma onCallback_delivered (c : Z) (data : string) (now : Z) (w : rworld) :
  onCallback c data now w =
    match onCallback_sends true c data now w with
    | CbReturned w' => RDone w'
    | CbRejected _ => Elsewhere
    end.
Proof.
  unfold onCallback, onCallback_sends, complete, report_of.
  destruct (is_preset data).
  { destruct (preset_parts data) as [field tag].
    repeat case_match; simplify_eq; reflexivity. }
  destruct (String.eqb data "report_confirm_save");
    [|repeat case_match; reflexivity].
  destruct (rState (rsess w) !! c) as [st|]; [|reflexivity].
  destruct (st_mode (so_base st)); try reflexivity.
  destruct (st_step (so_base st)) as [[|p|p]|]; try reflexivity.
  repeat (destruct p as [p|p|]; try reflexivity).
  all: destruct (so_data st) as [d|]; try reflexivity.
  all: destruct (d_title d), (d_completion d), (d_report_time d),
         (d_receive_time d), (d_done_time d), (d_notes d); reflexivity.
Qed.

Lemma r_set_editing (c i : Z) (st : state_obj) (k now : Z)
    (d : report_data) (msg : rmsg) (w : rworld) :
  st_mode (so_base st) = edit_report ->
  st_id (so_base st) = Some i ->
  editing (r_send c msg (r_set c (with_step st k d) now w)) c i k d.
Proof.
  intros Hm Hi. exists (with_step st k d). cbn.
  now rewrite lookup_insert_eq.
Qed.

(** A typed answer at a text step of the edit wizard. *)
Lemma edit_text_step (c i : Z) (msg : string) (now : Z) (w : rworld)
    (k : Z) (d : report_data) :
  editing w c i k d ->
  Text.is_empty msg = false ->
  (k = 1 -> exists w', r_onMessage ms ch c msg now w = RDone w' /\
      rdb w' = rdb w /\
      editing w' c i 2 (if String.eqb (Text.trim msg) "-" then d
                        else set_title (Text.trim msg) d)) /\
  (k = 2 -> exists w', r_onMessage ms ch c msg now w = RDone w' /\
      rdb w' = rdb w /\
      editing w' c i 3 (if String.eqb (Text.trim msg) "-" then d
                        else set_completion (Text.trim msg) d)).
Proof.
  intros (st & Hst & Hm & Hi & Hk & Hd) He.
  pose proof (in_edit_report c msg now w st d Hst Hm Hd He) as E.
  unfold handle_edit_report in E. rewrite Hk in E.
  split; intros ->; rewrite E; eexists; (split; [reflexivity|]);
    (split; [reflexivity|]); now apply r_set_editing.
Qed.

(** A typed answer at a time step of the edit wizard. *)
Lemma edit_time_step (c i : Z) (msg : string) (now : Z) (w : rworld)
    (k : Z) (d : report_data) :
  editing w c i k d ->
  Text.is_empty msg = false ->
  (forall t, k = 3 ->
     edited_time ms ch (Text.trim msg) now (d_report_time d) = Some t ->
     exists w', r_onMessage ms ch c msg now w = RDone w' /\
       rdb w' = rdb w /\ editing w' c i 4 (put_report_time t d)) /\
  (forall t, k = 4 ->
     edited_time ms ch (Text.trim msg) now (d_receive_time d) = Some t ->
     exists w', r_onMessage ms ch c msg now w = RDone w' /\
       rdb w' = rdb w /\ editing w' c i 5 (put_receive_time t d)) /\
  (forall t, k = 5 ->
     edited_time ms ch (Text.trim msg) now (d_done_time d) = Some t ->
     exists w', r_onMessage ms ch c msg now w = RDone w' /\
       rdb w' = rdb w /\ editing w' c i 6 (put_done_time t d)).
Proof.
  intros (st & Hst & Hm & Hi & Hk & Hd) He.
  pose proof (in_edit_report c msg now w st d Hst Hm Hd He) as E.
  unfold handle_edit_report in E. rewrite Hk in E.
  repeat split; intros t -> Ht; rewrite Ht in E; rewrite E; eexists;
    (split; [reflexivity|]); (split; [reflexivity|]);
    now apply r_set_editing.
Qed.

(** The last step of the edit wizard. *)
Lemma edit_last_step (c i : Z) (msg : string) (now : Z) (w : rworld)
    (d : report_data) (title : string) :
  editing w c i 6 d ->
  Text.is_empty msg = false ->
  d_title d = Some title ->
  let d' := if String.eqb (Text.trim msg) "-" then d
            else set_notes (Text.trim msg) d in
  exists w', r_onMessage ms ch c msg now w = RDone w' /\
    rdb w' = updateReportStmt title d' i c (rdb w) /\
    rState (rsess w') !! c = None.
Proof.
  intros (st & Hst & Hm & Hi & Hk & Hd) He Ht d'.
  pose proof (in_edit_report c msg now w st d Hst Hm Hd He) as E.
  unfold handle_edit_report in E. rewrite Hk in E.
  assert (Ht' : d_title d' = Some title).
  { subst d'. now destruct (String.eqb (Text.trim msg) "-"). }
  fold d' in E. rewrite Ht', Hi in E. rewrite E.
  eexists. split; [reflexivity|]. split; [reflexivity|].
  cbn. unfold r_clearState.
  destruct (rTimeouts (rsess w) !! c); cbn; apply lookup_delete_eq.
Qed.

Lemma edit_start (i c now : Z) (w : rworld) (rep : report) :
  getReportByIdStmt i c (rdb w) = Some rep ->
  rdb (cmd_edit_report i c now w) = rdb w /\
  editing (cmd_edit_report i c now w) c i 1 (data_of rep).
Proof.
  intros H. unfold cmd_edit_report. rewrite H. split; [reflexivity|].
  eexists. cbn. rewrite lookup_insert_eq. repeat split; reflexivity.
Qed.

Lemma own_report (i c : Z) (d : report_db) (rep : report) :
  getReportByIdStmt i c d = Some rep ->
  reports d !! i = Some rep /\ rp_chat_id rep = c.
Proof.
  unfold getReportByIdStmt. intros H.
  destruct (reports d !! i) as [r|]; [|discriminate].
  destruct (Z.eqb_spec (rp_chat_id r) c); now simplify_eq.
Qed.

(** X29.  The edit wizard, from [/edit_report] to its last message:
    the six answers are taken in order; "-" at a text step and "skip"
    (in any case) or "-" at a time step keep the value the row had when
    the command was given, any other answer replaces it, and the last
    answer writes the row once, under its id, and ends the session.
    The row count and the other rows do not change. *)
Theorem edit_wizard_rewrites_the_answered_fields (i c : Z) (w : rworld)
    (rep : report) (m1 m2 m3 m4 m5 m6 : string)
    (n0 n1 n2 n3 n4 n5 n6 : Z) (t3 t4 t5 : option Z) :
  getReportByIdStmt i c (rdb w) = Some rep ->
  Text.is_empty m1 = false -> Text.is_empty m2 = false ->
  Text.is_empty m3 = false -> Text.is_empty m4 = false ->
  Text.is_empty m5 = false -> Text.is_empty m6 = false ->
  edited_time ms ch (Text.trim m3) n3 (rp_report_time rep) = Some t3 ->
  edited_time ms ch (Text.trim m4) n4 (rp_receive_time rep) = Some t4 ->
  edited_time ms ch (Text.trim m5) n5 (rp_done_time rep) = Some t5 ->
  let w' := r_run ms ch
              [ REditReport i c n0; RMessage c m1 n1; RMessage c m2 n2;
                RMessage c m3 n3; RMessage c m4 n4; RMessage c m5 n5;
                RMessage c m6 n6 ] w in
  reports (rdb w') =
    <[i := {| rp_chat_id := c;
              rp_title := if String.eqb (Text.trim m1) "-"
                          then rp_title rep else Text.trim m1;
              rp_completion := if String.eqb (Text.trim m2) "-"
                               then rp_completion rep
                               else Some (Text.trim m2);
              rp_report_time := t3;
              rp_receive_time := t4;
              rp_done_time := t5;
              rp_notes := if String.eqb (Text.trim m6) "-"
                          then rp_notes rep
                          else Some (Text.trim m6) |}]> (reports (rdb w)) /\
  reports_seq (rdb w') = reports_seq (rdb w) /\
  rState (rsess w') !! c = None.
Proof.
  intros Hrep E1 E2 E3 E4 E5 E6 P3 P4 P5. unfold r_run. cbn [foldl].
  destruct (edit_start i c n0 w rep Hrep) as (D0 & A0).
  change (r_step ms ch w (REditReport i c n0))
    with (cmd_edit_report i c n0 w).
  set (w0 := cmd_edit_report i c n0 w) in *.
  destruct (edit_text_step c i m1 n1 w0 1 _ A0 E1) as (H & _).
  destruct (H eq_refl) as (w1 & R1 & D1 & A1). clear H.
  rewrite (step_message _ _ _ _ _ R1).
  destruct (edit_text_step c i m2 n2 w1 2 _ A1 E2) as (_ & H).
  destruct (H eq_refl) as (w2 & R2 & D2 & A2). clear H.
  rewrite (step_message _ _ _ _ _ R2).
  destruct (edit_time_step c i m3 n3 w2 3 _ A2 E3) as (H & _ & _).
  destruct (H t3 eq_refl) as (w3 & R3 & D3 & A3).
  { now destruct (String.eqb (Text.trim m1) "-"),
                 (String.eqb (Text.trim m2) "-"). }
  clear H. rewrite (step_message _ _ _ _ _ R3).
  destruct (edit_time_step c i m4 n4 w3 4 _ A3 E4) as (_ & H & _).
  destruct (H t4 eq_refl) as (w4 & R4 & D4 & A4).
  { now destruct (String.eqb (Text.trim m1) "-"),
                 (String.eqb (Text.trim m2) "-"). }
  clear H. rewrite (step_message _ _ _ _ _ R4).
  destruct (edit_time_step c i m5 n5 w4 5 _ A4 E5) as (_ & _ & H).
  destruct (H t5 eq_refl) as (w5 & R5 & D5 & A5).
  { now destruct (String.eqb (Text.trim m1) "-"),
                 (String.eqb (Text.trim m2) "-"). }
  clear H. rewrite (step_message _ _ _ _ _ R5).
  destruct (edit_last_step c i m6 n6 w5 _
              (if String.eqb (Text.trim m1) "-"
               then rp_title rep else Text.trim m1) A5 E6)
    as (w6 & R6 & D6 & A6).
  { now destruct (String.eqb (Text.trim m1) "-"),
                 (String.eqb (Text.trim m2) "-"). }
  rewrite (step_message _ _ _ _ _ R6).
  split; [|split; [|exact A6]].
  - rewrite D6, D5, D4, D3, D2, D1, D0.
    apply own_report in Hrep as [Hrow Hc].
    unfold updateReportStmt. cbn [reports].
    apply map_eq. intros j. destruct (decide (j = i)) as [->|Hj].
    + rewrite lookup_alter_eq, lookup_insert_eq, Hrow. cbn.
      rewrite Hc, Z.eqb_refl.
      now destruct (String.eqb (Text.trim m1) "-"),
                   (String.eqb (Text.trim m2) "-"),
                   (String.eqb (Text.trim m6) "-").
    + now rewrite lookup_alter_ne, lookup_insert_ne by congruence.
  - rewrite D6, D5, D4, D3, D2, D1, D0. reflexivity.
Qed.

End ReportProperties.

Lemma delete_note_gone (i c : Z) (w : world) (n : note) :
  getNoteByIdStmt i c (db w) = Some n ->
  getNoteByIdStmt i c (db (delete_note i c w)) = None.
Proof.
  intros H. unfold delete_note. rewrite H. cbn.
  unfold deleteNoteByIdStmt. rewrite H.
  unfold getNoteByIdStmt. cbn. now rewrite lookup_delete_eq.
Qed.

(** X30.  [/delete <id>] looks at the reminders first: when the chat
    owns both a reminder and a report of that id (the two tables count
    their ids separately), the command removes the reminder only and
    the report is still there; given again, it removes the report and
    leaves the reminders and the timers alone. *)
Theorem delete_takes_the_reminder_before_the_report (i c : Z) (w : world)
    (rd : report_db) (n : note) (rep : report) :
  getNoteByIdStmt i c (db w) = Some n ->
  getReportByIdStmt i c rd = Some rep ->
  let '(w1, rd1, a1) := cmd_delete i c w rd in
  let '(w2, rd2, a2) := cmd_delete i c w1 rd1 in
  a1 = RNoteDeleted i /\ rd1 = rd /\
  getNoteByIdStmt i c (db w1) = None /\
  a2 = RReportDeleted i /\ w2 = w1 /\
  getReportByIdStmt i c rd2 = None /\
  forall j, j <> i -> reports rd2 !! j = reports rd !! j.
Proof.
  intros Hn Hr. unfold cmd_delete at 1. rewrite Hn.
  pose proof (delete_note_gone i c w n Hn) as Hgone.
  unfold cmd_delete. rewrite Hgone, Hr.
  repeat split; try reflexivity; try exact Hgone.
  - unfold deleteReportByIdStmt. rewrite Hr.
    unfold getReportByIdStmt. cbn. now rewrite lookup_delete_eq.
  - intros j Hj. unfold deleteReportByIdStmt. rewrite Hr. cbn.
    now rewrite lookup_delete_ne by congruence.
Qed.


Lemma reports_change_only_at_the_three_writes_witness :
  exists c st,
    rState (rsess previewed) !! c = Some st /\
    (((exists now,
         RButton 7 "report_confirm_save" (clock 20000 9 3)
         = RButton c "report_confirm_save" now) /\
      st_mode (so_base st) = create_report /\
      st_step (so_base st) = Some 7) \/
     ((exists text now,
         RButton 7 "report_confirm_save" (clock 20000 9 3)
         = RMessage c text now) /\
      st_mode (so_base st) = edit_report /\
      st_step (so_base st) = Some 6)).
Proof.
  apply (proj1 (reports_change_only_at_the_three_writes sample_strict
                  no_chrono) previewed saved).
  - vm_compute. reflexivity.
  - intros H. apply (f_equal reports_seq) in H. vm_compute in H.
    discriminate H.
Defined.

Lemma typing_report_at_step (k : Z) (d : report_data) :
  at_step (typing_report k d) 7 create_report k d.
Proof.
  eexists. split; [apply lookup_insert_eq|]. repeat split; reflexivity.
Qed.

Lemma unrecognised_time_changes_nothing_witness :
  r_onMessage sample_strict no_chrono 7 "kemarin sore" (clock 20000 9 1)
    (typing_report 4 full_data)
  = RDone (r_send 7 RBadTime (typing_report 4 full_data)) /\
  rsess (r_send 7 RBadTime (typing_report 4 full_data))
  = rsess (typing_report 4 full_data).
Proof.
  apply (unrecognised_time_changes_nothing sample_strict no_chrono 7
           "kemarin sore" (clock 20000 9 1) (typing_report 4 full_data)
           create_report 4 full_data).
  - apply typing_report_at_step.
  - lia.
  - reflexivity.
  - vm_compute. reflexivity.
  - now left.
Defined.

Lemma stale_preset_button_reopens_the_wizard_witness :
  let w' := r_run sample_strict no_chrono
              [ RButton 7 ("preset|" ++ "receive_time" ++ "|" ++ "today_13")
                  (clock 20000 9 3);
                RButton 7 "report_confirm_save" (clock 20000 9 4) ]
              (typing_report 7 full_data) in
  rdb w' = rdb (typing_report 7 full_data) /\
  at_step w' 7 create_report 5
    (set_receive_time (clock 20000 13 0) full_data) /\
  last (answers w') = Some (Some "Tidak ada laporan untuk disimpan.").
Proof.
  apply (stale_preset_button_reopens_the_wizard sample_strict no_chrono 7
           (typing_report 7 full_data) 7 full_data "today_13"
           (clock 20000 9 3) (clock 20000 9 4) (clock 20000 13 0)
           "receive_time" 5 set_receive_time).
  - apply typing_report_at_step.
  - vm_compute. reflexivity.
  - apply elem_of_cons. right. apply elem_of_cons. now left.
Defined.

Lemma button_press_is_answered_unless_rejected_witness :
  onCallback_sends true 7 "report_confirm_save" (clock 20000 9 2) untitled
  = CbRejected untitled /\
  match onCallback_sends true 7 "report_confirm_save" (clock 20000 9 2)
          untitled with
  | CbReturned w' => exists a, answers w' = (answers untitled ++ [a])%list
  | CbRejected w' =>
      answers w' = answers untitled /\ rdb w' = rdb untitled /\
      exists st,
        rState (rsess untitled) !! 7 = Some st /\
        ((exists f t dt,
            preset_parts "report_confirm_save" = (Some f, Some t) /\
            computePresetDatetime t (clock 20000 9 2) = Some dt /\
            is_Some (preset_target (st_mode (so_base st)) f dt) /\
            (true = false \/ so_data st = None)) \/
         ("report_confirm_save" = "report_confirm_save" /\
          st_mode (so_base st) = create_report /\
          st_step (so_base st) = Some 7 /\
          match so_data st with
          | Some d => complete d = false
          | None => True
          end))
  end.
Proof.
  split; [vm_compute; reflexivity|].
  exact (proj1 (button_press_is_answered_unless_rejected sample_strict
                  no_chrono)
           true 7 "report_confirm_save" (clock 20000 9 2) untitled).
Defined.

Lemma edit_wizard_rewrites_the_answered_fields_witness :
  let w' := r_run sample_strict no_chrono
              [ REditReport 1 7 (clock 20000 10 0);
                RMessage 7 "-" (clock 20000 10 0);
                RMessage 7 "Ganti roller dan kabel" (clock 20000 10 0);
                RMessage 7 "Skip" (clock 20000 10 1);
                RMessage 7 "-" (clock 20000 10 1);
                RMessage 7 "2024-10-04 08:00" (clock 20000 10 1);
                RMessage 7 "beres" (clock 20000 10 2) ] saved in
  reports (rdb w') =
    <[1 := {| rp_chat_id := 7;
              rp_title := "Printer macet";
              rp_completion := Some "Ganti roller dan kabel";
              rp_report_time := Some (clock 20000 8 0);
              rp_receive_time := Some (clock 20000 8 0);
              rp_done_time := Some (clock 20000 8 0);
              rp_notes := Some "beres" |}]> (reports (rdb saved)) /\
  reports_seq (rdb w') = reports_seq (rdb saved) /\
  rState (rsess w') !! 7 = None.
Proof.
  apply (edit_wizard_rewrites_the_answered_fields sample_strict no_chrono
           1 7 saved (report_of 7 "Printer macet" full_data));
    vm_compute; reflexivity.
Defined.

Lemma delete_takes_the_reminder_before_the_report_witness :
  let '(w1, rd1, a1) :=
    cmd_delete 1 7 (boot one_note (clock 20000 7 0)) (rdb saved) in
  let '(w2, rd2, a2) := cmd_delete 1 7 w1 rd1 in
  a1 = RNoteDeleted 1 /\ rd1 = rdb saved /\
  getNoteByIdStmt 1 7 (db w1) = None /\
  a2 = RReportDeleted 1 /\ w2 = w1 /\
  getReportByIdStmt 1 7 rd2 = None /\
  forall j, j <> 1 -> reports rd2 !! j = reports (rdb saved) !! j.
Proof.
  apply (delete_takes_the_reminder_before_the_report 1 7
           (boot one_note (clock 20000 7 0)) (rdb saved)
           (sample_note 1 (clock 20000 8 0))
           (report_of 7 "Printer macet" full_data));
    vm_compute; reflexivity.
Defined.
